(** * tonapp: the accounting and settlement engine

    A shallow embedding of the ledger store (package [database]) and of the
    business logic of the HTTP handlers (package [handler]) of tonapp,
    followed by the properties of the accounting rules.  The embedding also
    covers the rate limiter (package [middleware]), the matching of incoming
    payments and the withdrawal of the TON client (package [ton]) and the
    binding of path parameters by the routes.

    Modelling conventions.
    - The SQLite store is a record of tables; a table is the list of its
      rows in rowid order.  [UPDATE ... WHERE] is a map over the rows,
      [DELETE ... WHERE] a filter, [QueryRow] the first matching row.
    - Monetary amounts ([float64] in Go, [REAL] in SQLite) are rationals
      [Q].  A stored amount is the term that the source computes, with the
      operations of the source in the order of the source; an equality [=]
      between such terms holds of the float64 values as well.  Comparisons
      between amounts are decided in [Q].  Where rounding decides what the
      program does or returns, the expression of the source is evaluated on
      binary64 itself (module [float64]).
    - Go's [int]/[int64] are [Z]; the one product that the code computes on
      caller-supplied integers (the page offset) wraps around at 64 bits.
    - [time.Now()], [rand.Intn] and the TON client are inputs of the
      functions that consult them.
    - The foreign keys that the schema declares are not enforced: the
      connection is opened without the [foreign_keys] pragma.
    - The store itself does not fail: a function returns an error only where
      the Go code produces one from the data ([sql.ErrNoRows], a violated
      uniqueness constraint, a column that [Scan] cannot convert, an explicit
      [fmt.Errorf]). *)

From Stdlib Require Import ZArith QArith List String Bool Lia Lqa.
From Stdlib Require Import Permutation Sorted.
From Stdlib Require DecimalString.
From Stdlib Require Ascii.
From Stdlib Require Import PrimFloat.
From Stdlib Require SpecFloat FloatOps.
Import ListNotations.

#[local] Set Warnings "-inexact-float".

Local Open Scope string_scope.
Local Open Scope list_scope.
Local Open Scope Z_scope.

(** ** Comparisons on amounts *)

Definition Qltb (x y : Q) : bool := negb (Qle_bool y x).

Definition Qleb (x y : Q) : bool := Qle_bool x y.

(** ** Amounts on binary64 *)

Module float64.

(** [float64(n)] of an [int64]: the nearest binary64, ties to even. *)
Definition of_int64 (n : Z) : float :=
  FloatOps.SF2Prim
    (SpecFloat.binary_normalize FloatOps.prec FloatOps.emax n 0 false).

(** [earnings := profitAmount * (percent / 100.0)] of
    [ProcessReferralEarnings]. *)
Definition earnings (profitAmount percent : float) : float :=
  (profitAmount * (percent / 100))%float.



(** [math.Abs(amountTON-expectedAmount) < 0.000001] of [CheckDeposit]. *)
Definition near (amountTON expectedAmount : float) : bool :=
  PrimFloat.ltb (PrimFloat.abs (amountTON - expectedAmount)) 0.000001.

End float64.

(** ** SQL building blocks *)

Module sql.

Section Rows.
Context {R : Type}.

(** A table with [INTEGER PRIMARY KEY AUTOINCREMENT]: its rows and the
    largest rowid ever handed out (the [sqlite_sequence] entry). *)
Record Table : Type := mkTable { rows : list R; seq : Z }.

Definition empty : Table := mkTable [] 0.

Fixpoint max_id (id_of : R -> Z) (l : list R) : Z :=
  match l with
  | [] => 0
  | r :: l' => Z.max (id_of r) (max_id id_of l')
  end.

Definition next_id (id_of : R -> Z) (t : Table) : Z :=
  Z.max (seq t) (max_id id_of (rows t)) + 1.

(** [INSERT INTO t (...) VALUES (...)]: the row is built from the fresh id. *)
Definition insert (id_of : R -> Z) (mk : Z -> R) (t : Table) : Table :=
  let id := next_id id_of t in
  mkTable (rows t ++ [mk id]) id.

(** [UPDATE t SET ... WHERE p]. *)
Definition update_rows (p : R -> bool) (f : R -> R) (l : list R) : list R :=
  map (fun r => if p r then f r else r) l.

Definition update (p : R -> bool) (f : R -> R) (t : Table) : Table :=
  mkTable (update_rows p f (rows t)) (seq t).

(** [DELETE FROM t WHERE p]. *)
Definition delete_rows (p : R -> bool) (l : list R) : list R :=
  filter (fun r => negb (p r)) l.

Definition delete (p : R -> bool) (t : Table) : Table :=
  mkTable (delete_rows p (rows t)) (seq t).

(** [ORDER BY key DESC]: a stable insertion sort, ties stay in rowid order. *)
Fixpoint insert_desc (key : R -> Z) (x : R) (l : list R) : list R :=
  match l with
  | [] => [x]
  | y :: l' => if key y <=? key x then x :: l else y :: insert_desc key x l'
  end.

Fixpoint order_by_desc (key : R -> Z) (l : list R) : list R :=
  match l with
  | [] => []
  | x :: l' => insert_desc key x (order_by_desc key l')
  end.

(** The order of [ORDER BY key DESC]. *)
Definition desc (key : R -> Z) (a b : R) : Prop := key b <= key a.

(** [LIMIT n OFFSET m]: a negative offset counts as 0, a negative limit as
    no limit. *)
Definition limit_offset (n m : Z) (l : list R) : list R :=
  let l' := skipn (Z.to_nat m) l in
  if n <? 0 then l' else firstn (Z.to_nat n) l'.

End Rows.

Arguments Table R : clear implicits.

End sql.

(** Go's 64-bit [int]: the value of an arithmetic result after wrap-around. *)
Definition int_wrap (z : Z) : Z := (z + 2 ^ 63) mod 2 ^ 64 - 2 ^ 63.

Definition max_int : Z := 2 ^ 63 - 1.

(** ** Package model *)

Module model.

(** A row of the [users] table. *)
Record UserRow : Type := mkUserRow {
  u_id : Z;
  u_pub_key : string;
  u_balance : Q;
  u_ref_id : option Z
}.

Record Investment : Type := mkInvestment {
  i_id : Z;
  i_user_id : Z;
  i_type : string;
  i_amount : Q;
  i_created_at : Z
}.

(** [model.User]: the row together with the user's investments. *)
Record User : Type := mkUser {
  ID : Z;
  PubKey : string;
  Balance : Q;
  RefID : option Z;
  Investments : list Investment
}.

Record ReferralEarning : Type := mkReferralEarning {
  re_id : Z;
  re_referrer_id : Z;
  re_referred_id : Z;
  re_amount : Q;
  re_level : Z;
  re_created_at : Z
}.

Record DepositRequest : Type := mkDepositRequest {
  d_id : Z;
  d_user_id : Z;
  d_amount : Q;
  d_status : string;
  d_memo : string;
  d_created_at : Z
}.

(** A row of the [withdrawal_requests] table. *)
Record WithdrawalRequestRow : Type := mkWithdrawalRequestRow {
  wr_id : Z;
  wr_user_id : Z;
  wr_amount : Q;
  wr_status : string;
  wr_created_at : Z
}.

(** [model.WithdrawalStorage]: a row of the [withdrawals] table. *)
Record WithdrawalStorage : Type := mkWithdrawalStorage {
  w_id : Z;
  w_user_id : Z;
  w_amount : Q;
  w_status : string;
  w_tx_hash : option string;
  w_created_at : Z
}.

Record InvestmentTypeConfig : Type := mkInvestmentTypeConfig {
  WeeklyPercent : Q;
  MinAmount : Q;
  LockPeriod : Z
}.

Record ReferralConfig : Type := mkReferralConfig {
  Level1Percent : Q;
  Level2Percent : Q;
  Level3Percent : Q
}.

(** The part of [model.Config] that the business logic reads. *)
Record Config : Type := mkConfig {
  InvestmentTypes : list (string * InvestmentTypeConfig);
  Referral : ReferralConfig
}.

Definition OperationTypeInvestmentCreated : string := "investment_created".
Definition OperationTypeInvestmentClosed : string := "investment_closed".
Definition OperationTypeDeposit : string := "deposit".
Definition OperationTypeWithdrawal : string := "withdrawal".

(** The [Description] of an operation, by the format string that builds it. *)
Inductive Description : Type :=
| DescCreated (investType : string)      (* "Created %s investment" *)
| DescClosed (investType : string)       (* "Closed %s investment" *)
| DescWithdrawal (amount : Q).           (* "Withdrawal of %.2f TON" *)

(** The [Extra] payload of an operation. *)
Inductive Extra : Type :=
| ExtraCreated (investType : string) (weekly_percent : Q) (lock_period : Z)
| ExtraClosed (investType : string) (investment_id investment_created duration_days : Z)
| ExtraTxHash (tx_hash : string).

Record Operation : Type := mkOperation {
  op_id : Z;
  op_user_id : Z;
  op_type : string;
  op_amount : Q;
  op_description : Description;
  op_created_at : Z;
  op_extra : Extra
}.

Record OperationHistory : Type := mkOperationHistory {
  Operations : list Operation;
  Total : Z;
  Page : Z;
  PageSize : Z
}.

End model.

(** ** Package database *)

Module database.
Import model.

Definition StatusPending : string := "pending".
Definition StatusCompleted : string := "completed".
Definition StatusFailed : string := "failed".

(** The store: one field per table of [createTables].  [users] and
    [withdrawals] have a plain [INTEGER PRIMARY KEY]; the other tables hand
    out their ids themselves. *)
Record Database : Type := mkDatabase {
  users : list UserRow;
  investments : sql.Table Investment;
  referral_earnings : sql.Table ReferralEarning;
  deposit_requests : sql.Table DepositRequest;
  withdrawal_requests : sql.Table WithdrawalRequestRow;
  operations : sql.Table Operation;
  withdrawals : list WithdrawalStorage
}.

Definition empty : Database :=
  mkDatabase [] sql.empty sql.empty sql.empty sql.empty sql.empty [].

Definition with_users (d : Database) (x : list UserRow) : Database :=
  mkDatabase x (investments d) (referral_earnings d) (deposit_requests d)
             (withdrawal_requests d) (operations d) (withdrawals d).

Definition with_investments (d : Database) (x : sql.Table Investment) : Database :=
  mkDatabase (users d) x (referral_earnings d) (deposit_requests d)
             (withdrawal_requests d) (operations d) (withdrawals d).

Definition with_referral_earnings (d : Database) (x : sql.Table ReferralEarning) : Database :=
  mkDatabase (users d) (investments d) x (deposit_requests d)
             (withdrawal_requests d) (operations d) (withdrawals d).

Definition with_deposit_requests (d : Database) (x : sql.Table DepositRequest) : Database :=
  mkDatabase (users d) (investments d) (referral_earnings d) x
             (withdrawal_requests d) (operations d) (withdrawals d).

Definition with_withdrawal_requests (d : Database) (x : sql.Table WithdrawalRequestRow) : Database :=
  mkDatabase (users d) (investments d) (referral_earnings d) (deposit_requests d)
             x (operations d) (withdrawals d).

Definition with_operations (d : Database) (x : sql.Table Operation) : Database :=
  mkDatabase (users d) (investments d) (referral_earnings d) (deposit_requests d)
             (withdrawal_requests d) x (withdrawals d).

Definition with_withdrawals (d : Database) (x : list WithdrawalStorage) : Database :=
  mkDatabase (users d) (investments d) (referral_earnings d) (deposit_requests d)
             (withdrawal_requests d) (operations d) x.

(** The errors that the package builds from the data. *)
Inductive error : Type :=
| ErrNoRows                 (* sql.ErrNoRows *)
| ErrConstraint             (* a PRIMARY KEY or UNIQUE constraint failed *)
| ErrInsufficientBalance    (* "insufficient balance" *)
| ErrInvestmentNotFound     (* "investment not found" *)
| ErrNoWithdrawalFound      (* "no withdrawal found for user %d" *)
| ErrScan.                  (* "sql: Scan error on column index 5 ...:
                               unsupported Scan, storing driver.Value type
                               string into type *time.Time" *)

Inductive result (A : Type) : Type :=
| Ok (a : A)
| Err (e : error).

Arguments Ok {A} a.
Arguments Err {A} e.

Definition is_no_rows (e : error) : bool :=
  match e with ErrNoRows => true | _ => false end.

(** [SELECT ... FROM investments WHERE user_id = ?] *)
Definition getUserInvestments (d : Database) (userID : Z) : list Investment :=
  filter (fun i => i_user_id i =? userID) (sql.rows (investments d)).

Definition user_of_row (d : Database) (r : UserRow) : User :=
  mkUser (u_id r) (u_pub_key r) (u_balance r) (u_ref_id r)
         (getUserInvestments d (u_id r)).

(** [SELECT ... FROM users WHERE pub_key = ?] *)
Definition GetUserByPubKey (d : Database) (pubKey : string) : result User :=
  match find (fun r => String.eqb (u_pub_key r) pubKey) (users d) with
  | None => Err ErrNoRows
  | Some r => Ok (user_of_row d r)
  end.

(** [SELECT ... FROM users WHERE id = ?] *)
Definition GetUser (d : Database) (id : Z) : result User :=
  match find (fun r => u_id r =? id) (users d) with
  | None => Err ErrNoRows
  | Some r => Ok (user_of_row d r)
  end.

(** [rnd] is the value of [rand.Intn(1000000000000-1000000000)]. *)
Definition CreateUser (d : Database) (pubKey : string) (refID customID : option Z)
    (rnd : Z) : result User * Database :=
  match GetUserByPubKey d pubKey with
  | Ok existingUser => (Ok existingUser, d)
  | Err e =>
    if negb (is_no_rows e) then (Err e, d)
    else
      let id := match customID with
                | Some c => c
                | None => rnd + 1000000000
                end in
      if existsb (fun r => u_id r =? id) (users d) then (Err ErrConstraint, d)
      else
        let d' := with_users d (users d ++ [mkUserRow id pubKey 0 refID]) in
        (GetUser d' id, d')
  end.

Definition DeleteUser (d : Database) (id : Z) : Database :=
  let d1 := with_investments d
              (sql.delete (fun i => i_user_id i =? id) (investments d)) in
  with_users d1 (sql.delete_rows (fun r => u_id r =? id) (users d1)).

(** [INSERT INTO operations (user_id, type, amount, description, created_at,
    extra)]. *)
Definition insert_operation (d : Database) (userID : Z) (type : string)
    (amount : Q) (description : Description) (created_at : Z) (extra : Extra)
    : Database :=
  with_operations d
    (sql.insert op_id
       (fun id => mkOperation id userID type amount description created_at extra)
       (operations d)).

Definition CreateInvestment (d : Database) (userID : Z) (investType : string)
    (amount : Q) (config : InvestmentTypeConfig) (now : Z) : result Database :=
  match find (fun r => u_id r =? userID) (users d) with
  | None => Err ErrNoRows
  | Some r =>
    let currentBalance := u_balance r in
    if Qltb currentBalance amount then Err ErrInsufficientBalance
    else
      let d1 := with_users d
                  (sql.update_rows (fun r => u_id r =? userID)
                     (fun r => mkUserRow (u_id r) (u_pub_key r)
                                 (u_balance r - amount) (u_ref_id r))
                     (users d)) in
      let d2 := with_investments d1
                  (sql.insert i_id
                     (fun id => mkInvestment id userID investType amount now)
                     (investments d1)) in
      Ok (insert_operation d2 userID OperationTypeInvestmentCreated amount
            (DescCreated investType) now
            (ExtraCreated investType (WeeklyPercent config) (LockPeriod config)))
  end.

Definition DeleteInvestment (d : Database) (userID investmentID : Z) (now : Z)
    : result Database :=
  let matches := fun i => (i_id i =? investmentID) && (i_user_id i =? userID) in
  match find matches (sql.rows (investments d)) with
  | None => Err ErrInvestmentNotFound
  | Some investment =>
    let rowsAffected := Z.of_nat (List.length (filter matches (sql.rows (investments d)))) in
    if rowsAffected =? 0 then Err ErrInvestmentNotFound
    else
      let d1 := with_investments d (sql.delete matches (investments d)) in
      let d2 := with_users d1
                  (sql.update_rows (fun r => u_id r =? userID)
                     (fun r => mkUserRow (u_id r) (u_pub_key r)
                                 (u_balance r + i_amount investment) (u_ref_id r))
                     (users d1)) in
      Ok (insert_operation d2 userID OperationTypeInvestmentClosed
            (i_amount investment) (DescClosed (i_type investment)) now
            (ExtraClosed (i_type investment) investmentID
               (i_created_at investment)
               (Z.quot (now - i_created_at investment) 86400)))
  end.

Definition AddReferralEarning (d : Database) (referrerID referredID : Z)
    (amount : Q) (level : Z) (now : Z) : Database :=
  let d1 := with_referral_earnings d
              (sql.insert re_id
                 (fun id => mkReferralEarning id referrerID referredID amount level now)
                 (referral_earnings d)) in
  with_users d1
    (sql.update_rows (fun r => u_id r =? referrerID)
       (fun r => mkUserRow (u_id r) (u_pub_key r) (u_balance r + amount) (u_ref_id r))
       (users d1)).

Definition UpdateUserBalance (d : Database) (userID : Z) (newBalance : Q) : Database :=
  with_users d
    (sql.update_rows (fun r => u_id r =? userID)
       (fun r => mkUserRow (u_id r) (u_pub_key r) newBalance (u_ref_id r))
       (users d)).

(** [Scan(&req.ID, &req.UserID, &req.Amount, &req.Memo, &req.Status,
    &req.CreatedAt)] on a row of [deposit_requests].  The column [created_at]
    is declared [INTEGER NOT NULL] and [CreateDepositRequest] fills it with
    [time.Now()], which the driver stores as text; the driver hands a value
    of an [INTEGER] column over as it is stored, and [database/sql] converts
    neither a string nor an integer into the [time.Time] of [CreatedAt]: the
    scan of a row fails, whatever the row holds. *)
Definition scan_deposit (r : DepositRequest) : result DepositRequest :=
  Err ErrScan.

(** [SELECT ... FROM deposit_requests WHERE id = ?] *)
Definition GetDepositRequest (d : Database) (id : Z) : result DepositRequest :=
  match find (fun r => d_id r =? id) (sql.rows (deposit_requests d)) with
  | None => Err ErrNoRows
  | Some r => scan_deposit r
  end.

Definition CreateDepositRequest (d : Database) (userID : Z) (amount : Q)
    (memo : string) (now : Z) : result DepositRequest * Database :=
  let id := sql.next_id d_id (deposit_requests d) in
  let d' := with_deposit_requests d
              (sql.insert d_id
                 (fun id => mkDepositRequest id userID amount StatusPending memo now)
                 (deposit_requests d)) in
  (GetDepositRequest d' id, d').

(** The loop [for rows.Next()]: the first scan that fails ends it with the
    error. *)
Fixpoint scan_deposits (rows : list DepositRequest) : result (list DepositRequest) :=
  match rows with
  | [] => Ok []
  | r :: rest =>
    match scan_deposit r with
    | Err e => Err e
    | Ok req =>
      match scan_deposits rest with
      | Err e => Err e
      | Ok reqs => Ok (req :: reqs)
      end
    end
  end.

(** [SELECT ... FROM deposit_requests WHERE user_id = ?] *)
Definition GetDepositsOfUser (d : Database) (userID : Z)
    : result (list DepositRequest) :=
  scan_deposits
    (filter (fun r => d_user_id r =? userID) (sql.rows (deposit_requests d))).

Definition UpdateDepositStatus (d : Database) (id : Z) (status : string) : Database :=
  with_deposit_requests d
    (sql.update (fun r => d_id r =? id)
       (fun r => mkDepositRequest (d_id r) (d_user_id r) (d_amount r) status
                   (d_memo r) (d_created_at r))
       (deposit_requests d)).

Definition CreateWithdrawalRequest (d : Database) (userID : Z) (amount : Q)
    (now : Z) : Database :=
  with_withdrawal_requests d
    (sql.insert wr_id
       (fun id => mkWithdrawalRequestRow id userID amount StatusPending now)
       (withdrawal_requests d)).

(** [UPDATE withdrawal_requests SET status = 'completed' WHERE id = ?] *)
Definition ConfirmWithdrawalRequest (d : Database) (id : Z) : Database :=
  with_withdrawal_requests d
    (sql.update (fun r => wr_id r =? id)
       (fun r => mkWithdrawalRequestRow (wr_id r) (wr_user_id r) (wr_amount r)
                   StatusCompleted (wr_created_at r))
       (withdrawal_requests d)).

(** [SELECT ... FROM withdrawals WHERE user_id = ? ORDER BY created_at DESC] *)
Definition GetWithdrawalRequestsByUser (d : Database) (userID : Z)
    : list WithdrawalStorage :=
  sql.order_by_desc w_created_at
    (filter (fun w => w_user_id w =? userID) (withdrawals d)).

(** The row is stored with [time.Now()] as its creation time, whatever
    [CreatedAt] the caller put in [op]. *)
Definition AddOperation (d : Database) (op : Operation) (now : Z) : Database :=
  insert_operation d (op_user_id op) (op_type op) (op_amount op)
    (op_description op) now (op_extra op).

Definition GetUserOperations (d : Database) (userID : Z) (page pageSize : Z)
    : OperationHistory :=
  let mine := filter (fun o => op_user_id o =? userID) (sql.rows (operations d)) in
  let total := Z.of_nat (List.length mine) in
  let offset := int_wrap (int_wrap (page - 1) * pageSize) in
  let operations := sql.limit_offset pageSize offset
                      (sql.order_by_desc op_created_at mine) in
  mkOperationHistory operations total page pageSize.

(** The latest row of [withdrawals] of the user gets the hash and the status
    [completed]; without such a row nothing is affected and an error comes
    back. *)
Definition UpdateWithdrawalTxHash (d : Database) (userID : Z) (txHash : string)
    : result Database :=
  match GetWithdrawalRequestsByUser d userID with
  | [] => Err ErrNoWithdrawalFound
  | latest :: _ =>
    Ok (with_withdrawals d
          (sql.update_rows
             (fun w => (w_user_id w =? userID) && (w_id w =? w_id latest))
             (fun w => mkWithdrawalStorage (w_id w) (w_user_id w) (w_amount w)
                         StatusCompleted (Some txHash) (w_created_at w))
             (withdrawals d)))
  end.

End database.

(** ** Package ton: what the handlers ask of the chain client *)

Module ton.

(** The answers of the client during one request.  [None] is a returned
    error. *)
Record Client : Type := mkClient {
  GetDepositAddress : string;
  CheckDeposit : string -> Q -> string -> Z -> option bool;
  WithdrawUserFunds : string -> Q -> option string;
  GenerateWalletAddressFromPubKey : string -> option string
}.

End ton.

(** ** Package handler *)

Module handler.
Import model.
Import database.

Record Handler : Type := mkHandler {
  config : Config;
  client : ton.Client
}.

(** The error texts of the JSON replies. *)
Inductive ErrorText : Type :=
| InvalidRequestBody          (* "invalid request body" *)
| PublicKeyRequired           (* "public key is required" *)
| InvalidInvestmentType       (* "invalid investment type" *)
| AmountMustBePositive        (* "investment amount must be positive" *)
| FailedToGetUser             (* "failed to get user information" *)
| InsufficientBalance (have need : Q)
                              (* "insufficient balance: ..." *)
| DatabaseError (e : database.error)
                              (* err.Error() *)
| InvalidInvestmentID         (* "invalid investment id" *)
| UserNotFound                (* "user not found" *)
| UserNotFoundError           (* "user not found error" *)
| DepositNotFound             (* "deposit request not found" *)
| DepositNotOwned             (* "deposit request does not belong to user" *)
| DepositNotPending           (* "deposit request is not pending" *)
| NoDepositAddress            (* "failed to get deposit wallet address" *)
| FailedToCheckTransaction    (* "failed to check transaction" *)
| PaymentNotReceived          (* "payment not received" *)
| FailedToCreateDeposit       (* "failed to create deposit request" *)
| UncompletedDeposits         (* "user has uncompleted deposits" *)
| UncompletedWithdrawals      (* "user has uncompleted withdrawals" *)
| FailedToWithdraw            (* "Failed to withdraw funds: %v" *)
| FailedToGenerateAddress.    (* "Failed to generate wallet address: %v" *)

Inductive Data : Type :=
| InvestmentCreated (amount : Q) (investType : string)
    (weekly_percent example_weekly_profit : Q) (lock_period : Z)
    (remaining_balance : Q)
| InvestmentDeleted
| DepositCreated (id : Z) (amount : Q) (status memo wallet_address : string)
| DepositCompleted
| Withdrawn (amount : Q) (address tx_hash : string).

(** A reply: the HTTP status with the error text or the payload. *)
Inductive Reply : Type :=
| Failure (status : Z) (e : ErrorText)
| Success (status : Z) (data : Data).

Definition succeeded (r : Reply) : bool :=
  match r with Success _ _ => true | Failure _ _ => false end.

Fixpoint lookup_type (types : list (string * InvestmentTypeConfig)) (name : string)
    : option InvestmentTypeConfig :=
  match types with
  | [] => None
  | (k, v) :: rest => if String.eqb k name then Some v else lookup_type rest name
  end.

Definition CreateInvestment (h : Handler) (d : Database) (pubKey : string)
    (reqType : string) (reqAmount : Q) (now : Z) : Reply * Database :=
  if String.eqb pubKey "" then (Failure 400 PublicKeyRequired, d)
  else if String.eqb reqType "" || Qeq_bool reqAmount 0
  then (Failure 400 InvalidRequestBody, d)
  else
    match lookup_type (InvestmentTypes (config h)) reqType with
    | None => (Failure 400 InvalidInvestmentType, d)
    | Some investConfig =>
      if Qleb reqAmount 0 then (Failure 400 AmountMustBePositive, d)
      else
        match GetUserByPubKey d pubKey with
        | Err _ => (Failure 500 FailedToGetUser, d)
        | Ok user =>
          match database.CreateInvestment d (ID user) reqType reqAmount investConfig now with
          | Err ErrInsufficientBalance =>
            (Failure 400 (InsufficientBalance (Balance user) reqAmount), d)
          | Err e => (Failure 400 (DatabaseError e), d)
          | Ok d' =>
            let exampleProfit := (reqAmount * (WeeklyPercent investConfig / 100))%Q in
            (Success 201
               (InvestmentCreated reqAmount reqType (WeeklyPercent investConfig)
                  exampleProfit (LockPeriod investConfig)
                  (Balance user - reqAmount)%Q),
             d')
          end
        end
    end.

(** [pubKey] and [investmentID] are what the handler reads from the path
    parameters "pubkey" and "id", the latter through [strconv.ParseInt]
    ([None] when it does not parse). *)
Definition DeleteInvestment (d : Database) (pubKey : string)
    (investmentID : option Z) (now : Z) : Reply * Database :=
  match investmentID with
  | None => (Failure 400 InvalidInvestmentID, d)
  | Some investmentID =>
    match GetUserByPubKey d pubKey with
    | Err _ => (Failure 404 UserNotFound, d)
    | Ok user =>
      match database.DeleteInvestment d (ID user) investmentID now with
      | Err e => (Failure 400 (DatabaseError e), d)
      | Ok d' => (Success 200 InvestmentDeleted, d')
      end
    end
  end.

(** The walk along [ref_id], at most [hops] steps; a missing user row is
    [sql.ErrNoRows]. *)
Fixpoint referrerChain (d : Database) (currentUserID : Z) (hops : nat)
    : result (list Z) :=
  match hops with
  | O => Ok []
  | S hops' =>
    match find (fun r => u_id r =? currentUserID) (users d) with
    | None => Err ErrNoRows
    | Some r =>
      match u_ref_id r with
      | None => Ok []
      | Some refID =>
        match referrerChain d refID hops' with
        | Ok chain => Ok (refID :: chain)
        | Err e => Err e
        end
      end
    end
  end.

Definition levelPercent (h : Handler) (level : Z) : Q :=
  if level =? 1 then Level1Percent (Referral (config h))
  else if level =? 2 then Level2Percent (Referral (config h))
  else if level =? 3 then Level3Percent (Referral (config h))
  else 0%Q.

(** The second loop of [ProcessReferralEarnings]; [level] is the 0-based
    index of the head of [chain]. *)
Fixpoint addEarnings (h : Handler) (d : Database) (userID : Z) (profitAmount : Q)
    (level : Z) (chain : list Z) (now : Z) : Database :=
  match chain with
  | [] => d
  | referrerID :: rest =>
    let level1 := level + 1 in
    let percent := levelPercent h level1 in
    let earnings := (profitAmount * (percent / 100))%Q in
    addEarnings h (AddReferralEarning d referrerID userID earnings level1 now)
      userID profitAmount level1 rest now
  end.

Definition ProcessReferralEarnings (h : Handler) (d : Database) (userID : Z)
    (profitAmount : Q) (now : Z) : result Database :=
  match referrerChain d userID 3 with
  | Err e => Err e
  | Ok chain => Ok (addEarnings h d userID profitAmount 0 chain now)
  end.

(** ["TON%d%d"] of the user id and the Unix time. *)
Definition memo_of (userID now : Z) : string :=
  "TON" ++ DecimalString.NilZero.string_of_int (Z.to_int userID)
        ++ DecimalString.NilZero.string_of_int (Z.to_int now).

Definition CreateDeposit (h : Handler) (d : Database) (pubKey : string)
    (amount : Q) (now : Z) : Reply * Database :=
  if String.eqb pubKey "" || Qltb amount 1 then (Failure 400 InvalidRequestBody, d)
  else
    match GetUserByPubKey d pubKey with
    | Err _ => (Failure 404 UserNotFound, d)
    | Ok user =>
      let walletAddress := ton.GetDepositAddress (client h) in
      if String.eqb walletAddress "" then (Failure 500 NoDepositAddress, d)
      else
        let memo := memo_of (ID user) now in
        match CreateDepositRequest d (ID user) amount memo now with
        | (Err _, d') => (Failure 500 FailedToCreateDeposit, d')
        | (Ok deposit, d') =>
          (Success 200
             (DepositCreated (d_id deposit) (d_amount deposit) (d_status deposit)
                (d_memo deposit) walletAddress),
           d')
        end
    end.

Definition ConfirmDeposit (h : Handler) (d : Database) (pubKey : string)
    (depositID : Z) : Reply * Database :=
  if String.eqb pubKey "" || (depositID =? 0) then (Failure 400 InvalidRequestBody, d)
  else
    match GetUserByPubKey d pubKey with
    | Err _ => (Failure 404 UserNotFound, d)
    | Ok user =>
      match GetDepositRequest d depositID with
      | Err _ => (Failure 404 DepositNotFound, d)
      | Ok deposit =>
        if negb (d_user_id deposit =? ID user) then (Failure 403 DepositNotOwned, d)
        else if negb (String.eqb (d_status deposit) "pending")
        then (Failure 400 DepositNotPending, d)
        else
          let walletAddress := ton.GetDepositAddress (client h) in
          if String.eqb walletAddress "" then (Failure 500 NoDepositAddress, d)
          else
            match ton.CheckDeposit (client h) walletAddress (d_amount deposit)
                    (d_memo deposit) 30 with
            | None => (Failure 500 FailedToCheckTransaction, d)
            | Some false => (Failure 400 PaymentNotReceived, d)
            | Some true =>
              let d1 := UpdateDepositStatus d (d_id deposit) "completed" in
              let d2 := UpdateUserBalance d1 (ID user)
                          (Balance user + d_amount deposit)%Q in
              (Success 200 DepositCompleted, d2)
            end
      end
    end.

(** The loop over the deposits: the running sum, or [None] at the first
    deposit that is not completed. *)
Fixpoint sumDeposits (acc : Q) (deposits : list DepositRequest) : option Q :=
  match deposits with
  | [] => Some acc
  | deposit :: rest =>
    if String.eqb (d_status deposit) "completed"
    then sumDeposits (acc + d_amount deposit)%Q rest
    else None
  end.

Fixpoint sumWithdrawals (acc : Q) (withdrawals : list WithdrawalStorage) : option Q :=
  match withdrawals with
  | [] => Some acc
  | withdrawal :: rest =>
    if String.eqb (w_status withdrawal) "completed"
    then sumWithdrawals (acc + w_amount withdrawal)%Q rest
    else None
  end.

Definition availableBalance (MathDeposits Mathwithdrawal : Q) : Q :=
  (MathDeposits - MathDeposits * 0.2 - Mathwithdrawal)%Q.

Definition WithdrawFunds (h : Handler) (d : Database) (pubKey : string)
    (amount : Q) (now : Z) : Reply * Database :=
  if String.eqb pubKey "" || negb (Qltb 0 amount)
  then (Failure 400 InvalidRequestBody, d)
  else
    match GetUserByPubKey d pubKey with
    | Err _ => (Failure 404 UserNotFound, d)
    | Ok user =>
      match GetDepositsOfUser d (ID user) with
      | Err _ => (Failure 404 UserNotFoundError, d)
      | Ok deposits =>
        match sumDeposits 0 deposits with
        | None => (Failure 400 UncompletedDeposits, d)
        | Some MathDeposits =>
          match sumWithdrawals 0 (GetWithdrawalRequestsByUser d (ID user)) with
          | None => (Failure 400 UncompletedWithdrawals, d)
          | Some Mathwithdrawal =>
            let available := availableBalance MathDeposits Mathwithdrawal in
            if Qltb available amount
            then (Failure 400 (InsufficientBalance available amount), d)
            else if Qltb (Balance user) amount
            then (Failure 400 (InsufficientBalance (Balance user) amount), d)
            else
              let d1 := CreateWithdrawalRequest d (ID user) amount now in
              let d2 := ConfirmWithdrawalRequest d1 (ID user) in
              match ton.WithdrawUserFunds (client h) pubKey amount with
              | None => (Failure 500 FailedToWithdraw, d2)
              | Some txHash =>
                let d3 := match UpdateWithdrawalTxHash d2 (ID user) txHash with
                          | Ok d' => d'
                          | Err _ => d2
                          end in
                let newBalance := (Balance user - amount)%Q in
                let d4 := UpdateUserBalance d3 (ID user) newBalance in
                match ton.GenerateWalletAddressFromPubKey (client h) pubKey with
                | None => (Failure 500 FailedToGenerateAddress, d4)
                | Some userAddress =>
                  let op := mkOperation 0 (ID user) "withdrawal" amount
                              (DescWithdrawal amount) 0 (ExtraTxHash txHash) in
                  (Success 200 (Withdrawn amount userAddress txHash),
                   AddOperation d4 op now)
                end
              end
          end
        end
      end
    end.

End handler.

(** ** Observations on the store *)

Module ledger.
Import model.
Import database.

(** The balance of the user with the given id. *)
Definition balance_of (d : Database) (userID : Z) : option Q :=
  option_map u_balance (find (fun r => u_id r =? userID) (users d)).

(** [users.id] is a primary key. *)
Definition users_keyed (d : Database) : Prop :=
  NoDup (map u_id (users d)).

(** [investments.id] is a primary key. *)
Definition investments_keyed (d : Database) : Prop :=
  NoDup (map i_id (sql.rows (investments d))).

Fixpoint sumQ (l : list Q) : Q :=
  match l with
  | [] => 0%Q
  | x :: l' => (x + sumQ l')%Q
  end.

(** *** Sample data *)

Definition alice : UserRow := mkUserRow 1000000001 "alice" 1000 None.
Definition bob : UserRow := mkUserRow 1000000002 "bob" 0 (Some 1000000001).
Definition carol : UserRow := mkUserRow 1000000003 "carol" 0 (Some 1000000002).
Definition dave : UserRow := mkUserRow 1000000004 "dave" 0 (Some 1000000003).

(** Four users, [alice] refers [bob], [bob] refers [carol], [carol] refers
    [dave]; nothing else is recorded. *)
Definition db_users : Database :=
  with_users database.empty [alice; bob; carol; dave].

(** The operations of a user in the order of [ORDER BY created_at DESC]. *)
Definition operations_desc (d : Database) (userID : Z) : list Operation :=
  sql.order_by_desc op_created_at
    (filter (fun o => op_user_id o =? userID) (sql.rows (operations d))).

(** User 7 with 25 operations, the k-th created at time [100 + k]. *)
Definition db_ops25 : Database :=
  with_operations database.empty
    (sql.mkTable
       (map (fun k => mkOperation (Z.of_nat k) 7 OperationTypeWithdrawal 1
                        (DescWithdrawal 1) (100 + Z.of_nat k) (ExtraTxHash "tx"))
            (List.seq 1 25))
       25).

(** [db_ops25] with the user of the operations registered as "grace". *)
Definition db_history : Database :=
  with_users db_ops25 [mkUserRow 7 "grace" 0 None].

(** A run of confirmation requests for one deposit request; every request
    has its own caller and its own answers of the chain client. *)
Fixpoint confirmAll (d : Database) (depositID : Z)
    (calls : list (handler.Handler * string)) : list handler.Reply * Database :=
  match calls with
  | [] => ([], d)
  | (h, pubKey) :: rest =>
    let (reply, d1) := handler.ConfirmDeposit h d pubKey depositID in
    let (replies, d2) := confirmAll d1 depositID rest in
    (reply :: replies, d2)
  end.

Definition successes (replies : list handler.Reply) : nat :=
  List.length (filter handler.succeeded replies).

(** A chain client that finds every payment and performs every transfer. *)
Definition client_yes : ton.Client :=
  ton.mkClient "EQdeposit" (fun _ _ _ _ => Some true) (fun _ _ => Some "txhash")
    (fun _ => Some "EQuser").

Definition sample_config : Config :=
  mkConfig
    [("low", mkInvestmentTypeConfig 1.5 50 30);
     ("medium", mkInvestmentTypeConfig 2.25 100 30);
     ("high", mkInvestmentTypeConfig 3 100 30)]
    (mkReferralConfig 7 3 1).

Definition h_yes : handler.Handler := handler.mkHandler sample_config client_yes.


(** The [ref_id] of the user with the given id: [None] without such a user,
    [Some None] for a user without referrer. *)
Definition referrer_of (d : Database) (userID : Z) : option (option Z) :=
  option_map u_ref_id (find (fun r => u_id r =? userID) (users d)).

(** The recorded withdrawals of a user: the rows that
    [GetWithdrawalRequestsByUser] reads, in table order. *)
Definition withdrawals_of (d : Database) (userID : Z) : list WithdrawalStorage :=
  filter (fun w => w_user_id w =? userID) (withdrawals d).

(** The deposit requests of a user: the rows that [GetDepositsOfUser]
    selects, in table order. *)
Definition deposits_of (d : Database) (userID : Z) : list DepositRequest :=
  filter (fun r => d_user_id r =? userID) (sql.rows (deposit_requests d)).

Definition completed_deposits (d : Database) (userID : Z) : Q :=
  sumQ (map d_amount
          (filter (fun r => String.eqb (d_status r) "completed")
             (deposits_of d userID))).

Definition completed_withdrawals (d : Database) (userID : Z) : Q :=
  sumQ (map w_amount
          (filter (fun w => String.eqb (w_status w) "completed")
             (withdrawals_of d userID))).

(** 0.8 * (completed deposits) - (completed withdrawals). *)
Definition withdrawal_ceiling (d : Database) (userID : Z) : Q :=
  (0.8 * completed_deposits d userID - completed_withdrawals d userID)%Q.

(** [alice] with completed deposits of 600 and 400 and one completed
    withdrawal of 300. *)
Definition db_ceiling : Database :=
  with_withdrawals
    (with_deposit_requests db_users
       (sql.mkTable
          [mkDepositRequest 1 1000000001 600 "completed" "TON10000000011" 1;
           mkDepositRequest 2 1000000001 400 "completed" "TON10000000012" 2]
          2))
    [mkWithdrawalStorage 1 1000000001 300 "completed" (Some "aa11") 3].




(** The row that [DeleteInvestment] reads before it deletes. *)
Definition investment_of (d : Database) (userID investmentID : Z) : option Investment :=
  find (fun i => (i_id i =? investmentID) && (i_user_id i =? userID))
    (sql.rows (investments d)).






(** [db_users] where [bob], with balance 0, holds one investment of 100. *)
Definition db_invested : Database :=
  with_investments db_users
    (sql.mkTable [mkInvestment 1 1000000002 "low" 100 1] 1).


(** *** The invariant of the balances *)

Definition balances_nonneg (d : Database) : Prop :=
  Forall (fun r => (0 <= u_balance r)%Q) (users d).

(** What the handlers maintain besides: ids are keys, principals and deposit
    amounts are not negative. *)
Definition well_formed (d : Database) : Prop :=
  users_keyed d /\
  investments_keyed d /\
  Forall (fun i => (0 <= i_amount i)%Q) (sql.rows (investments d)) /\
  Forall (fun r => (0 <= d_amount r)%Q) (sql.rows (deposit_requests d)).

Definition invariant (d : Database) : Prop :=
  well_formed d /\ balances_nonneg d.

(** The requests that need no admin key, and the referral distribution. *)
Inductive Request : Type :=
| ReqCreateUser (pubKey : string) (refID customID : option Z) (rnd : Z)
| ReqCreateInvestment (pubKey reqType : string) (amount : Q) (now : Z)
| ReqDeleteInvestment (pubKey : string) (investmentID : option Z) (now : Z)
| ReqCreateDeposit (pubKey : string) (amount : Q) (now : Z)
| ReqConfirmDeposit (pubKey : string) (depositID : Z)
| ReqWithdrawFunds (pubKey : string) (amount : Q) (now : Z)
| ReqProcessReferralEarnings (userID : Z) (profitAmount : Q) (now : Z).

(** The store after a request, whatever the reply. *)
Definition step (h : handler.Handler) (d : Database) (r : Request) : Database :=
  match r with
  | ReqCreateUser pubKey refID customID rnd =>
    snd (CreateUser d pubKey refID customID rnd)
  | ReqCreateInvestment pubKey reqType amount now =>
    snd (handler.CreateInvestment h d pubKey reqType amount now)
  | ReqDeleteInvestment pubKey investmentID now =>
    snd (handler.DeleteInvestment d pubKey investmentID now)
  | ReqCreateDeposit pubKey amount now =>
    snd (handler.CreateDeposit h d pubKey amount now)
  | ReqConfirmDeposit pubKey depositID =>
    snd (handler.ConfirmDeposit h d pubKey depositID)
  | ReqWithdrawFunds pubKey amount now =>
    snd (handler.WithdrawFunds h d pubKey amount now)
  | ReqProcessReferralEarnings userID profitAmount now =>
    match handler.ProcessReferralEarnings h d userID profitAmount now with
    | Ok d' => d'
    | Err _ => d
    end
  end.

(** A distribution is of a profit: the amount and the configured percents
    are not negative.  The other requests are unrestricted. *)
Definition profit_nonneg (h : handler.Handler) (r : Request) : Prop :=
  match r with
  | ReqProcessReferralEarnings _ profitAmount _ =>
    (0 <= profitAmount)%Q /\
    (0 <= Level1Percent (Referral (handler.config h)))%Q /\
    (0 <= Level2Percent (Referral (handler.config h)))%Q /\
    (0 <= Level3Percent (Referral (handler.config h)))%Q
  | _ => True
  end.

(** A history of requests, each served with its own handler value (the
    answers of the chain client differ from request to request). *)
Fixpoint steps (d : Database) (rs : list (handler.Handler * Request)) : Database :=
  match rs with
  | [] => d
  | (h, r) :: rest => steps (step h d r) rest
  end.

(** The empty store after the registration of "bob", who gets the id
    1000000002. *)
Definition db_registered : Database :=
  steps database.empty [(h_yes, ReqCreateUser "bob" None None 2)].

(** [db_registered] after the request of "bob" for a deposit of 250, made at
    time 1700000000. *)
Definition db_requested : Database :=
  steps db_registered [(h_yes, ReqCreateDeposit "bob" 250 1700000000)].

End ledger.

(** ** Package strconv: decimal integers *)

Module strconv.

Definition digit (c : Ascii.ascii) : option Z :=
  let n := Z.of_nat (Ascii.nat_of_ascii c) in
  if (48 <=? n) && (n <=? 57) then Some (n - 48) else None.

Fixpoint digits (s : string) (acc : Z) : option Z :=
  match s with
  | EmptyString => Some acc
  | String c s' =>
    match digit c with
    | Some v => digits s' (10 * acc + v)
    | None => None
    end
  end.

(** At least one digit, nothing but digits. *)
Definition unsigned (s : string) : option Z :=
  match s with
  | EmptyString => None
  | String _ _ => digits s 0
  end.

(** [strconv.ParseInt(s, 10, 64)]: an optional sign, then digits; [None] is
    a syntax or a range error. *)
Definition ParseInt (s : string) : option Z :=
  let value :=
    match s with
    | EmptyString => None
    | String c s' =>
      if Ascii.eqb c (Ascii.ascii_of_nat 43) then unsigned s'
      else if Ascii.eqb c (Ascii.ascii_of_nat 45) then option_map Z.opp (unsigned s')
      else unsigned s
    end in
  match value with
  | Some z => if (- 2 ^ 63 <=? z) && (z <=? max_int) then Some z else None
  | None => None
  end.

(** [strconv.Atoi] on a 64-bit platform. *)
Definition Atoi (s : string) : option Z := ParseInt s.

End strconv.

(** ** Package handler: the admin requests *)

Module admin.
Import model.
Import database.

Inductive ErrorText : Type :=
| InvalidAPIKey               (* "invalid API key" *)
| InvalidRequestBody          (* "invalid request body" *)
| InvalidUserID.              (* "invalid user ID" *)

Inductive Reply : Type :=
| Failure (status : Z) (e : ErrorText)
| BalanceUpdated (user_id : Z) (balance : Q)
| UserDeleted (id : Z).

(** The middleware in front of the admin routes: [apiKey] is the
    "X-API-Key" header (empty when the header is missing), [next] the
    handler behind it. *)
Definition AdminAuth (AdminAPIKey apiKey : string)
    (next : Database -> Reply * Database) (d : Database) : Reply * Database :=
  if negb (String.eqb apiKey AdminAPIKey) then (Failure 401 InvalidAPIKey, d)
  else next d.

(** The body fields [user_id] and [balance] are both bound as required. *)
Definition UpdateUserBalance (UserID : Z) (Balance : Q) (d : Database)
    : Reply * Database :=
  if (UserID =? 0) || Qeq_bool Balance 0 then (Failure 400 InvalidRequestBody, d)
  else (BalanceUpdated UserID Balance, database.UpdateUserBalance d UserID Balance).

(** [idParam] is the path parameter "id". *)
Definition DeleteUser (idParam : string) (d : Database) : Reply * Database :=
  match strconv.Atoi idParam with
  | None => (Failure 400 InvalidUserID, d)
  | Some userID => (UserDeleted userID, database.DeleteUser d userID)
  end.

End admin.

(** ** Package database: referral statistics *)

Module referral.
Import model.
Import database.

(** [model.Referral] *)
Record Referral : Type := mkReferral {
  rf_user_id : Z;
  rf_total_invested : Q;
  rf_earnings_from_user : Q
}.

(** [model.ReferralDetail] *)
Record ReferralDetail : Type := mkReferralDetail {
  rd_user_id : Z;
  rd_level : Z;
  rd_total_invested : Q;
  rd_earnings_from_user : Q;
  rd_level1_earnings : Q;
  rd_level2_earnings : Q;
  rd_level3_earnings : Q
}.

(** [model.ReferralStats]; [ReferralsByLevel] is filled from a Go map, its
    order is not determined by the code. *)
Record ReferralStats : Type := mkReferralStats {
  TotalReferrals : Z;
  TotalEarnings : Q;
  ReferralsByLevel : list ReferralDetail
}.

Definition refers_to (id : Z) (u : UserRow) : bool :=
  match u_ref_id u with
  | Some r => r =? id
  | None => false
  end.

(** The ids that the query of each level selects. *)
Definition level1_ids (d : Database) (userID : Z) : list Z :=
  map u_id (filter (refers_to userID) (users d)).

Definition level2_ids (d : Database) (userID : Z) : list Z :=
  flat_map (fun u1 => map u_id (filter (refers_to (u_id u1)) (users d)))
    (filter (refers_to userID) (users d)).

Definition level3_ids (d : Database) (userID : Z) : list Z :=
  flat_map
    (fun u1 =>
       flat_map (fun u2 => map u_id (filter (refers_to (u_id u2)) (users d)))
         (filter (refers_to (u_id u1)) (users d)))
    (filter (refers_to userID) (users d)).

(** [SELECT COALESCE(SUM(amount), 0) FROM investments WHERE user_id = ?] *)
Definition totalInvested (d : Database) (refID : Z) : Q :=
  ledger.sumQ (map i_amount (getUserInvestments d refID)).

(** [SELECT COALESCE(SUM(amount), 0) FROM referral_earnings
     WHERE referrer_id = ? AND referred_id = ?] *)
Definition earningsFromUser (d : Database) (userID refID : Z) : Q :=
  ledger.sumQ
    (map re_amount
       (filter (fun e => (re_referrer_id e =? userID) && (re_referred_id e =? refID))
          (sql.rows (referral_earnings d)))).

(** [SELECT COALESCE(SUM(amount), 0) FROM referral_earnings
     WHERE referrer_id = ?] *)
Definition totalEarnings (d : Database) (userID : Z) : Q :=
  ledger.sumQ
    (map re_amount
       (filter (fun e => re_referrer_id e =? userID)
          (sql.rows (referral_earnings d)))).

Inductive error : Type :=
| InvalidReferralLevel        (* "invalid referral level" *)
| Store (e : database.error).

Definition getLevelReferrals (d : Database) (userID : Z) (level : Z)
    : list Referral + error :=
  let ids :=
    if level =? 1 then Some (level1_ids d userID)
    else if level =? 2 then Some (level2_ids d userID)
    else if level =? 3 then Some (level3_ids d userID)
    else None in
  match ids with
  | None => inr InvalidReferralLevel
  | Some ids =>
    inl (map (fun refID =>
                mkReferral refID (totalInvested d refID)
                  (earningsFromUser d userID refID))
             ids)
  end.

(** The Go map [allReferrals], as the list of its entries. *)
Fixpoint lookup (m : list (Z * ReferralDetail)) (k : Z) : option ReferralDetail :=
  match m with
  | [] => None
  | (k', v) :: m' => if k' =? k then Some v else lookup m' k
  end.

Fixpoint store (m : list (Z * ReferralDetail)) (k : Z) (v : ReferralDetail)
    : list (Z * ReferralDetail) :=
  match m with
  | [] => [(k, v)]
  | (k', v') :: m' => if k' =? k then (k, v) :: m' else (k', v') :: store m' k v
  end.

Definition detail_at (level : Z) (ref : Referral) : ReferralDetail :=
  mkReferralDetail (rf_user_id ref) level (rf_total_invested ref)
    (rf_earnings_from_user ref) 0 0 0.

Definition addLevel1 (m : list (Z * ReferralDetail)) (ref : Referral)
    : list (Z * ReferralDetail) :=
  store m (rf_user_id ref) (detail_at 1 ref).

Definition addLevel2 (m : list (Z * ReferralDetail)) (ref : Referral)
    : list (Z * ReferralDetail) :=
  match lookup m (rf_user_id ref) with
  | Some detail =>
    store m (rf_user_id ref)
      (mkReferralDetail (rd_user_id detail) (rd_level detail)
         (rd_total_invested detail) (rd_earnings_from_user detail)
         (rd_level1_earnings detail) (rf_earnings_from_user ref)
         (rd_level3_earnings detail))
  | None => store m (rf_user_id ref) (detail_at 2 ref)
  end.

Definition addLevel3 (m : list (Z * ReferralDetail)) (ref : Referral)
    : list (Z * ReferralDetail) :=
  match lookup m (rf_user_id ref) with
  | Some detail =>
    store m (rf_user_id ref)
      (mkReferralDetail (rd_user_id detail) (rd_level detail)
         (rd_total_invested detail) (rd_earnings_from_user detail)
         (rd_level1_earnings detail) (rd_level2_earnings detail)
         (rf_earnings_from_user ref))
  | None => store m (rf_user_id ref) (detail_at 3 ref)
  end.

Definition GetReferralStats (d : Database) (pubKey : string)
    : ReferralStats + error :=
  match GetUserByPubKey d pubKey with
  | Err e => inr (Store e)
  | Ok user =>
    match getLevelReferrals d (ID user) 1,
          getLevelReferrals d (ID user) 2,
          getLevelReferrals d (ID user) 3 with
    | inl level1Referrals, inl level2Referrals, inl level3Referrals =>
      let m1 := fold_left addLevel1 level1Referrals [] in
      let m2 := fold_left addLevel2 level2Referrals m1 in
      let allReferrals := fold_left addLevel3 level3Referrals m2 in
      inl (mkReferralStats (Z.of_nat (List.length allReferrals))
             (totalEarnings d (ID user)) (map snd allReferrals))
    | inr e, _, _ => inr e
    | _, inr e, _ => inr e
    | _, _, inr e => inr e
    end
  end.

(** The first of the three levels whose query selects the id. *)
Definition level_of (d : Database) (userID id : Z) : Z :=
  if existsb (Z.eqb id) (level1_ids d userID) then 1
  else if existsb (Z.eqb id) (level2_ids d userID) then 2
  else 3.

(** What an entry of the statistics says about the user [id]. *)
Definition listed (d : Database) (userID id : Z) (detail : ReferralDetail) : Prop :=
  rd_user_id detail = id /\
  rd_level detail = level_of d userID id /\
  rd_total_invested detail = totalInvested d id /\
  rd_earnings_from_user detail = earningsFromUser d userID id.

(** The statistics of [alice] in [ledger.db_users]. *)
Definition sample_stats : ReferralStats :=
  mkReferralStats 3 0
    [mkReferralDetail 1000000002 1 0 0 0 0 0;
     mkReferralDetail 1000000003 2 0 0 0 0 0;
     mkReferralDetail 1000000004 3 0 0 0 0 0].

End referral.

(** ** Package handler: the read requests *)

Module queries.
Import model.
Import database.

Inductive ErrorText : Type :=
| PublicKeyRequired           (* "public key is required" *)
| MissingPubKey               (* "missing pub_key parameter" *)
| UserNotFound                (* "user not found" *)
| FailedToGetStats.           (* "failed to get referral stats: %v" *)

Inductive Reply : Type :=
| Failure (status : Z) (e : ErrorText)
| UserData (user : User)
| History (history : OperationHistory)
| Stats (stats : referral.ReferralStats).

Definition GetUser (d : Database) (pubKey : string) : Reply :=
  if String.eqb pubKey "" then Failure 400 PublicKeyRequired
  else
    match GetUserByPubKey d pubKey with
    | Err _ => Failure 404 UserNotFound
    | Ok user => UserData user
    end.

Definition GetReferralStats (d : Database) (pubKey : string) : Reply :=
  if String.eqb pubKey "" then Failure 400 MissingPubKey
  else
    match referral.GetReferralStats d pubKey with
    | inr _ => Failure 500 FailedToGetStats
    | inl stats => Stats stats
    end.

(** The page of the query parameter "page", 1 unless it is a positive
    integer. *)
Definition pageOf (pageStr : string) : Z :=
  if String.eqb pageStr "" then 1
  else
    match strconv.Atoi pageStr with
    | Some p => if 0 <? p then p else 1
    | None => 1
    end.

(** The page size of the query parameter "page_size", 10 unless it is an
    integer from 1 to 100. *)
Definition pageSizeOf (pageSizeStr : string) : Z :=
  if String.eqb pageSizeStr "" then 10
  else
    match strconv.Atoi pageSizeStr with
    | Some ps => if (0 <? ps) && (ps <=? 100) then ps else 10
    | None => 10
    end.

Definition GetUserOperations (d : Database) (pubKey pageStr pageSizeStr : string)
    : Reply :=
  if String.eqb pubKey "" then Failure 400 MissingPubKey
  else
    match GetUserByPubKey d pubKey with
    | Err _ => Failure 404 UserNotFound
    | Ok user =>
      History (database.GetUserOperations d (ID user) (pageOf pageStr)
                 (pageSizeOf pageSizeStr))
    end.

End queries.

(** ** Package middleware: the rate limiter *)

Module middleware.

(** Times are seconds on the clock of the server. *)
Record TokenBucket : Type := mkTokenBucket {
  tokens : Q;
  lastRefill : Q;
  rate : Q;
  capacity : Q
}.

Definition tryConsume (tb : TokenBucket) (now : Q) : bool * TokenBucket :=
  let elapsed := (now - lastRefill tb)%Q in
  let refilled := (tokens tb + elapsed * rate tb)%Q in
  let capped := if Qltb (capacity tb) refilled then capacity tb else refilled in
  if Qltb capped 1 then (false, mkTokenBucket capped now (rate tb) (capacity tb))
  else (true, mkTokenBucket (capped - 1) now (rate tb) (capacity tb)).

(** [model.RateLimitConfig] *)
Record RateLimitConfig : Type := mkRateLimitConfig {
  RequestsPerSecond : Z;
  BurstSize : Z
}.

(** The buckets by client address. *)
Record IPRateLimiter : Type := mkIPRateLimiter {
  ips : list (string * TokenBucket);
  config : RateLimitConfig
}.

Definition NewIPRateLimiter (config : RateLimitConfig) : IPRateLimiter :=
  mkIPRateLimiter [] config.

Fixpoint bucket_of (m : list (string * TokenBucket)) (ip : string) : option TokenBucket :=
  match m with
  | [] => None
  | (k, v) :: m' => if String.eqb k ip then Some v else bucket_of m' ip
  end.

Fixpoint set_bucket (m : list (string * TokenBucket)) (ip : string) (tb : TokenBucket)
    : list (string * TokenBucket) :=
  match m with
  | [] => [(ip, tb)]
  | (k, v) :: m' =>
    if String.eqb k ip then (ip, tb) :: m' else (k, v) :: set_bucket m' ip tb
  end.

(** The bucket of the address, created full at time [now] when the address
    is new. *)
Definition getRateLimiter (i : IPRateLimiter) (ip : string) (now : Q)
    : TokenBucket * IPRateLimiter :=
  match bucket_of (ips i) ip with
  | Some limiter => (limiter, i)
  | None =>
    let limiter := mkTokenBucket (inject_Z (BurstSize (config i))) now
                     (inject_Z (RequestsPerSecond (config i)))
                     (inject_Z (BurstSize (config i))) in
    (limiter, mkIPRateLimiter (set_bucket (ips i) ip limiter) (config i))
  end.

(** One request: [true] lets it through, [false] is the reply 429.  [now]
    is the clock when the bucket is looked up, [now'] when the token is
    taken; the bucket in the map is the one that [tryConsume] changes. *)
Definition RateLimit (i : IPRateLimiter) (ip : string) (now now' : Q)
    : bool * IPRateLimiter :=
  let (limiter, i1) := getRateLimiter i ip now in
  let (ok, limiter') := tryConsume limiter now' in
  (ok, mkIPRateLimiter (set_bucket (ips i1) ip limiter') (config i1)).

(** A run of requests against one bucket: the number of requests let
    through and the bucket afterwards. *)
Fixpoint consumeAll (tb : TokenBucket) (times : list Q) : nat * TokenBucket :=
  match times with
  | [] => (O, tb)
  | now :: rest =>
    let (ok, tb1) := tryConsume tb now in
    let (n, tb2) := consumeAll tb1 rest in
    ((if ok then S n else n), tb2)
  end.

(** The times are in order, none before [t]. *)
Fixpoint in_order (t : Q) (times : list Q) : Prop :=
  match times with
  | [] => True
  | now :: rest => (t <= now)%Q /\ in_order now rest
  end.

Fixpoint last_time (t : Q) (times : list Q) : Q :=
  match times with
  | [] => t
  | now :: rest => last_time now rest
  end.

End middleware.

(** ** Package ton: matching an incoming payment, withdrawing *)

Module toncenter.

Record Transaction : Type := mkTransaction {
  Utime : Z;
  Value : string;      (* in_msg.value, nanotons in decimal *)
  Message : string     (* in_msg.message *)
}.

(** What the request to [getTransactions] brings back. *)
Inductive Response : Type :=
| TransportError                      (* request, read or JSON error *)
| Answer (OK : bool) (Result : list Transaction).

(** [float64(nanotons) / 1000000000] *)
Definition fromNano (nanotons : Z) : float :=
  (float64.of_int64 nanotons / 1000000000)%float.

(** A transaction that the loop accepts, with its amount in TON. *)
Definition matches (threshold : Z) (expectedAmount : float) (memo : string)
    (tx : Transaction) : option float :=
  if Utime tx <? threshold then None
  else if negb (String.eqb (Message tx) memo) then None
  else
    match strconv.ParseInt (Value tx) with
    | None => None
    | Some amountNano =>
      let amountTON := fromNano amountNano in
      if float64.near amountTON expectedAmount then Some amountTON
      else None
    end.

(** The loop over the transactions.  [split] is [TransferFundsWithSplit]
    ([false]: it returned an error).  The result carries the amounts for
    which the split was started. *)
Fixpoint scan (split : float -> bool) (threshold : Z) (expectedAmount : float)
    (memo : string) (txs : list Transaction) : option bool * list float :=
  match txs with
  | [] => (Some false, [])
  | tx :: rest =>
    match matches threshold expectedAmount memo tx with
    | None => scan split threshold expectedAmount memo rest
    | Some amountTON =>
      if split amountTON then (Some true, [amountTON]) else (None, [amountTON])
    end
  end.

(** [time.Now().Add(-time.Duration(withinLastMinutes) * time.Minute).Unix()]:
    [nowNano] is the clock in nanoseconds since 1970, a [time.Duration] is a
    64-bit count of nanoseconds. *)
Definition threshold (withinLastMinutes nowNano : Z) : Z :=
  let d := int_wrap (int_wrap (- withinLastMinutes) * 60000000000) in
  (nowNano + d) / 1000000000.

(** The result is [(found, err)] as [Some found], or [None] for an error. *)
Definition CheckDeposit (response : Response) (split : float -> bool)
    (expectedAmount : float) (memo : string) (withinLastMinutes nowNano : Z)
    : option bool * list float :=
  match response with
  | TransportError => (None, [])
  | Answer false _ => (None, [])
  | Answer true txs =>
    scan split (threshold withinLastMinutes nowNano) expectedAmount memo txs
  end.

(** [WithdrawUserFunds] over what it consults: the derivation of the
    address of the user, whether the main wallet can be opened, the balance
    of the main wallet ([None]: the query failed) and the sending of the
    transfer, which returns the hash of the transaction. *)
Definition WithdrawUserFunds
    (GenerateWalletAddressFromPubKey : string -> option string)
    (getMainWallet : bool) (GetWalletBalance : option Q)
    (send : string -> Q -> option string)
    (pubKey : string) (amount : Q) : option string :=
  match GenerateWalletAddressFromPubKey pubKey with
  | None => None
  | Some userAddress =>
    if negb getMainWallet then None
    else
      match GetWalletBalance with
      | None => None
      | Some mainBalance =>
        if Qltb mainBalance amount then None
        else send userAddress amount
      end
  end.

(** The client of the handlers with [WithdrawUserFunds] built as above. *)
Definition client (depositAddress : string)
    (CheckDeposit : string -> Q -> string -> Z -> option bool)
    (GenerateWalletAddressFromPubKey : string -> option string)
    (getMainWallet : bool) (GetWalletBalance : option Q)
    (send : string -> Q -> option string) : ton.Client :=
  ton.mkClient depositAddress CheckDeposit
    (WithdrawUserFunds GenerateWalletAddressFromPubKey getMainWallet
       GetWalletBalance send)
    GenerateWalletAddressFromPubKey.

(** Five transactions at the deposit address: an old one, one with another
    memo, one of 250.000001001 TON with the memo wanted, one of 250.000001
    TON and one of 250 TON with that memo. *)
Definition sample_transactions : list Transaction :=
  [mkTransaction 1699990000 "250000000000" "TON10000000021";
   mkTransaction 1699999990 "250000000000" "TON10000000035";
   mkTransaction 1699999993 "250000001001" "TON10000000021";
   mkTransaction 1699999995 "250000001000" "TON10000000021";
   mkTransaction 1699999999 "250000000000" "TON10000000021"].

End toncenter.

(** ** Observations on the users *)

Module registry.
Import model.
Import database.

(** What identifies a user: the id, the public key and the referrer. *)
Definition identity (r : UserRow) : Z * string * option Z :=
  (u_id r, u_pub_key r, u_ref_id r).

Definition identities (d : Database) : list (Z * string * option Z) :=
  map identity (users d).

(** [users.pub_key] is unique. *)
Definition pub_keys_unique (d : Database) : Prop :=
  NoDup (map u_pub_key (users d)).

(** The id that [CreateUser] gives to a new user. *)
Definition new_id (customID : option Z) (rnd : Z) : Z :=
  match customID with
  | Some c => c
  | None => rnd + 1000000000
  end.

End registry.

(** ** Observations on the referral earnings *)

Module payout.
Import model.
Import database.

(** The rows that a distribution records for the chain of referrers: one
    per referrer, numbered from [id], with the levels after [level]. *)
Fixpoint earning_rows (h : handler.Handler) (userID : Z) (profitAmount : Q)
    (now : Z) (id level : Z) (chain : list Z) : list ReferralEarning :=
  match chain with
  | [] => []
  | referrerID :: rest =>
    mkReferralEarning id referrerID userID
      (profitAmount * (handler.levelPercent h (level + 1) / 100))%Q (level + 1) now
    :: earning_rows h userID profitAmount now (id + 1) (level + 1) rest
  end.



End payout.

(** ** The routes *)

Module router.
Import model.
Import database.

(** [gin.Params]: the parameters of the matched route with the path
    segments bound to them. *)
Definition Params : Type := list (string * string).

(** [c.Param(key)]: the first parameter of that name, or the empty
    string. *)
Fixpoint Param (ps : Params) (key : string) : string :=
  match ps with
  | [] => ""
  | (k, v) :: rest => if String.eqb k key then v else Param rest key
  end.

(** [DELETE /api/v1/users/by-pubkey/:pub_key/investments/:investment_id]
    with its handler, which reads the parameters "pubkey" and "id". *)
Definition DeleteInvestment (pub_key investment_id : string) (d : Database)
    (now : Z) : handler.Reply * Database :=
  let ps := [("pub_key", pub_key); ("investment_id", investment_id)] in
  handler.DeleteInvestment d (Param ps "pubkey") (strconv.ParseInt (Param ps "id")) now.

(** [GET /api/v1/users/by-pubkey/:pub_key/operations?page=&page_size=] *)
Definition GetUserOperations (pub_key pageStr pageSizeStr : string) (d : Database)
    : queries.Reply :=
  let ps := [("pub_key", pub_key)] in
  queries.GetUserOperations d (Param ps "pub_key") pageStr pageSizeStr.

(** [DELETE /api/v1/users/:id], behind [AdminAuth]. *)
Definition DeleteUser (AdminAPIKey apiKey id : string) (d : Database)
    : admin.Reply * Database :=
  let ps := [("id", id)] in
  admin.AdminAuth AdminAPIKey apiKey (admin.DeleteUser (Param ps "id")) d.

End router.

(** ** Observations on the recorded withdrawals *)

Module records.
Import model.
Import database.

(** What the table [withdrawals] says apart from status and hash. *)
Definition entry (w : WithdrawalStorage) : Z * Z * Q * Z :=
  (w_id w, w_user_id w, w_amount w, w_created_at w).

Definition entries (d : Database) : list (Z * Z * Q * Z) :=
  map entry (withdrawals d).

(** What a deposit request says apart from its status. *)
Definition request (r : DepositRequest) : Z * Z * Q * string * Z :=
  (d_id r, d_user_id r, d_amount r, d_memo r, d_created_at r).

(** [d'] has the history of [d] and possibly more: the operations and the
    referral earnings of [d] come first and unchanged, the deposit requests
    of [d] come first and unchanged but for their status, and the completed
    ones are unchanged altogether. *)
Definition extends (d d' : Database) : Prop :=
  (exists new, sql.rows (operations d') = sql.rows (operations d) ++ new) /\
  (exists new,
     sql.rows (referral_earnings d') = sql.rows (referral_earnings d) ++ new) /\
  (exists new,
     map request (sql.rows (deposit_requests d'))
     = map request (sql.rows (deposit_requests d)) ++ new) /\
  (forall deposit,
     In deposit (sql.rows (deposit_requests d)) ->
     d_status deposit = "completed" ->
     In deposit (sql.rows (deposit_requests d'))).

(** No money has moved in or out: no withdrawal and no withdrawal request is
    recorded, and every deposit request is pending. *)
Definition unsettled (d : Database) : Prop :=
  withdrawals d = [] /\
  sql.rows (withdrawal_requests d) = [] /\
  Forall (fun r => d_status r = "pending") (sql.rows (deposit_requests d)).

End records.

(** * Properties *)

(** ** Amount comparisons *)

Lemma Qltb_lt (x y : Q) : Qltb x y = true <-> (x < y)%Q.
Proof.
  unfold Qltb. rewrite negb_true_iff.
  split; intro H.
  - apply Qnot_le_lt. intro Hle. apply Qle_bool_iff in Hle. congruence.
  - destruct (Qle_bool y x) eqn:E; [|reflexivity].
    apply Qle_bool_iff in E. exfalso. apply (Qlt_not_le _ _ H E).
Qed.

Lemma Qltb_ge (x y : Q) : Qltb x y = false <-> (y <= x)%Q.
Proof.
  unfold Qltb. rewrite negb_false_iff. apply Qle_bool_iff.
Qed.

Lemma Qleb_gt (x y : Q) : Qleb x y = false <-> (y < x)%Q.
Proof.
  unfold Qleb. split; intro H.
  - apply Qnot_le_lt. intro Hle. apply Qle_bool_iff in Hle. congruence.
  - destruct (Qle_bool x y) eqn:E; [|reflexivity].
    apply Qle_bool_iff in E. exfalso. apply (Qlt_not_le _ _ H E).
Qed.

(** ** Rows: lookups after updates and deletions *)

Section RowFacts.
Context {R : Type}.
Implicit Types (p q : R -> bool) (f : R -> R) (l : list R).

Lemma find_update_rows p q f l :
  (forall r, q (f r) = q r) ->
  find q (sql.update_rows p f l)
  = option_map (fun r => if p r then f r else r) (find q l).
Proof.
  intro Hq. induction l as [|r l IH]; simpl; [reflexivity|].
  destruct (p r) eqn:Hp.
  - rewrite Hq. destruct (q r); [simpl; rewrite Hp; reflexivity|exact IH].
  - destruct (q r); [simpl; rewrite Hp; reflexivity|exact IH].
Qed.

Lemma map_update_rows {K : Type} (k : R -> K) p f l :
  (forall r, k (f r) = k r) ->
  map k (sql.update_rows p f l) = map k l.
Proof.
  intro Hk. induction l as [|r l IH]; simpl; [reflexivity|].
  rewrite IH. destruct (p r); [rewrite Hk|]; reflexivity.
Qed.

Lemma find_app q l1 l2 :
  find q (l1 ++ l2) = match find q l1 with
                      | Some r => Some r
                      | None => find q l2
                      end.
Proof.
  induction l1 as [|r l1 IH]; simpl; [reflexivity|].
  destruct (q r); [reflexivity|exact IH].
Qed.

Lemma max_id_ge (id_of : R -> Z) l r :
  In r l -> id_of r <= sql.max_id id_of l.
Proof.
  induction l as [|x l IH]; simpl; [tauto|].
  intros [->|H]; [lia|]. specialize (IH H). lia.
Qed.

Lemma next_id_fresh (id_of : R -> Z) (t : sql.Table R) r :
  In r (sql.rows t) -> id_of r < sql.next_id id_of t.
Proof.
  intro H. unfold sql.next_id. pose proof (max_id_ge id_of _ _ H). lia.
Qed.

End RowFacts.

(** ** ORDER BY, LIMIT and OFFSET *)

Section OrderFacts.
Context {R : Type} (key : R -> Z).

Lemma insert_desc_perm (x : R) (l : list R) :
  Permutation (sql.insert_desc key x l) (x :: l).
Proof.
  induction l as [|y l IH]; simpl; [apply Permutation_refl|].
  destruct (key y <=? key x); [apply Permutation_refl|].
  eapply perm_trans; [apply perm_skip, IH|apply perm_swap].
Qed.

Lemma order_by_desc_perm (l : list R) :
  Permutation (sql.order_by_desc key l) l.
Proof.
  induction l as [|x l IH]; simpl; [constructor|].
  eapply perm_trans; [apply insert_desc_perm|apply perm_skip, IH].
Qed.

Lemma insert_desc_hd (x a : R) (l : list R) :
  sql.desc key a x ->
  HdRel (sql.desc key) a l -> HdRel (sql.desc key) a (sql.insert_desc key x l).
Proof.
  intros Hax Hl. destruct l as [|y l]; simpl; [constructor; exact Hax|].
  destruct (key y <=? key x); constructor; [exact Hax|].
  inversion Hl; assumption.
Qed.

Lemma insert_desc_sorted (x : R) (l : list R) :
  Sorted (sql.desc key) l -> Sorted (sql.desc key) (sql.insert_desc key x l).
Proof.
  induction 1 as [|y l Hs IH Hhd]; simpl.
  - repeat constructor.
  - destruct (key y <=? key x) eqn:E.
    + apply Z.leb_le in E. constructor; [constructor; assumption|].
      constructor. exact E.
    + apply Z.leb_gt in E. constructor; [exact IH|].
      apply insert_desc_hd; [unfold sql.desc; lia|exact Hhd].
Qed.

Lemma order_by_desc_sorted (l : list R) :
  StronglySorted (sql.desc key) (sql.order_by_desc key l).
Proof.
  apply Sorted_StronglySorted.
  - intros a b c Hab Hbc. unfold sql.desc in *. lia.
  - induction l as [|x l IH]; simpl; [constructor|].
    apply insert_desc_sorted, IH.
Qed.

Lemma limit_offset_slice (n m : Z) (l : list R) :
  0 <= n -> 0 <= m ->
  sql.limit_offset n m l = firstn (Z.to_nat n) (skipn (Z.to_nat m) l).
Proof.
  intros Hn Hm. unfold sql.limit_offset.
  destruct (n <? 0) eqn:E; [apply Z.ltb_lt in E; lia|reflexivity].
Qed.

Lemma nth_error_slice (a b i : nat) (l : list R) :
  (i < b)%nat ->
  nth_error (firstn b (skipn a l)) i = nth_error l (a + i).
Proof.
  intro Hi. rewrite nth_error_firstn.
  destruct (Nat.ltb_spec i b) as [_|Hge]; [|lia].
  apply nth_error_skipn.
Qed.

End OrderFacts.

Lemma int_wrap_small (z : Z) : - 2 ^ 63 <= z <= max_int -> int_wrap z = z.
Proof.
  unfold int_wrap, max_int. intro H.
  rewrite Z.mod_small; lia.
Qed.

(** ** User creation and deletion *)

Import model database.

(** C9: when a row of [users] already carries the public key, [CreateUser]
    succeeds with that existing user and leaves the store as it is, whatever
    [refID], [customID] and random id are supplied. *)
Theorem CreateUser_existing_pub_key (d : Database) (pubKey : string)
    (refID customID : option Z) (rnd : Z) (r : UserRow) :
  In r (users d) ->
  u_pub_key r = pubKey ->
  exists u,
    GetUserByPubKey d pubKey = Ok u /\
    PubKey u = pubKey /\
    CreateUser d pubKey refID customID rnd = (Ok u, d).
Proof.
  intros Hin Hkey. unfold CreateUser, GetUserByPubKey.
  destruct (find (fun r0 => String.eqb (u_pub_key r0) pubKey) (users d)) as [r0|] eqn:Hfind.
  - exists (user_of_row d r0). repeat split.
    apply find_some in Hfind. destruct Hfind as [_ Heq].
    apply String.eqb_eq in Heq. exact Heq.
  - exfalso. pose proof (find_none _ _ Hfind r Hin) as Hno.
    simpl in Hno. rewrite Hkey, String.eqb_refl in Hno. discriminate.
Qed.

Lemma CreateUser_existing_pub_key_witness :
  exists u,
    GetUserByPubKey ledger.db_users "bob" = Ok u /\
    PubKey u = "bob" /\
    CreateUser ledger.db_users "bob" (Some 77) (Some 42) 5 = (Ok u, ledger.db_users).
Proof.
  apply (CreateUser_existing_pub_key ledger.db_users "bob" (Some 77) (Some 42) 5 ledger.bob).
  - simpl. right. left. reflexivity.
  - reflexivity.
Defined.

(** C10: [DeleteUser id] removes the rows of [users] with that id and the
    rows of [investments] of that user, keeps every other row of these two
    tables in place, and leaves the deposit requests, withdrawal requests,
    withdrawals, operations and referral earnings untouched, those of the
    deleted user included. *)
Theorem DeleteUser_frame (d : Database) (id : Z) :
  let d' := DeleteUser d id in
  users d' = filter (fun r => negb (u_id r =? id)) (users d) /\
  sql.rows (investments d')
  = filter (fun i => negb (i_user_id i =? id)) (sql.rows (investments d)) /\
  sql.seq (investments d') = sql.seq (investments d) /\
  (forall r, In r (users d') <-> In r (users d) /\ u_id r <> id) /\
  (forall i, In i (sql.rows (investments d'))
             <-> In i (sql.rows (investments d)) /\ i_user_id i <> id) /\
  referral_earnings d' = referral_earnings d /\
  deposit_requests d' = deposit_requests d /\
  withdrawal_requests d' = withdrawal_requests d /\
  operations d' = operations d /\
  withdrawals d' = withdrawals d.
Proof.
  assert (Hf : forall (A : Type) (k : A -> Z) (l : list A) (a : A),
             In a (filter (fun x => negb (k x =? id)) l) <-> In a l /\ k a <> id).
  { intros A k l a. rewrite filter_In, negb_true_iff, Z.eqb_neq. reflexivity. }
  simpl.
  split; [reflexivity|]. split; [reflexivity|]. split; [reflexivity|].
  split; [intro r; apply (Hf _ u_id)|].
  split; [intro i; apply (Hf _ i_user_id)|].
  repeat split; reflexivity.
Qed.

(** ** Operation history *)

(** C8 (as amended): [GetUserOperations] returns, for page [page >= 1] of
    size [pageSize >= 0] (both Go ints) whose offset [(page-1)*pageSize]
    does not exceed the largest Go int, the
    operations number [(page-1)*pageSize + 1] to [page*pageSize] of the
    user's operations ordered by creation time descending, as far as they
    exist, together with the number of all operations of the user; for a
    user with 25 operations, page 2 of size 10 holds the 11th to the 20th
    and the total is 25. *)
Theorem GetUserOperations_page (d : Database) (userID page pageSize : Z) :
  1 <= page <= max_int ->
  0 <= pageSize ->
  (page - 1) * pageSize <= max_int ->
  let mine := filter (fun o => op_user_id o =? userID) (sql.rows (operations d)) in
  let sorted := ledger.operations_desc d userID in
  let history := GetUserOperations d userID page pageSize in
  let first := Z.to_nat ((page - 1) * pageSize) in
  Permutation sorted mine /\
  StronglySorted (sql.desc op_created_at) sorted /\
  Total history = Z.of_nat (List.length mine) /\
  Operations history = firstn (Z.to_nat pageSize) (skipn first sorted) /\
  (forall i, (i < Z.to_nat pageSize)%nat ->
             nth_error (Operations history) i = nth_error sorted (first + i)) /\
  (page = 2 -> pageSize = 10 -> List.length mine = 25%nat ->
   Total history = 25 /\
   List.length (Operations history) = 10%nat /\
   Operations history = firstn 10 (skipn 10 sorted)).
Proof.
  intros Hpage Hsize Hoff mine sorted history first.
  assert (Hperm : Permutation sorted mine) by apply order_by_desc_perm.
  assert (Hops : Operations history = firstn (Z.to_nat pageSize) (skipn first sorted)).
  { unfold history, GetUserOperations. cbn [Operations].
    rewrite (int_wrap_small (page - 1)) by (unfold max_int in *; lia).
    rewrite int_wrap_small by (unfold max_int in *; nia).
    apply limit_offset_slice; nia. }
  split; [exact Hperm|].
  split; [apply order_by_desc_sorted|].
  split; [reflexivity|].
  split; [exact Hops|].
  split.
  - intros i Hi. rewrite Hops. apply nth_error_slice. exact Hi.
  - intros -> -> Hlen.
    assert (Hs : List.length sorted = 25%nat)
      by (rewrite (Permutation_length Hperm); exact Hlen).
    split; [unfold history, GetUserOperations; cbn [Total]; fold mine; rewrite Hlen; reflexivity|].
    rewrite Hops. change first with 10%nat. change (Z.to_nat 10) with 10%nat.
    split; [|reflexivity].
    rewrite length_firstn, length_skipn, Hs. reflexivity.
Qed.

Lemma GetUserOperations_page_witness :
  Total (GetUserOperations ledger.db_ops25 7 2 10) = 25 /\
  map op_id (Operations (GetUserOperations ledger.db_ops25 7 2 10))
  = [15; 14; 13; 12; 11; 10; 9; 8; 7; 6].
Proof.
  destruct (GetUserOperations_page ledger.db_ops25 7 2 10) as (_ & _ & _ & Hops & _ & H25).
  - unfold max_int. lia.
  - lia.
  - unfold max_int. lia.
  - destruct (H25 eq_refl eq_refl eq_refl) as (Htotal & _ & _).
    split; [exact Htotal|].
    rewrite Hops. vm_compute. reflexivity.
Defined.

(** C8 as stated fails where the offset overflows: for the user with 25
    operations, page 9223372036854775807 of size 2 has the offset
    [(page-1)*2], which wraps around to -4; SQLite reads a negative offset
    as 0, and the two newest operations come back, where the operations
    number [(page-1)*2 + 1] and [(page-1)*2 + 2] do not exist.  The handler
    passes this page and size on as they are. *)
Lemma GetUserOperations_wrap_counterexample :
  1 <= 9223372036854775807 <= max_int /\
  int_wrap (int_wrap (9223372036854775807 - 1) * 2) = -4 /\
  map op_id (Operations (GetUserOperations ledger.db_ops25 7 9223372036854775807 2))
  = [25; 24] /\
  firstn (Z.to_nat 2)
    (skipn (Z.to_nat ((9223372036854775807 - 1) * 2))
       (ledger.operations_desc ledger.db_ops25 7)) = [] /\
  queries.GetUserOperations ledger.db_history "grace" "9223372036854775807" "2"
  = queries.History
      (GetUserOperations ledger.db_ops25 7 9223372036854775807 2).
Proof.
  split; [unfold max_int; lia|].
  split; [vm_compute; reflexivity|].
  split; [vm_compute; reflexivity|].
  split; [|vm_compute; reflexivity].
  rewrite skipn_all2; [reflexivity|].
  assert (Hlen : List.length (ledger.operations_desc ledger.db_ops25 7) = 25%nat)
    by (vm_compute; reflexivity).
  rewrite Hlen. lia.
Qed.

(** ** Deposit confirmation *)

Import handler.

Ltac case_if :=
  match goal with
  | |- context [if ?c then _ else _] => destruct c eqn:?
  end.

Section KeyFacts.
Context {R : Type} (k : R -> Z).

Lemma find_key_unique (l : list R) (r : R) :
  NoDup (map k l) -> In r l -> find (fun x => k x =? k r) l = Some r.
Proof.
  induction l as [|x l IH]; simpl; [tauto|].
  intros Hnd [->|Hin].
  - rewrite Z.eqb_refl. reflexivity.
  - inversion Hnd as [|? ? Hnotin Hnd']; subst.
    destruct (k x =? k r) eqn:E.
    + apply Z.eqb_eq in E. exfalso. apply Hnotin. rewrite E.
      apply in_map. exact Hin.
    + apply IH; assumption.
Qed.

End KeyFacts.

Lemma balance_of_pub_key (d : Database) (pubKey : string) (u : User) :
  ledger.users_keyed d ->
  GetUserByPubKey d pubKey = Ok u ->
  ledger.balance_of d (ID u) = Some (Balance u).
Proof.
  unfold GetUserByPubKey, ledger.balance_of, ledger.users_keyed.
  intros Hk H.
  destruct (find (fun r => String.eqb (u_pub_key r) pubKey) (users d)) as [r|] eqn:Hf;
    [|discriminate].
  inversion H; subst; clear H. unfold user_of_row. cbn [ID Balance].
  apply find_some in Hf. destruct Hf as [Hin _].
  rewrite (find_key_unique u_id _ _ Hk Hin). reflexivity.
Qed.

(** Reading a deposit request never succeeds: without the row the answer is
    [sql.ErrNoRows], with it the scan error. *)
Lemma GetDepositRequest_error (d : Database) (id : Z) :
  GetDepositRequest d id
  = Err (if existsb (fun r => d_id r =? id) (sql.rows (deposit_requests d))
         then ErrScan else ErrNoRows).
Proof.
  unfold GetDepositRequest.
  induction (sql.rows (deposit_requests d)) as [|r l IH]; simpl; [reflexivity|].
  destruct (d_id r =? id); [reflexivity|exact IH].
Qed.

Lemma scan_deposits_error (l : list DepositRequest) :
  scan_deposits l = match l with [] => Ok [] | _ :: _ => Err ErrScan end.
Proof. destruct l; reflexivity. Qed.

(** The deposit requests of a user can be listed only when there are none. *)
Lemma GetDepositsOfUser_cases (d : Database) (userID : Z) :
  GetDepositsOfUser d userID
  = match ledger.deposits_of d userID with
    | [] => Ok []
    | _ :: _ => Err ErrScan
    end.
Proof. unfold GetDepositsOfUser. apply scan_deposits_error. Qed.

(** No confirmation gets past the lookup of the deposit request. *)
Lemma ConfirmDeposit_refused (h : Handler) (d : Database) (pubKey : string) (id : Z) :
  succeeded (fst (ConfirmDeposit h d pubKey id)) = false /\
  snd (ConfirmDeposit h d pubKey id) = d.
Proof.
  unfold ConfirmDeposit.
  case_if; [split; reflexivity|].
  destruct (GetUserByPubKey d pubKey) as [user|]; [|split; reflexivity].
  rewrite GetDepositRequest_error. split; reflexivity.
Qed.

Lemma successes_cons (r : Reply) (replies : list Reply) :
  ledger.successes (r :: replies)
  = ((if succeeded r then 1 else 0) + ledger.successes replies)%nat.
Proof. unfold ledger.successes. simpl. destruct (succeeded r); reflexivity. Qed.

(** A run of confirmations contains no success and changes nothing. *)
Lemma confirmAll_refused (calls : list (Handler * string)) (d : Database)
    (depositID : Z) :
  ledger.successes (fst (ledger.confirmAll d depositID calls)) = 0%nat /\
  snd (ledger.confirmAll d depositID calls) = d.
Proof.
  induction calls as [|[h pubKey] rest IH]; [split; reflexivity|].
  simpl. destruct (ConfirmDeposit_refused h d pubKey depositID) as [Hs Hd].
  destruct (ConfirmDeposit h d pubKey depositID) as [reply d1].
  cbn [fst snd] in Hs, Hd. subst d1.
  destruct (ledger.confirmAll d depositID rest) as [replies d2].
  cbn [fst snd] in *. rewrite successes_cons, Hs. exact IH.
Qed.

(** C2: the deposit is never credited.  Whoever asks and whatever the chain
    client answers, [ConfirmDeposit] fails and leaves the store as it is; for
    a well-formed request of a known user about a deposit request that is
    recorded, the reply is 404 "deposit request not found", whatever the
    status of the request; a run of confirmations of one deposit request
    contains no success.  In the run from the empty store, "bob" registers
    and asks for a deposit of 250: the request is recorded as pending and
    the reply is 500 "failed to create deposit request"; with the payment
    found on the chain, his confirmation is answered 404 and his balance
    stays 0. *)
Theorem ConfirmDeposit_never_credits :
  (forall (h : Handler) (d : Database) (pubKey : string) (depositID : Z),
     succeeded (fst (ConfirmDeposit h d pubKey depositID)) = false /\
     snd (ConfirmDeposit h d pubKey depositID) = d /\
     (forall user deposit,
        pubKey <> "" -> depositID <> 0 ->
        GetUserByPubKey d pubKey = Ok user ->
        In deposit (sql.rows (deposit_requests d)) -> d_id deposit = depositID ->
        ConfirmDeposit h d pubKey depositID = (Failure 404 DepositNotFound, d)) /\
     (forall calls,
        ledger.successes (fst (ledger.confirmAll d depositID calls)) = 0%nat /\
        snd (ledger.confirmAll d depositID calls) = d)) /\
  CreateDeposit ledger.h_yes ledger.db_registered "bob" 250 1700000000
  = (Failure 500 FailedToCreateDeposit, ledger.db_requested) /\
  sql.rows (deposit_requests ledger.db_requested)
  = [mkDepositRequest 1 1000000002 250 "pending" "TON10000000021700000000"
       1700000000] /\
  ConfirmDeposit ledger.h_yes ledger.db_requested "bob" 1
  = (Failure 404 DepositNotFound, ledger.db_requested) /\
  ledger.balance_of ledger.db_requested 1000000002 = Some 0%Q.
Proof.
  split.
  - intros h d pubKey depositID.
    destruct (ConfirmDeposit_refused h d pubKey depositID) as [Hs Hd].
    split; [exact Hs|]. split; [exact Hd|]. split.
    + intros user deposit Hpk Hid Huser Hin Heq. unfold ConfirmDeposit.
      apply String.eqb_neq in Hpk. apply Z.eqb_neq in Hid. rewrite Hpk, Hid. simpl.
      rewrite Huser, GetDepositRequest_error. reflexivity.
    + intro calls. apply confirmAll_refused.
  - repeat split; vm_compute; reflexivity.
Qed.

(** ** Referral cascade *)

Lemma balance_of_AddReferralEarning (d : Database) (referrerID referredID : Z)
    (amount : Q) (level now : Z) (userID : Z) :
  ledger.balance_of (AddReferralEarning d referrerID referredID amount level now) userID
  = if userID =? referrerID
    then option_map (fun b => (b + amount)%Q) (ledger.balance_of d userID)
    else ledger.balance_of d userID.
Proof.
  unfold ledger.balance_of, AddReferralEarning.
  cbn [users with_users with_referral_earnings].
  rewrite find_update_rows by reflexivity.
  destruct (find (fun r => u_id r =? userID) (users d)) as [r|] eqn:Hf.
  - apply find_some in Hf. destruct Hf as [_ Hid]. apply Z.eqb_eq in Hid.
    simpl. rewrite Hid. destruct (userID =? referrerID); reflexivity.
  - simpl. destruct (userID =? referrerID); reflexivity.
Qed.

Lemma max_id_app {R : Type} (id_of : R -> Z) (l : list R) (r : R) :
  sql.max_id id_of (l ++ [r]) = Z.max (sql.max_id id_of l) (Z.max (id_of r) 0).
Proof.
  induction l as [|x l IH]; simpl; [lia|]. rewrite IH. lia.
Qed.

Lemma max_id_nonneg {R : Type} (id_of : R -> Z) (l : list R) :
  0 <= sql.max_id id_of l.
Proof. induction l as [|x l IH]; simpl; lia. Qed.

Lemma next_id_insert {R : Type} (id_of : R -> Z) (mk : Z -> R) (t : sql.Table R) :
  (forall id, id_of (mk id) = id) ->
  sql.next_id id_of (sql.insert id_of mk t) = sql.next_id id_of t + 1.
Proof.
  intro Hmk. unfold sql.insert, sql.next_id. cbn [sql.rows sql.seq].
  rewrite max_id_app, Hmk. pose proof (max_id_nonneg id_of (sql.rows t)). lia.
Qed.

Lemma referral_earnings_AddReferralEarning (d : Database) (referrerID referredID : Z)
    (amount : Q) (level now : Z) :
  let d' := AddReferralEarning d referrerID referredID amount level now in
  sql.rows (referral_earnings d')
  = sql.rows (referral_earnings d)
    ++ [mkReferralEarning (sql.next_id re_id (referral_earnings d)) referrerID
          referredID amount level now] /\
  sql.next_id re_id (referral_earnings d')
  = sql.next_id re_id (referral_earnings d) + 1.
Proof.
  split; [reflexivity|].
  unfold AddReferralEarning. cbn [referral_earnings with_users with_referral_earnings].
  apply next_id_insert. reflexivity.
Qed.

Lemma referrerChain_step (d : Database) (userID refID : Z) (hops : nat) :
  ledger.referrer_of d userID = Some (Some refID) ->
  referrerChain d userID (S hops)
  = match referrerChain d refID hops with
    | Ok chain => Ok (refID :: chain)
    | Err e => Err e
    end.
Proof.
  unfold ledger.referrer_of. simpl.
  destruct (find (fun r => u_id r =? userID) (users d)) as [r|]; [|discriminate].
  simpl. intro H. inversion H as [Hr]. rewrite Hr. reflexivity.
Qed.




Lemma eqb_neq_false (x y : Z) : x <> y -> (x =? y) = false.
Proof. apply Z.eqb_neq. Qed.






(** ** Withdrawals: the ceiling *)

(** A withdrawal request of a user who has a deposit request stops at the
    listing of the deposits. *)
Lemma WithdrawFunds_deposit_rows (h : Handler) (d : Database) (pubKey : string)
    (amount : Q) (now : Z) (user : User) :
  pubKey <> "" -> (0 < amount)%Q ->
  GetUserByPubKey d pubKey = Ok user ->
  ledger.deposits_of d (ID user) <> [] ->
  WithdrawFunds h d pubKey amount now = (Failure 404 UserNotFoundError, d).
Proof.
  intros Hpk Hpos Huser Hrows. unfold WithdrawFunds.
  apply String.eqb_neq in Hpk. rewrite Hpk.
  apply Qltb_lt in Hpos. rewrite Hpos. cbn [negb orb].
  rewrite Huser, GetDepositsOfUser_cases.
  destruct (ledger.deposits_of d (ID user)); [contradiction|reflexivity].
Qed.

(** The loop over the withdrawals only adds to its running sum when no
    recorded amount is negative. *)
Lemma sumWithdrawals_ge (l : list WithdrawalStorage) :
  forall acc s,
    Forall (fun w => (0 <= w_amount w)%Q) l ->
    sumWithdrawals acc l = Some s -> (acc <= s)%Q.
Proof.
  induction l as [|w l IH]; intros acc s Hall; simpl.
  - intro H. inversion H. apply Qle_refl.
  - inversion Hall as [|? ? Hw Hl]; subst.
    destruct (String.eqb (w_status w) "completed"); [|discriminate].
    intro H. apply (IH _ _ Hl) in H.
    apply Qle_trans with (acc + w_amount w)%Q; [|exact H].
    rewrite <- (Qplus_0_r acc) at 1. apply Qplus_le_r. exact Hw.
Qed.

Lemma GetWithdrawalRequestsByUser_Forall (P : WithdrawalStorage -> Prop)
    (d : Database) (userID : Z) :
  Forall P (withdrawals d) -> Forall P (GetWithdrawalRequestsByUser d userID).
Proof.
  intro H. unfold GetWithdrawalRequestsByUser.
  eapply Permutation_Forall; [apply Permutation_sym, order_by_desc_perm|].
  apply Forall_forall. intros w Hw. apply filter_In in Hw.
  rewrite Forall_forall in H. apply H, Hw.
Qed.

(** Where no recorded withdrawal has a negative amount, a withdrawal request
    ends before anything is written: at the validation, at the lookups, at
    the two loops or at the comparison with the available balance, which is
    not above 0. *)
Lemma WithdrawFunds_stops (h : Handler) (d : Database) (pubKey : string)
    (amount : Q) (now : Z) :
  Forall (fun w => (0 <= w_amount w)%Q) (withdrawals d) ->
  succeeded (fst (WithdrawFunds h d pubKey amount now)) = false /\
  fst (WithdrawFunds h d pubKey amount now) <> Failure 500 FailedToWithdraw /\
  fst (WithdrawFunds h d pubKey amount now) <> Failure 500 FailedToGenerateAddress /\
  snd (WithdrawFunds h d pubKey amount now) = d.
Proof.
  intro Hw. unfold WithdrawFunds.
  destruct (String.eqb pubKey "" || negb (Qltb 0 amount)) eqn:Hreq;
    [repeat split; discriminate|].
  apply orb_false_iff in Hreq. destruct Hreq as [_ Hpos].
  apply negb_false_iff, Qltb_lt in Hpos.
  destruct (GetUserByPubKey d pubKey) as [user|]; [|repeat split; discriminate].
  rewrite GetDepositsOfUser_cases.
  destruct (ledger.deposits_of d (ID user)); [|repeat split; discriminate].
  cbn [sumDeposits].
  destruct (sumWithdrawals 0 (GetWithdrawalRequestsByUser d (ID user))) as [s|] eqn:Hs;
    [|repeat split; discriminate].
  apply sumWithdrawals_ge in Hs;
    [|apply GetWithdrawalRequestsByUser_Forall; exact Hw].
  assert (Hlt : Qltb (availableBalance 0 s) amount = true).
  { apply Qltb_lt. unfold availableBalance. lra. }
  rewrite Hlt. repeat split; discriminate.
Qed.


(** ** Opening and closing investments *)

Lemma balance_of_update_rows (l : list UserRow) (userID X : Z) (f : UserRow -> UserRow) :
  (forall r, u_id (f r) = u_id r) ->
  option_map u_balance
    (find (fun r => u_id r =? X) (sql.update_rows (fun r => u_id r =? userID) f l))
  = if X =? userID
    then option_map (fun r => u_balance (f r)) (find (fun r => u_id r =? X) l)
    else option_map u_balance (find (fun r => u_id r =? X) l).
Proof.
  intro Hid. rewrite find_update_rows by (intro r; rewrite Hid; reflexivity).
  destruct (find (fun r => u_id r =? X) l) as [r|] eqn:Hf.
  - apply find_some in Hf. destruct Hf as [_ HX]. apply Z.eqb_eq in HX.
    simpl. rewrite HX. destruct (X =? userID); reflexivity.
  - simpl. destruct (X =? userID); reflexivity.
Qed.

(** What a successful [database.CreateInvestment] does. *)
Lemma db_CreateInvestment_ok (d d' : Database) (userID : Z) (investType : string)
    (amount : Q) (config : InvestmentTypeConfig) (now : Z) :
  database.CreateInvestment d userID investType amount config now = Ok d' ->
  exists b,
    ledger.balance_of d userID = Some b /\ (amount <= b)%Q /\
    ledger.balance_of d' userID = Some (b - amount)%Q /\
    (forall X, X <> userID -> ledger.balance_of d' X = ledger.balance_of d X) /\
    map u_id (users d') = map u_id (users d) /\
    sql.rows (investments d')
    = sql.rows (investments d)
      ++ [mkInvestment (sql.next_id i_id (investments d)) userID investType amount now] /\
    referral_earnings d' = referral_earnings d /\
    deposit_requests d' = deposit_requests d /\
    withdrawal_requests d' = withdrawal_requests d /\
    withdrawals d' = withdrawals d.
Proof.
  unfold database.CreateInvestment, ledger.balance_of.
  destruct (find (fun r => u_id r =? userID) (users d)) as [r|] eqn:Hf; [|discriminate].
  destruct (Qltb (u_balance r) amount) eqn:Hlt; [discriminate|].
  intro H. inversion H; subst d'; clear H.
  exists (u_balance r). apply Qltb_ge in Hlt.
  cbn [users investments referral_earnings deposit_requests withdrawal_requests
       withdrawals insert_operation with_operations with_investments with_users].
  split; [reflexivity|]. split; [exact Hlt|].
  split.
  { rewrite balance_of_update_rows by reflexivity.
    rewrite Z.eqb_refl, Hf. reflexivity. }
  split.
  { intros X HX. rewrite balance_of_update_rows by reflexivity.
    rewrite (eqb_neq_false _ _ HX). reflexivity. }
  split; [apply map_update_rows; reflexivity|].
  repeat split.
Qed.

Lemma db_CreateInvestment_enough (d : Database) (userID : Z) (investType : string)
    (amount : Q) (config : InvestmentTypeConfig) (now : Z) (b : Q) :
  ledger.balance_of d userID = Some b ->
  (amount <= b)%Q ->
  exists d', database.CreateInvestment d userID investType amount config now = Ok d'.
Proof.
  unfold database.CreateInvestment, ledger.balance_of.
  destruct (find (fun r => u_id r =? userID) (users d)) as [r|]; [|discriminate].
  simpl. intros Hb Hle. inversion Hb; subst b.
  apply Qltb_ge in Hle. rewrite Hle. eexists. reflexivity.
Qed.

(** A rejected [CreateInvestment] request leaves the store as it is. *)
Lemma CreateInvestment_failure (h : Handler) (d : Database) (pubKey reqType : string)
    (amount : Q) (now : Z) :
  succeeded (fst (handler.CreateInvestment h d pubKey reqType amount now)) = false ->
  snd (handler.CreateInvestment h d pubKey reqType amount now) = d.
Proof.
  unfold handler.CreateInvestment.
  case_if; [reflexivity|]. case_if; [reflexivity|].
  destruct (lookup_type _ _) as [investConfig|]; [|reflexivity].
  case_if; [reflexivity|].
  destruct (GetUserByPubKey d pubKey) as [user|]; [|reflexivity].
  destruct (database.CreateInvestment _ _ _ _ _ _) as [d'|e].
  - simpl. discriminate.
  - destruct e; reflexivity.
Qed.

(** C5 (as amended): [CreateInvestment] does not consult the configured
    minimum amount.  For a known type and a positive amount that the user's
    balance covers, the request succeeds whatever [MinAmount] is, appends
    the investment row and debits the balance by the amount; and every
    rejected request leaves the store, hence the investments and the
    balances, unchanged. *)
Theorem CreateInvestment_no_minimum (h : Handler) (d : Database)
    (pubKey reqType : string) (amount : Q) (now : Z) (user : User)
    (investConfig : InvestmentTypeConfig) :
  ledger.users_keyed d ->
  pubKey <> "" -> reqType <> "" ->
  lookup_type (InvestmentTypes (config h)) reqType = Some investConfig ->
  (0 < amount)%Q ->
  GetUserByPubKey d pubKey = Ok user ->
  (amount <= Balance user)%Q ->
  (exists data d',
     handler.CreateInvestment h d pubKey reqType amount now = (Success 201 data, d') /\
     sql.rows (investments d')
     = sql.rows (investments d)
       ++ [mkInvestment (sql.next_id i_id (investments d)) (ID user) reqType amount now] /\
     ledger.balance_of d' (ID user) = Some (Balance user - amount)%Q) /\
  (forall pubKey' reqType' amount',
     succeeded (fst (handler.CreateInvestment h d pubKey' reqType' amount' now)) = false ->
     snd (handler.CreateInvestment h d pubKey' reqType' amount' now) = d).
Proof.
  intros Hk Hpk Hty Hcfg Hpos Huser Hle.
  split; [|intros; apply CreateInvestment_failure; assumption].
  pose proof (balance_of_pub_key _ _ _ Hk Huser) as Hb.
  destruct (db_CreateInvestment_enough d (ID user) reqType amount investConfig now
              _ Hb Hle) as (d' & Hrun).
  destruct (db_CreateInvestment_ok _ _ _ _ _ _ _ Hrun)
    as (b & Hb' & _ & Hbal & _ & _ & Hrows & _).
  rewrite Hb in Hb'. inversion Hb'; subst b.
  unfold handler.CreateInvestment.
  apply String.eqb_neq in Hpk. apply String.eqb_neq in Hty. rewrite Hpk, Hty.
  assert (Hnz : Qeq_bool amount 0 = false).
  { destruct (Qeq_bool amount 0) eqn:E; [|reflexivity].
    apply Qeq_bool_iff in E. rewrite E in Hpos. discriminate. }
  rewrite Hnz. cbn [orb]. rewrite Hcfg.
  apply Qleb_gt in Hpos. rewrite Hpos, Huser, Hrun.
  eexists. exists d'. split; [reflexivity|]. split; assumption.
Qed.

Lemma CreateInvestment_no_minimum_witness :
  exists data d',
    handler.CreateInvestment ledger.h_yes ledger.db_users "alice" "low" 10 5
    = (Success 201 data, d') /\
    sql.rows (investments d') = [mkInvestment 1 1000000001 "low" 10 5] /\
    ledger.balance_of d' 1000000001 = Some (1000 - 10)%Q.
Proof.
  destruct (CreateInvestment_no_minimum ledger.h_yes ledger.db_users "alice" "low" 10 5
              (user_of_row ledger.db_users ledger.alice)
              (mkInvestmentTypeConfig 1.5 50 30))
    as [(data & d' & Hrun & Hrows & Hbal) _].
  - unfold ledger.users_keyed. simpl.
    repeat constructor; simpl; intuition discriminate.
  - discriminate.
  - discriminate.
  - reflexivity.
  - reflexivity.
  - reflexivity.
  - discriminate.
  - exists data, d'. split; [exact Hrun|]. split; [exact Hrows|exact Hbal].
Defined.

(** C5 as stated fails: with a minimum of 50 for "low", an investment of 10
    is accepted, its row is inserted and the balance goes from 1000 to
    990. *)
Lemma CreateInvestment_below_minimum_counterexample :
  lookup_type (InvestmentTypes (config ledger.h_yes)) "low"
  = Some (mkInvestmentTypeConfig 1.5 50 30) /\
  (10 < MinAmount (mkInvestmentTypeConfig 1.5 50 30))%Q /\
  succeeded (fst (handler.CreateInvestment ledger.h_yes ledger.db_users "alice" "low" 10 5))
  = true /\
  sql.rows (investments
              (snd (handler.CreateInvestment ledger.h_yes ledger.db_users "alice" "low" 10 5)))
  = [mkInvestment 1 1000000001 "low" 10 5] /\
  ledger.balance_of ledger.db_users 1000000001 = Some 1000%Q /\
  (exists b,
     ledger.balance_of
       (snd (handler.CreateInvestment ledger.h_yes ledger.db_users "alice" "low" 10 5))
       1000000001 = Some b /\
     (b == 990)%Q).
Proof.
  repeat split. eexists. split; reflexivity.
Qed.

(** ** Conservation over opening and closing *)

(** Deleting rows keeps a key a key. *)
Lemma keyed_delete_rows {R : Type} (k : R -> Z) (p : R -> bool) (rows : list R) :
  NoDup (map k rows) -> NoDup (map k (sql.delete_rows p rows)).
Proof.
  unfold sql.delete_rows.
  induction rows as [|x rows IH]; simpl; intro H; [constructor|].
  inversion H as [|? ? Hfresh Hrest]; subst.
  destruct (negb (p x)); simpl; [|apply IH; exact Hrest].
  constructor; [|apply IH; exact Hrest].
  intro Hin. apply Hfresh. apply in_map_iff in Hin.
  destruct Hin as (y & Hy & Hiny). apply filter_In in Hiny.
  apply in_map_iff. exists y. tauto.
Qed.

Lemma NoDup_map_insert {R : Type} (id_of : R -> Z) (mk : Z -> R) (t : sql.Table R) :
  (forall id, id_of (mk id) = id) ->
  NoDup (map id_of (sql.rows t)) ->
  NoDup (map id_of (sql.rows (sql.insert id_of mk t))).
Proof.
  intros Hmk Hnd. unfold sql.insert. cbn [sql.rows].
  rewrite map_app. simpl. rewrite Hmk.
  apply NoDup_app.
  - exact Hnd.
  - constructor; [simpl; tauto|constructor].
  - intros x Hx [Hy|[]]. subst x.
    apply in_map_iff in Hx. destruct Hx as (r & Hr & Hin).
    pose proof (next_id_fresh id_of t r Hin). lia.
Qed.

(** What a successful [database.DeleteInvestment] does. *)
Lemma db_DeleteInvestment_ok (d d' : Database) (userID investmentID now : Z) :
  database.DeleteInvestment d userID investmentID now = Ok d' ->
  exists investment,
    ledger.investment_of d userID investmentID = Some investment /\
    ledger.balance_of d' userID
    = option_map (fun b => (b + i_amount investment)%Q) (ledger.balance_of d userID) /\
    (forall X, X <> userID -> ledger.balance_of d' X = ledger.balance_of d X) /\
    map u_id (users d') = map u_id (users d) /\
    sql.rows (investments d')
    = sql.delete_rows (fun i => (i_id i =? investmentID) && (i_user_id i =? userID))
        (sql.rows (investments d)) /\
    referral_earnings d' = referral_earnings d /\
    deposit_requests d' = deposit_requests d /\
    withdrawal_requests d' = withdrawal_requests d /\
    withdrawals d' = withdrawals d.
Proof.
  unfold database.DeleteInvestment, ledger.investment_of, ledger.balance_of.
  destruct (find _ (sql.rows (investments d))) as [investment|]; [|discriminate].
  case_if; [discriminate|].
  intro H. inversion H; subst d'; clear H.
  exists investment.
  cbn [users investments referral_earnings deposit_requests withdrawal_requests
       withdrawals insert_operation with_operations with_investments with_users
       sql.delete sql.rows].
  split; [reflexivity|].
  split.
  { rewrite balance_of_update_rows by reflexivity. rewrite Z.eqb_refl.
    destruct (find (fun r => u_id r =? userID) (users d)); reflexivity. }
  split.
  { intros X HX. rewrite balance_of_update_rows by reflexivity.
    rewrite (eqb_neq_false _ _ HX). reflexivity. }
  split; [apply map_update_rows; reflexivity|].
  repeat split.
Qed.








(** ** Balances stay non-negative *)

Lemma Forall_update_rows {R : Type} (P : R -> Prop) (p : R -> bool) (f : R -> R)
    (l : list R) :
  Forall P l ->
  (forall r, In r l -> p r = true -> P (f r)) ->
  Forall P (sql.update_rows p f l).
Proof.
  intros HP Hf. unfold sql.update_rows. apply Forall_forall.
  intros x Hx. apply in_map_iff in Hx. destruct Hx as (r & Hr & Hin).
  rewrite Forall_forall in HP. destruct (p r) eqn:Hp; subst x.
  - apply Hf; assumption.
  - apply HP; assumption.
Qed.

Lemma key_unique_row {R : Type} (k : R -> Z) (l : list R) (r x : R) (key : Z) :
  NoDup (map k l) ->
  find (fun y => k y =? key) l = Some r ->
  In x l -> k x = key -> x = r.
Proof.
  intros Hnd Hf Hin Hk.
  pose proof (find_key_unique k l x Hnd Hin) as Hx.
  rewrite Hk, Hf in Hx. inversion Hx. reflexivity.
Qed.

Lemma user_row_of_pub_key (d : Database) (pubKey : string) (user : User) :
  GetUserByPubKey d pubKey = Ok user ->
  exists r, In r (users d) /\ u_id r = ID user /\ u_balance r = Balance user.
Proof.
  unfold GetUserByPubKey.
  destruct (find (fun r => String.eqb (u_pub_key r) pubKey) (users d)) as [r|] eqn:Hf;
    [|discriminate].
  intro H. inversion H; subst. apply find_some in Hf.
  exists r. unfold user_of_row. cbn. tauto.
Qed.


Ltac db_simpl :=
  cbn [users investments referral_earnings deposit_requests withdrawal_requests
       operations withdrawals with_users with_investments with_referral_earnings
       with_deposit_requests with_withdrawal_requests with_operations
       with_withdrawals insert_operation AddOperation UpdateUserBalance
       UpdateDepositStatus CreateWithdrawalRequest ConfirmWithdrawalRequest
       AddReferralEarning sql.rows sql.seq sql.insert sql.update sql.delete
       fst snd] in *.

Lemma CreateUser_invariant (d : Database) (pubKey : string)
    (refID customID : option Z) (rnd : Z) :
  ledger.invariant d ->
  ledger.invariant (snd (CreateUser d pubKey refID customID rnd)).
Proof.
  intros [(Hu & Hi & Hp & Hd) Hb]. unfold CreateUser.
  destruct (GetUserByPubKey d pubKey) as [u|e]; [repeat split; assumption|].
  case_if; [repeat split; assumption|].
  destruct (existsb _ (users d)) eqn:Hex; [repeat split; assumption|].
  db_simpl. repeat split; db_simpl; try assumption.
  - unfold ledger.users_keyed in *. db_simpl. rewrite map_app. simpl.
    apply NoDup_app; [exact Hu|constructor; [simpl; tauto|constructor]|].
    intros x Hx [Hy|[]]. subst x.
    apply in_map_iff in Hx. destruct Hx as (r & Hr & Hin).
    assert (Hfalse : existsb (fun r0 => u_id r0 =? u_id r) (users d) = true).
    { apply existsb_exists. exists r. split; [exact Hin|apply Z.eqb_refl]. }
    rewrite Hr in Hfalse. rewrite Hfalse in Hex. discriminate.
  - unfold ledger.balances_nonneg in *. db_simpl.
    apply Forall_app. split; [exact Hb|]. constructor; [|constructor].
    simpl. discriminate.
Qed.

Lemma db_CreateInvestment_invariant (d d' : Database) (userID : Z)
    (investType : string) (amount : Q) (config : InvestmentTypeConfig) (now : Z) :
  ledger.invariant d ->
  (0 <= amount)%Q ->
  database.CreateInvestment d userID investType amount config now = Ok d' ->
  ledger.invariant d'.
Proof.
  intros [(Hu & Hi & Hp & Hd) Hb] Hpos. unfold database.CreateInvestment.
  destruct (find (fun r => u_id r =? userID) (users d)) as [r|] eqn:Hf; [|discriminate].
  destruct (Qltb (u_balance r) amount) eqn:Hlt; [discriminate|].
  apply Qltb_ge in Hlt.
  intro H. inversion H; subst d'; clear H.
  repeat split.
  - unfold ledger.users_keyed in *. db_simpl. rewrite map_update_rows; auto.
  - unfold ledger.investments_keyed in *. db_simpl.
    apply (NoDup_map_insert i_id
             (fun id => mkInvestment id userID investType amount now)
             (investments d)); [reflexivity|exact Hi].
  - db_simpl. apply Forall_app. split; [exact Hp|]. constructor; [exact Hpos|constructor].
  - db_simpl. exact Hd.
  - unfold ledger.balances_nonneg in *. db_simpl.
    apply Forall_update_rows; [exact Hb|].
    intros x Hin Hx. apply Z.eqb_eq in Hx.
    assert (x = r) by (eapply (key_unique_row u_id); eassumption).
    subst x. simpl. lra.
Qed.

Lemma CreateInvestment_invariant (h : Handler) (d : Database)
    (pubKey reqType : string) (amount : Q) (now : Z) :
  ledger.invariant d ->
  ledger.invariant (snd (handler.CreateInvestment h d pubKey reqType amount now)).
Proof.
  intro Hinv. unfold handler.CreateInvestment.
  case_if; [exact Hinv|]. case_if; [exact Hinv|].
  destruct (lookup_type _ _) as [investConfig|]; [|exact Hinv].
  destruct (Qleb amount 0) eqn:Hle; [exact Hinv|]. apply Qleb_gt in Hle.
  destruct (GetUserByPubKey d pubKey) as [user|]; [|exact Hinv].
  destruct (database.CreateInvestment _ _ _ _ _ _) as [d'|e] eqn:Hrun.
  - simpl. eapply db_CreateInvestment_invariant; [exact Hinv| |exact Hrun]. lra.
  - destruct e; exact Hinv.
Qed.

Lemma db_DeleteInvestment_invariant (d d' : Database) (userID investmentID now : Z) :
  ledger.invariant d ->
  database.DeleteInvestment d userID investmentID now = Ok d' ->
  ledger.invariant d'.
Proof.
  intros [(Hu & Hi & Hp & Hd) Hb]. unfold database.DeleteInvestment.
  destruct (find _ (sql.rows (investments d))) as [investment|] eqn:Hf; [|discriminate].
  case_if; [discriminate|].
  intro H. inversion H; subst d'; clear H.
  apply find_some in Hf. destruct Hf as [Hin _].
  assert (Hamt : (0 <= i_amount investment)%Q)
    by (rewrite Forall_forall in Hp; apply Hp; exact Hin).
  repeat split.
  - unfold ledger.users_keyed in *. db_simpl. rewrite map_update_rows; auto.
  - unfold ledger.investments_keyed in *. db_simpl.
    apply keyed_delete_rows. exact Hi.
  - db_simpl. unfold sql.delete_rows. apply Forall_forall. intros x Hx.
    apply filter_In in Hx. rewrite Forall_forall in Hp. apply Hp. tauto.
  - db_simpl. exact Hd.
  - unfold ledger.balances_nonneg in *. db_simpl.
    apply Forall_update_rows; [exact Hb|].
    intros x Hx _. rewrite Forall_forall in Hb. specialize (Hb x Hx). simpl. lra.
Qed.

Lemma DeleteInvestment_invariant (d : Database) (pubKey : string)
    (investmentID : option Z) (now : Z) :
  ledger.invariant d ->
  ledger.invariant (snd (handler.DeleteInvestment d pubKey investmentID now)).
Proof.
  intro Hinv. unfold handler.DeleteInvestment.
  destruct investmentID as [investmentID|]; [|exact Hinv].
  destruct (GetUserByPubKey d pubKey) as [user|]; [|exact Hinv].
  destruct (database.DeleteInvestment _ _ _ _) as [d'|e] eqn:Hrun; [|exact Hinv].
  simpl. eapply db_DeleteInvestment_invariant; eassumption.
Qed.

Lemma CreateDeposit_invariant (h : Handler) (d : Database) (pubKey : string)
    (amount : Q) (now : Z) :
  ledger.invariant d ->
  ledger.invariant (snd (handler.CreateDeposit h d pubKey amount now)).
Proof.
  intro Hinv. unfold handler.CreateDeposit.
  destruct (String.eqb pubKey "") eqn:Hpk; [exact Hinv|].
  destruct (Qltb amount 1) eqn:Hlt; [exact Hinv|]. apply Qltb_ge in Hlt. cbn [orb].
  destruct (GetUserByPubKey d pubKey) as [user|]; [|exact Hinv].
  case_if; [exact Hinv|].
  assert (Hafter : ledger.invariant
                     (snd (CreateDepositRequest d (ID user) amount
                             (memo_of (ID user) now) now))).
  { destruct Hinv as [(Hu & Hi & Hp & Hd) Hb]. unfold CreateDepositRequest.
    repeat split; db_simpl; try assumption.
    apply Forall_app. split; [exact Hd|]. constructor; [simpl; lra|constructor]. }
  destruct (CreateDepositRequest d (ID user) amount (memo_of (ID user) now) now)
    as [[deposit|e] d']; exact Hafter.
Qed.

Lemma ConfirmDeposit_invariant (h : Handler) (d : Database) (pubKey : string)
    (depositID : Z) :
  ledger.invariant d ->
  ledger.invariant (snd (handler.ConfirmDeposit h d pubKey depositID)).
Proof.
  intro Hinv.
  destruct (ConfirmDeposit_refused h d pubKey depositID) as [_ Hd].
  rewrite Hd. exact Hinv.
Qed.

Lemma WithdrawFunds_invariant (h : Handler) (d : Database) (pubKey : string)
    (amount : Q) (now : Z) :
  ledger.invariant d ->
  ledger.invariant (snd (handler.WithdrawFunds h d pubKey amount now)).
Proof.
  intro Hinv. unfold handler.WithdrawFunds.
  case_if; [exact Hinv|].
  destruct (GetUserByPubKey d pubKey) as [user|]; [|exact Hinv].
  destruct (GetDepositsOfUser _ _) as [deposits|]; [|exact Hinv].
  destruct (sumDeposits _ _) as [MathDeposits|]; [|exact Hinv].
  destruct (sumWithdrawals _ _) as [Mathwithdrawal|]; [|exact Hinv].
  case_if; [exact Hinv|].
  destruct (Qltb (Balance user) amount) eqn:Hlt; [exact Hinv|]. apply Qltb_ge in Hlt.
  destruct Hinv as [(Hu & Hi & Hp & Hd) Hb].
  destruct (ton.WithdrawUserFunds _ _ _) as [txHash|].
  - assert (Hsame : forall d3,
               users d3 = users d ->
               sql.rows (investments d3) = sql.rows (investments d) ->
               sql.rows (deposit_requests d3) = sql.rows (deposit_requests d) ->
               ledger.invariant
                 (UpdateUserBalance d3 (ID user) (Balance user - amount))).
    { intros d3 E1 E2 E3.
      unfold ledger.invariant, ledger.well_formed, ledger.users_keyed,
        ledger.investments_keyed, ledger.balances_nonneg.
      db_simpl. rewrite E1, E2, E3.
      repeat split; try assumption.
      - rewrite map_update_rows; auto.
      - apply Forall_update_rows; [exact Hb|]. intros x _ _. simpl. lra. }
    assert (Hd4 : ledger.invariant
                    (UpdateUserBalance
                       match UpdateWithdrawalTxHash
                               (ConfirmWithdrawalRequest
                                  (CreateWithdrawalRequest d (ID user) amount now)
                                  (ID user)) (ID user) txHash with
                       | Ok d' => d'
                       | Err _ =>
                         ConfirmWithdrawalRequest
                           (CreateWithdrawalRequest d (ID user) amount now) (ID user)
                       end (ID user) (Balance user - amount))).
    { apply Hsame; unfold UpdateWithdrawalTxHash;
        destruct (GetWithdrawalRequestsByUser _ _); reflexivity. }
    destruct (ton.GenerateWalletAddressFromPubKey _ _); exact Hd4.
  - repeat split; assumption.
Qed.

Lemma levelPercent_nonneg (h : Handler) (level : Z) :
  (0 <= Level1Percent (Referral (config h)))%Q ->
  (0 <= Level2Percent (Referral (config h)))%Q ->
  (0 <= Level3Percent (Referral (config h)))%Q ->
  (0 <= levelPercent h level)%Q.
Proof.
  intros H1 H2 H3. unfold levelPercent.
  repeat case_if; try assumption. discriminate.
Qed.

Lemma AddReferralEarning_invariant (d : Database) (referrerID referredID : Z)
    (amount : Q) (level now : Z) :
  (0 <= amount)%Q ->
  ledger.invariant d ->
  ledger.invariant (AddReferralEarning d referrerID referredID amount level now).
Proof.
  intros Hpos [(Hu & Hi & Hp & Hd) Hb].
  unfold ledger.invariant, ledger.well_formed, ledger.users_keyed,
    ledger.investments_keyed, ledger.balances_nonneg in *.
  db_simpl. repeat split; try assumption.
  - rewrite map_update_rows; auto.
  - apply Forall_update_rows; [exact Hb|].
    intros x Hx _. rewrite Forall_forall in Hb. specialize (Hb x Hx). simpl. lra.
Qed.

Lemma addEarnings_invariant (h : Handler) (userID : Z) (P : Q) (now : Z)
    (chain : list Z) :
  (0 <= P)%Q ->
  (0 <= Level1Percent (Referral (config h)))%Q ->
  (0 <= Level2Percent (Referral (config h)))%Q ->
  (0 <= Level3Percent (Referral (config h)))%Q ->
  forall (d : Database) (level : Z),
    ledger.invariant d ->
    ledger.invariant (addEarnings h d userID P level chain now).
Proof.
  intros HP H1 H2 H3.
  induction chain as [|referrerID rest IH]; intros d level Hinv; simpl; [exact Hinv|].
  apply IH. apply AddReferralEarning_invariant; [|exact Hinv].
  pose proof (levelPercent_nonneg h (level + 1) H1 H2 H3) as Hl.
  apply Qmult_le_0_compat; [exact HP|].
  apply Qle_shift_div_l; [reflexivity|]. rewrite Qmult_0_l. exact Hl.
Qed.

Lemma step_invariant (h : Handler) (d : Database) (r : ledger.Request) :
  ledger.invariant d -> ledger.profit_nonneg h r -> ledger.invariant (ledger.step h d r).
Proof.
  intros Hinv Hr. destruct r; simpl.
  - apply CreateUser_invariant, Hinv.
  - apply CreateInvestment_invariant, Hinv.
  - apply DeleteInvestment_invariant, Hinv.
  - apply CreateDeposit_invariant, Hinv.
  - apply ConfirmDeposit_invariant, Hinv.
  - apply WithdrawFunds_invariant, Hinv.
  - unfold ProcessReferralEarnings.
    destruct (referrerChain d userID 3) as [chain|e]; [|exact Hinv].
    simpl in Hr. destruct Hr as (HP & H1 & H2 & H3).
    apply addEarnings_invariant; assumption.
Qed.

(** Every store that the requests build from the empty one keeps the
    invariant. *)
Lemma steps_invariant (rs : list (Handler * ledger.Request)) :
  forall d,
    ledger.invariant d ->
    Forall (fun hr => ledger.profit_nonneg (fst hr) (snd hr)) rs ->
    ledger.invariant (ledger.steps d rs).
Proof.
  induction rs as [|[h r] rest IH]; intros d Hinv Hall; simpl; [exact Hinv|].
  inversion Hall; subst. apply IH; [|assumption].
  apply step_invariant; assumption.
Qed.

Lemma empty_invariant : ledger.invariant database.empty.
Proof. repeat split; constructor. Qed.

(** No history of such requests on the empty store makes a balance
    negative. *)
Lemma reachable_balances_nonneg (rs : list (Handler * ledger.Request)) :
  Forall (fun hr => ledger.profit_nonneg (fst hr) (snd hr)) rs ->
  ledger.balances_nonneg (ledger.steps database.empty rs).
Proof.
  intro Hall. apply (steps_invariant rs database.empty empty_invariant Hall).
Qed.

Lemma CreateInvestment_overdraft (h : Handler) (d : Database) (pubKey reqType : string)
    (amount : Q) (now : Z) (user : User) :
  ledger.users_keyed d ->
  GetUserByPubKey d pubKey = Ok user ->
  (Balance user < amount)%Q ->
  succeeded (fst (handler.CreateInvestment h d pubKey reqType amount now)) = false /\
  snd (handler.CreateInvestment h d pubKey reqType amount now) = d.
Proof.
  intros Hk Huser Hlt.
  assert (Hfail : succeeded (fst (handler.CreateInvestment h d pubKey reqType amount now))
                  = false).
  { unfold handler.CreateInvestment.
    case_if; [reflexivity|]. case_if; [reflexivity|].
    destruct (lookup_type _ _) as [investConfig|]; [|reflexivity].
    case_if; [reflexivity|]. rewrite Huser.
    destruct (database.CreateInvestment _ _ _ _ _ _) as [d'|e] eqn:Hrun;
      [|destruct e; reflexivity].
    exfalso. destruct (db_CreateInvestment_ok _ _ _ _ _ _ _ Hrun) as (b & Hb & Hle & _).
    rewrite (balance_of_pub_key _ _ _ Hk Huser) in Hb. inversion Hb; subst b.
    apply (Qlt_not_le _ _ Hlt Hle). }
  split; [exact Hfail|apply CreateInvestment_failure; exact Hfail].
Qed.

Lemma WithdrawFunds_overdraft (h : Handler) (d : Database) (pubKey : string)
    (amount : Q) (now : Z) (user : User) :
  GetUserByPubKey d pubKey = Ok user ->
  (Balance user < amount)%Q ->
  succeeded (fst (WithdrawFunds h d pubKey amount now)) = false /\
  snd (WithdrawFunds h d pubKey amount now) = d.
Proof.
  intros Huser Hlt. unfold WithdrawFunds.
  case_if; [split; reflexivity|]. rewrite Huser.
  destruct (GetDepositsOfUser _ _) as [deposits|]; [|split; reflexivity].
  destruct (sumDeposits _ _) as [MathDeposits|]; [|split; reflexivity].
  destruct (sumWithdrawals _ _) as [Mathwithdrawal|]; [|split; reflexivity].
  case_if; [split; reflexivity|].
  apply Qltb_lt in Hlt. rewrite Hlt. split; reflexivity.
Qed.

(** C4 (as amended): from a store in which ids are keys, principals and
    deposit amounts are not negative and every balance is at least 0, every
    request without admin key (user creation, opening and closing an
    investment, creating and confirming a deposit, withdrawing) and every
    referral distribution of a profit that is not negative, with percents
    that are not negative, leaves every balance at least 0 and keeps those
    properties, whatever the reply; an investment or a withdrawal above the
    balance is rejected and changes nothing. *)
Theorem balances_stay_nonneg (h : Handler) (d : Database) (r : ledger.Request) :
  ledger.well_formed d ->
  ledger.balances_nonneg d ->
  ledger.profit_nonneg h r ->
  ledger.balances_nonneg (ledger.step h d r) /\
  ledger.well_formed (ledger.step h d r) /\
  (forall pubKey reqType amount now user,
     GetUserByPubKey d pubKey = Ok user ->
     (Balance user < amount)%Q ->
     succeeded (fst (handler.CreateInvestment h d pubKey reqType amount now)) = false /\
     snd (handler.CreateInvestment h d pubKey reqType amount now) = d) /\
  (forall pubKey amount now user,
     GetUserByPubKey d pubKey = Ok user ->
     (Balance user < amount)%Q ->
     succeeded (fst (WithdrawFunds h d pubKey amount now)) = false /\
     snd (WithdrawFunds h d pubKey amount now) = d).
Proof.
  intros Hwf Hb Hr.
  destruct (step_invariant h d r (conj Hwf Hb) Hr) as [Hwf' Hb'].
  split; [exact Hb'|]. split; [exact Hwf'|]. split.
  - intros pubKey reqType amount now user. apply CreateInvestment_overdraft.
    destruct Hwf as [Hu _]. exact Hu.
  - intros pubKey amount now user. apply WithdrawFunds_overdraft.
Qed.

Lemma db_users_well_formed : ledger.well_formed ledger.db_users.
Proof.
  unfold ledger.well_formed. split.
  - unfold ledger.users_keyed. simpl.
    repeat constructor; simpl; intuition discriminate.
  - split; [constructor|]. split; constructor.
Qed.

Lemma db_users_balances_nonneg : ledger.balances_nonneg ledger.db_users.
Proof.
  unfold ledger.balances_nonneg. simpl. repeat constructor; simpl; discriminate.
Qed.

Lemma balances_stay_nonneg_witness :
  ledger.balances_nonneg
    (ledger.step ledger.h_yes ledger.db_users
       (ledger.ReqProcessReferralEarnings 1000000004 1000 50)) /\
  ledger.balances_nonneg
    (ledger.step ledger.h_yes ledger.db_users
       (ledger.ReqCreateInvestment "alice" "high" 400 51)).
Proof.
  split.
  - apply (balances_stay_nonneg ledger.h_yes ledger.db_users
             (ledger.ReqProcessReferralEarnings 1000000004 1000 50)).
    + exact db_users_well_formed.
    + exact db_users_balances_nonneg.
    + simpl. repeat split; discriminate.
  - apply (balances_stay_nonneg ledger.h_yes ledger.db_users
             (ledger.ReqCreateInvestment "alice" "high" 400 51)).
    + exact db_users_well_formed.
    + exact db_users_balances_nonneg.
    + exact I.
Defined.

(** C4 as stated fails for the referral distribution: a profit of -1000
    realised at [dave] takes 70 from [carol], whose balance was 0; the
    debit is applied, not rejected. *)
Lemma negative_profit_counterexample :
  ledger.well_formed ledger.db_users /\
  ledger.balances_nonneg ledger.db_users /\
  (exists d',
     ProcessReferralEarnings ledger.h_yes ledger.db_users 1000000004 (-1000) 50 = Ok d' /\
     ledger.step ledger.h_yes ledger.db_users
       (ledger.ReqProcessReferralEarnings 1000000004 (-1000) 50) = d' /\
     ledger.balance_of ledger.db_users 1000000003 = Some 0%Q /\
     (exists b, ledger.balance_of d' 1000000003 = Some b /\ (b == -70)%Q) /\
     ~ ledger.balances_nonneg d').
Proof.
  split; [exact db_users_well_formed|].
  split; [exact db_users_balances_nonneg|].
  eexists. split; [reflexivity|]. split; [reflexivity|]. split; [reflexivity|].
  split; [eexists; split; reflexivity|].
  unfold ledger.balances_nonneg. intro H.
  rewrite Forall_forall in H.
  specialize (H (mkUserRow 1000000003 "carol" (0 + -1000 * (7 / 100)) (Some 1000000002))).
  assert (Hin : In (mkUserRow 1000000003 "carol" (0 + -1000 * (7 / 100)) (Some 1000000002))
                  (users
                     (addEarnings ledger.h_yes ledger.db_users 1000000004 (-1000) 0
                        [1000000003; 1000000002; 1000000001] 50))).
  { simpl. right. right. left. reflexivity. }
  specialize (H Hin). vm_compute in H. apply H. reflexivity.
Qed.

(** ** Withdrawals: the status bookkeeping *)

(** After step (1) and (2) of a withdrawal the inserted request is marked
    completed exactly when its fresh id happens to be the id of the user:
    [ConfirmWithdrawalRequest] is called with the user id. *)
Lemma WithdrawFunds_confirms_user_id (d : Database) (userID : Z) (amount : Q) (now : Z) :
  let n := sql.next_id wr_id (withdrawal_requests d) in
  let d2 := ConfirmWithdrawalRequest (CreateWithdrawalRequest d userID amount now) userID in
  find (fun r => wr_id r =? n) (sql.rows (withdrawal_requests d2))
  = Some (mkWithdrawalRequestRow n userID amount
            (if n =? userID then "completed" else "pending") now).
Proof.
  intros n d2. unfold d2. db_simpl.
  rewrite find_update_rows by reflexivity.
  rewrite find_app.
  destruct (find (fun r => wr_id r =? n) (sql.rows (withdrawal_requests d)))
    as [r|] eqn:Hf.
  - apply find_some in Hf. destruct Hf as [Hin Hid].
    pose proof (next_id_fresh wr_id _ _ Hin). fold n in H.
    apply Z.eqb_eq in Hid. lia.
  - simpl. fold n. rewrite Z.eqb_refl. simpl.
    destruct (n =? userID); reflexivity.
Qed.



(** * The rate limiter *)

Lemma tryConsume_step (tb : middleware.TokenBucket) (now : Q) :
  let ok := fst (middleware.tryConsume tb now) in
  let tb' := snd (middleware.tryConsume tb now) in
  middleware.lastRefill tb' = now /\
  middleware.rate tb' = middleware.rate tb /\
  middleware.capacity tb' = middleware.capacity tb /\
  (middleware.tokens tb' <= middleware.capacity tb)%Q /\
  ((if ok then 1 else 0) + middleware.tokens tb'
   <= middleware.tokens tb + (now - middleware.lastRefill tb) * middleware.rate tb)%Q /\
  ((0 <= middleware.tokens tb)%Q -> (0 <= middleware.rate tb)%Q ->
   (0 <= middleware.capacity tb)%Q -> (middleware.lastRefill tb <= now)%Q ->
   (0 <= middleware.tokens tb')%Q).
Proof.
  unfold middleware.tryConsume. cbv zeta.
  set (refilled := (middleware.tokens tb
                    + (now - middleware.lastRefill tb) * middleware.rate tb)%Q).
  destruct (Qltb (middleware.capacity tb) refilled) eqn:Hcap.
  - apply Qltb_lt in Hcap.
    destruct (Qltb (middleware.capacity tb) 1) eqn:Hone; cbn.
    + apply Qltb_lt in Hone.
      split; [reflexivity|]. split; [reflexivity|]. split; [reflexivity|].
      split; [lra|]. split; [lra|]. intros; lra.
    + apply Qltb_ge in Hone.
      split; [reflexivity|]. split; [reflexivity|]. split; [reflexivity|].
      split; [lra|]. split; [lra|]. intros; lra.
  - apply Qltb_ge in Hcap.
    destruct (Qltb refilled 1) eqn:Hone; cbn.
    + apply Qltb_lt in Hone.
      split; [reflexivity|]. split; [reflexivity|]. split; [reflexivity|].
      split; [lra|]. split; [lra|].
      intros Ht Hr Hc Hn.
      assert (0 <= (now - middleware.lastRefill tb) * middleware.rate tb)%Q
        by (apply Qmult_le_0_compat; lra).
      subst refilled. lra.
    + apply Qltb_ge in Hone.
      split; [reflexivity|]. split; [reflexivity|]. split; [reflexivity|].
      split; [lra|]. split; [lra|]. intros; lra.
Qed.

Lemma consumeAll_cons (tb : middleware.TokenBucket) (now : Q) (rest : list Q) :
  middleware.consumeAll tb (now :: rest)
  = (((if fst (middleware.tryConsume tb now) then 1 else 0)
      + fst (middleware.consumeAll (snd (middleware.tryConsume tb now)) rest))%nat,
     snd (middleware.consumeAll (snd (middleware.tryConsume tb now)) rest)).
Proof.
  cbn [middleware.consumeAll].
  destruct (middleware.tryConsume tb now) as [ok tb1]. cbn [fst snd].
  destruct (middleware.consumeAll tb1 rest) as [n tb2].
  cbn [fst snd]. destruct ok; reflexivity.
Qed.

Lemma consumeAll_budget (times : list Q) :
  forall tb : middleware.TokenBucket,
    (0 <= middleware.rate tb)%Q ->
    (0 <= middleware.capacity tb)%Q ->
    (0 <= middleware.tokens tb)%Q ->
    middleware.in_order (middleware.lastRefill tb) times ->
    let passed := fst (middleware.consumeAll tb times) in
    let tb' := snd (middleware.consumeAll tb times) in
    (0 <= middleware.tokens tb')%Q /\
    (inject_Z (Z.of_nat passed) + middleware.tokens tb'
     <= middleware.tokens tb
        + middleware.rate tb
          * (middleware.last_time (middleware.lastRefill tb) times
             - middleware.lastRefill tb))%Q.
Proof.
  induction times as [|now rest IH]; intros tb Hr Hc Ht Hord; cbv zeta.
  - cbn [middleware.consumeAll fst snd middleware.last_time].
    change (inject_Z (Z.of_nat 0)) with 0%Q.
    split; [exact Ht|]. lra.
  - rewrite consumeAll_cons. cbn [fst snd middleware.last_time].
    destruct Hord as [Hnow Hrest].
    pose proof (tryConsume_step tb now) as Hstep. cbv zeta in Hstep.
    destruct Hstep as (Hl & Hrate & Hcap & _ & Hbudget & Hnonneg).
    specialize (Hnonneg Ht Hr Hc Hnow).
    set (tb1 := snd (middleware.tryConsume tb now)) in *.
    specialize (IH tb1). cbv zeta in IH.
    rewrite Hrate, Hcap, Hl in IH.
    destruct (IH Hr Hc Hnonneg Hrest) as [IH0 IH1].
    split; [exact IH0|].
    rewrite Nat2Z.inj_add, inject_Z_plus.
    assert (Hok : (inject_Z (Z.of_nat (if fst (middleware.tryConsume tb now)
                                       then 1 else 0))
                   == (if fst (middleware.tryConsume tb now) then 1 else 0))%Q)
      by (destruct (fst (middleware.tryConsume tb now)); reflexivity).
    rewrite Hok. lra.
Qed.

Lemma consumeAll_capacity (times : list Q) :
  forall tb : middleware.TokenBucket,
    (middleware.tokens tb <= middleware.capacity tb)%Q ->
    let tb' := snd (middleware.consumeAll tb times) in
    middleware.capacity tb' = middleware.capacity tb /\
    middleware.rate tb' = middleware.rate tb /\
    (middleware.tokens tb' <= middleware.capacity tb)%Q.
Proof.
  induction times as [|now rest IH]; intros tb Hle; cbv zeta.
  - cbn. repeat split; [exact Hle].
  - rewrite consumeAll_cons. cbn [fst snd].
    pose proof (tryConsume_step tb now) as Hstep. cbv zeta in Hstep.
    destruct Hstep as (_ & Hrate & Hcap & Hle1 & _).
    set (tb1 := snd (middleware.tryConsume tb now)) in *.
    specialize (IH tb1). cbv zeta in IH. rewrite Hcap, Hrate in IH.
    apply IH. exact Hle1.
Qed.

(** X1.  A token bucket lets through, over any run of requests in time
    order, at most its tokens at the start plus [rate] for every second
    that passed (hence at most [capacity + rate * seconds]), and its tokens
    stay between 0 and [capacity]. *)
Theorem tryConsume_rate_limit (tb : middleware.TokenBucket) (times : list Q) :
  (0 <= middleware.rate tb)%Q ->
  (0 <= middleware.tokens tb <= middleware.capacity tb)%Q ->
  middleware.in_order (middleware.lastRefill tb) times ->
  let passed := inject_Z (Z.of_nat (fst (middleware.consumeAll tb times))) in
  let tb' := snd (middleware.consumeAll tb times) in
  let seconds := (middleware.last_time (middleware.lastRefill tb) times
                  - middleware.lastRefill tb)%Q in
  (passed <= middleware.tokens tb + middleware.rate tb * seconds)%Q /\
  (passed <= middleware.capacity tb + middleware.rate tb * seconds)%Q /\
  (0 <= middleware.tokens tb' <= middleware.capacity tb)%Q /\
  middleware.capacity tb' = middleware.capacity tb /\
  middleware.rate tb' = middleware.rate tb.
Proof.
  intros Hr [Ht Hc] Hord. cbv zeta.
  assert (Hcap : (0 <= middleware.capacity tb)%Q) by lra.
  pose proof (consumeAll_budget times tb Hr Hcap Ht Hord) as Hb. cbv zeta in Hb.
  destruct Hb as [H0 Hb].
  pose proof (consumeAll_capacity times tb Hc) as Hk. cbv zeta in Hk.
  destruct Hk as (Hk1 & Hk2 & Hk3).
  split; [lra|]. split; [lra|]. split; [lra|]. split; assumption.
Qed.

Lemma tryConsume_rate_limit_witness :
  let tb := middleware.mkTokenBucket 2 0 1 2 in
  fst (middleware.consumeAll tb [0; 0; 0; 1 # 2; 1]%Q) = 3%nat /\
  (inject_Z (Z.of_nat (fst (middleware.consumeAll tb [0; 0; 0; 1 # 2; 1]%Q)))
   <= 2 + 1 * (1 - 0))%Q.
Proof.
  cbv zeta. split; [reflexivity|].
  apply (tryConsume_rate_limit (middleware.mkTokenBucket 2 0 1 2)
           [0; 0; 0; 1 # 2; 1]%Q).
  - cbn. lra.
  - cbn. lra.
  - cbn. repeat split; lra.
Defined.

Lemma tryConsume_same_instant (tb : middleware.TokenBucket) (now : Q) (b : Z) :
  (middleware.tokens tb == inject_Z b)%Q ->
  0 <= b ->
  (inject_Z b <= middleware.capacity tb)%Q ->
  (middleware.lastRefill tb == now)%Q ->
  let ok := fst (middleware.tryConsume tb now) in
  let tb' := snd (middleware.tryConsume tb now) in
  ok = (1 <=? b) /\
  (middleware.tokens tb' == inject_Z (if 1 <=? b then b - 1 else b))%Q /\
  middleware.lastRefill tb' = now /\
  middleware.capacity tb' = middleware.capacity tb.
Proof.
  intros Ht Hb Hc Hl. unfold middleware.tryConsume. cbv zeta.
  set (refilled := (middleware.tokens tb
                    + (now - middleware.lastRefill tb) * middleware.rate tb)%Q).
  assert (Hre : (refilled == inject_Z b)%Q).
  { subst refilled. rewrite Ht.
    setoid_replace (now - middleware.lastRefill tb)%Q with 0%Q by lra. ring. }
  assert (Hcap : Qltb (middleware.capacity tb) refilled = false)
    by (apply Qltb_ge; lra).
  rewrite Hcap.
  destruct (1 <=? b) eqn:Hone.
  - apply Z.leb_le in Hone.
    assert (H1 : (1 <= inject_Z b)%Q)
      by (change 1%Q with (inject_Z 1); rewrite <- Zle_Qle; exact Hone).
    assert (Hlt : Qltb refilled 1 = false) by (apply Qltb_ge; lra).
    rewrite Hlt. cbn [fst snd middleware.tokens middleware.lastRefill
                      middleware.capacity].
    split; [reflexivity|]. split; [|split; reflexivity].
    unfold Z.sub. rewrite inject_Z_plus. rewrite Hre. reflexivity.
  - apply Z.leb_gt in Hone.
    assert (H1 : (inject_Z b < 1)%Q)
      by (change 1%Q with (inject_Z 1); rewrite <- Zlt_Qlt; exact Hone).
    assert (Hlt : Qltb refilled 1 = true) by (apply Qltb_lt; lra).
    rewrite Hlt. cbn [fst snd middleware.tokens middleware.lastRefill
                      middleware.capacity].
    split; [reflexivity|]. split; [exact Hre|split; reflexivity].
Qed.

(** X2.  Of [k] requests that reach a bucket at the instant of its last
    refill, exactly the first [min k b] pass, where [b] is the (whole)
    number of tokens it holds: a full bucket serves a burst of [BurstSize]
    requests and refuses the rest. *)
Theorem tryConsume_burst (k : nat) :
  forall (tb : middleware.TokenBucket) (now : Q) (b : Z),
    (middleware.tokens tb == inject_Z b)%Q ->
    0 <= b ->
    (inject_Z b <= middleware.capacity tb)%Q ->
    (middleware.lastRefill tb == now)%Q ->
    fst (middleware.consumeAll tb (repeat now k)) = Nat.min k (Z.to_nat b) /\
    (middleware.tokens (snd (middleware.consumeAll tb (repeat now k)))
     == inject_Z (b - Z.of_nat (Nat.min k (Z.to_nat b))))%Q.
Proof.
  induction k as [|k IH]; intros tb now b Ht Hb Hc Hl.
  - cbn [repeat middleware.consumeAll fst snd Nat.min]. split; [reflexivity|].
    rewrite Ht. cbn [Z.of_nat]. rewrite Z.sub_0_r. reflexivity.
  - cbn [repeat]. rewrite consumeAll_cons. cbn [fst snd].
    pose proof (tryConsume_same_instant tb now b Ht Hb Hc Hl) as Hs.
    cbv zeta in Hs. destruct Hs as (Hok & Htok & Hlast & Hcap).
    set (tb1 := snd (middleware.tryConsume tb now)) in *.
    rewrite Hok.
    destruct (1 <=? b) eqn:Hone.
    + apply Z.leb_le in Hone.
      assert (Hc1 : (inject_Z (b - 1) <= middleware.capacity tb1)%Q).
      { rewrite Hcap. apply Qle_trans with (inject_Z b); [|exact Hc].
        rewrite <- Zle_Qle. lia. }
      assert (Hl1 : (middleware.lastRefill tb1 == now)%Q)
        by (rewrite Hlast; reflexivity).
      destruct (IH tb1 now (b - 1) Htok ltac:(lia) Hc1 Hl1) as [IH1 IH2].
      rewrite IH1, IH2.
      replace (Z.to_nat b) with (S (Z.to_nat (b - 1))) by lia.
      cbn [Nat.min Nat.add]. split; [reflexivity|].
      apply inject_Z_injective. lia.
    + apply Z.leb_gt in Hone.
      assert (b = 0) by lia. subst b.
      assert (Hl1 : (middleware.lastRefill tb1 == now)%Q)
        by (rewrite Hlast; reflexivity).
      assert (Hc1 : (inject_Z 0 <= middleware.capacity tb1)%Q)
        by (rewrite Hcap; exact Hc).
      destruct (IH tb1 now 0 Htok ltac:(lia) Hc1 Hl1) as [IH1 IH2].
      rewrite IH1, IH2. cbn [Z.to_nat]. rewrite !Nat.min_0_r.
      split; reflexivity.
Qed.

Lemma tryConsume_burst_witness :
  fst (middleware.consumeAll (middleware.mkTokenBucket 3 10 5 3) (repeat 10%Q 7))
  = Nat.min 7 (Z.to_nat 3).
Proof.
  apply (tryConsume_burst 7 (middleware.mkTokenBucket 3 10 5 3) 10%Q 3).
  - reflexivity.
  - lia.
  - unfold Qle. cbn. lia.
  - reflexivity.
Defined.

Lemma bucket_of_set_bucket (m : list (string * middleware.TokenBucket))
    (ip ip' : string) (tb : middleware.TokenBucket) :
  middleware.bucket_of (middleware.set_bucket m ip tb) ip'
  = if String.eqb ip ip' then Some tb else middleware.bucket_of m ip'.
Proof.
  induction m as [|[k v] m IH]; cbn [middleware.set_bucket middleware.bucket_of].
  - reflexivity.
  - destruct (String.eqb k ip) eqn:Hk; cbn [middleware.bucket_of].
    + apply String.eqb_eq in Hk. subst k.
      destruct (String.eqb ip ip'); reflexivity.
    + destruct (String.eqb k ip') eqn:Hk'.
      * apply String.eqb_eq in Hk'. subst k.
        rewrite String.eqb_sym, Hk. reflexivity.
      * exact IH.
Qed.

Lemma RateLimit_bucket (i : middleware.IPRateLimiter) (ip : string) (now now' : Q) :
  let limiter :=
    match middleware.bucket_of (middleware.ips i) ip with
    | Some limiter => limiter
    | None =>
      middleware.mkTokenBucket
        (inject_Z (middleware.BurstSize (middleware.config i))) now
        (inject_Z (middleware.RequestsPerSecond (middleware.config i)))
        (inject_Z (middleware.BurstSize (middleware.config i)))
    end in
  fst (middleware.RateLimit i ip now now') = fst (middleware.tryConsume limiter now') /\
  middleware.config (snd (middleware.RateLimit i ip now now')) = middleware.config i /\
  forall ip',
    middleware.bucket_of (middleware.ips (snd (middleware.RateLimit i ip now now'))) ip'
    = if String.eqb ip ip' then Some (snd (middleware.tryConsume limiter now'))
      else middleware.bucket_of (middleware.ips i) ip'.
Proof.
  unfold middleware.RateLimit, middleware.getRateLimiter. cbv zeta.
  destruct (middleware.bucket_of (middleware.ips i) ip) as [limiter|] eqn:Hb.
  - destruct (middleware.tryConsume limiter now') as [ok limiter'].
    cbn [fst snd middleware.ips middleware.config].
    split; [reflexivity|]. split; [reflexivity|].
    intros ip'. apply bucket_of_set_bucket.
  - match goal with
    | |- context [middleware.tryConsume ?b now'] =>
      destruct (middleware.tryConsume b now') as [ok limiter']
    end.
    cbn [fst snd middleware.ips middleware.config].
    split; [reflexivity|]. split; [reflexivity|].
    intros ip'. rewrite !bucket_of_set_bucket.
    destruct (String.eqb ip ip'); reflexivity.
Qed.

(** X3.  The limit is per client address: a request changes no bucket but
    that of its own address, and whether it passes, and the bucket it
    leaves, depend on nothing but the bucket of that address and the
    configuration. *)
Theorem RateLimit_per_address (i i2 : middleware.IPRateLimiter) (ip : string)
    (now now' : Q) :
  (forall ip', ip' <> ip ->
     middleware.bucket_of (middleware.ips (snd (middleware.RateLimit i ip now now'))) ip'
     = middleware.bucket_of (middleware.ips i) ip') /\
  middleware.config (snd (middleware.RateLimit i ip now now')) = middleware.config i /\
  (middleware.config i2 = middleware.config i ->
   middleware.bucket_of (middleware.ips i2) ip
   = middleware.bucket_of (middleware.ips i) ip ->
   fst (middleware.RateLimit i2 ip now now') = fst (middleware.RateLimit i ip now now') /\
   middleware.bucket_of (middleware.ips (snd (middleware.RateLimit i2 ip now now'))) ip
   = middleware.bucket_of (middleware.ips (snd (middleware.RateLimit i ip now now'))) ip).
Proof.
  pose proof (RateLimit_bucket i ip now now') as H. cbv zeta in H.
  destruct H as (Hok & Hcfg & Hb).
  split; [|split].
  - intros ip' Hne. rewrite Hb.
    destruct (String.eqb ip ip') eqn:He; [|reflexivity].
    apply String.eqb_eq in He. congruence.
  - exact Hcfg.
  - intros Hc2 Hb2.
    pose proof (RateLimit_bucket i2 ip now now') as H2. cbv zeta in H2.
    destruct H2 as (Hok2 & _ & Hb2').
    rewrite Hok, Hok2, Hb, Hb2', Hb2, Hc2, String.eqb_refl.
    split; reflexivity.
Qed.

(** X4.  The first request of an address that has no bucket yet passes
    exactly when [BurstSize] is at least 1, whatever the rate; afterwards
    the address has a bucket, which holds [BurstSize - 1] tokens when the
    request has passed. *)
Theorem RateLimit_first_request (i : middleware.IPRateLimiter) (ip : string)
    (now now' : Q) :
  middleware.bucket_of (middleware.ips i) ip = None ->
  0 <= middleware.RequestsPerSecond (middleware.config i) ->
  (now <= now')%Q ->
  fst (middleware.RateLimit i ip now now')
  = (1 <=? middleware.BurstSize (middleware.config i)) /\
  exists tb,
    middleware.bucket_of (middleware.ips (snd (middleware.RateLimit i ip now now'))) ip
    = Some tb /\
    middleware.lastRefill tb = now' /\
    (1 <= middleware.BurstSize (middleware.config i) ->
     (middleware.tokens tb
      == inject_Z (middleware.BurstSize (middleware.config i)) - 1)%Q).
Proof.
  intros Hnone Hrate Hnow.
  pose proof (RateLimit_bucket i ip now now') as H. cbv zeta in H.
  rewrite Hnone in H. destruct H as (Hok & _ & Hb).
  set (B := middleware.BurstSize (middleware.config i)) in *.
  set (r := middleware.RequestsPerSecond (middleware.config i)) in *.
  assert (Hr : (0 <= inject_Z r)%Q)
    by (change 0%Q with (inject_Z 0); rewrite <- Zle_Qle; exact Hrate).
  assert (He : (0 <= (now' - now) * inject_Z r)%Q)
    by (apply Qmult_le_0_compat; lra).
  rewrite Hok. specialize (Hb ip). rewrite String.eqb_refl in Hb. rewrite Hb.
  unfold middleware.tryConsume. cbv zeta.
  cbn [middleware.tokens middleware.lastRefill middleware.rate middleware.capacity].
  destruct (Qltb (inject_Z B) (inject_Z B + (now' - now) * inject_Z r)) eqn:Hcap.
  - destruct (1 <=? B) eqn:Hone.
    + apply Z.leb_le in Hone.
      assert (H1 : (1 <= inject_Z B)%Q)
        by (change 1%Q with (inject_Z 1); rewrite <- Zle_Qle; exact Hone).
      assert (Hlt : Qltb (inject_Z B) 1 = false) by (apply Qltb_ge; lra).
      rewrite Hlt. cbn [fst snd]. split; [reflexivity|].
      eexists. split; [reflexivity|]. cbn. split; [reflexivity|].
      intros _. reflexivity.
    + apply Z.leb_gt in Hone.
      assert (H1 : (inject_Z B < 1)%Q)
        by (change 1%Q with (inject_Z 1); rewrite <- Zlt_Qlt; exact Hone).
      assert (Hlt : Qltb (inject_Z B) 1 = true) by (apply Qltb_lt; lra).
      rewrite Hlt. cbn [fst snd]. split; [reflexivity|].
      eexists. split; [reflexivity|]. cbn. split; [reflexivity|]. lia.
  - apply Qltb_ge in Hcap.
    assert (He0 : ((now' - now) * inject_Z r == 0)%Q) by lra.
    destruct (1 <=? B) eqn:Hone.
    + apply Z.leb_le in Hone.
      assert (H1 : (1 <= inject_Z B)%Q)
        by (change 1%Q with (inject_Z 1); rewrite <- Zle_Qle; exact Hone).
      assert (Hlt : Qltb (inject_Z B + (now' - now) * inject_Z r) 1 = false)
        by (apply Qltb_ge; lra).
      rewrite Hlt. cbn [fst snd]. split; [reflexivity|].
      eexists. split; [reflexivity|]. cbn [middleware.lastRefill middleware.tokens].
      split; [reflexivity|]. intros _. lra.
    + apply Z.leb_gt in Hone.
      assert (H1 : (inject_Z B < 1)%Q)
        by (change 1%Q with (inject_Z 1); rewrite <- Zlt_Qlt; exact Hone).
      assert (Hlt : Qltb (inject_Z B + (now' - now) * inject_Z r) 1 = true)
        by (apply Qltb_lt; lra).
      rewrite Hlt. cbn [fst snd]. split; [reflexivity|].
      eexists. split; [reflexivity|]. cbn [middleware.lastRefill middleware.tokens].
      split; [reflexivity|]. lia.
Qed.

Lemma RateLimit_first_request_witness :
  fst (middleware.RateLimit
         (middleware.NewIPRateLimiter (middleware.mkRateLimitConfig 5 0))
         "10.0.0.1" 3 4)
  = false.
Proof.
  apply (RateLimit_first_request
           (middleware.NewIPRateLimiter (middleware.mkRateLimitConfig 5 0))
           "10.0.0.1" 3 4).
  - reflexivity.
  - cbn. lia.
  - lra.
Defined.

(** * Matching an incoming payment *)

Lemma matches_inv (threshold : Z) (expectedAmount : float) (memo : string)
    (tx : toncenter.Transaction) (amountTON : float) :
  toncenter.matches threshold expectedAmount memo tx = Some amountTON ->
  threshold <= toncenter.Utime tx /\
  toncenter.Message tx = memo /\
  exists amountNano,
    strconv.ParseInt (toncenter.Value tx) = Some amountNano /\
    amountTON = toncenter.fromNano amountNano /\
    float64.near amountTON expectedAmount = true.
Proof.
  unfold toncenter.matches.
  destruct (toncenter.Utime tx <? threshold) eqn:Hu; [discriminate|].
  destruct (String.eqb (toncenter.Message tx) memo) eqn:Hm; [|discriminate].
  cbn [negb].
  destruct (strconv.ParseInt (toncenter.Value tx)) as [amountNano|]; [|discriminate].
  cbv zeta.
  destruct (float64.near (toncenter.fromNano amountNano) expectedAmount)
    eqn:Hq; [|discriminate].
  intros H. injection H as <-.
  apply Z.ltb_ge in Hu. apply String.eqb_eq in Hm.
  split; [exact Hu|]. split; [exact Hm|].
  exists amountNano. split; [reflexivity|]. split; [reflexivity|exact Hq].
Qed.

Lemma scan_cases (split : float -> bool) (threshold : Z) (expectedAmount : float)
    (memo : string) (txs : list toncenter.Transaction) :
  (Forall (fun tx => toncenter.matches threshold expectedAmount memo tx = None) txs /\
   toncenter.scan split threshold expectedAmount memo txs = (Some false, [])) \/
  (exists before tx after amountTON,
     txs = before ++ tx :: after /\
     Forall (fun tx => toncenter.matches threshold expectedAmount memo tx = None)
       before /\
     toncenter.matches threshold expectedAmount memo tx = Some amountTON /\
     toncenter.scan split threshold expectedAmount memo txs
     = ((if split amountTON then Some true else None), [amountTON])).
Proof.
  induction txs as [|tx rest IH]; cbn [toncenter.scan].
  - left. split; [constructor|reflexivity].
  - destruct (toncenter.matches threshold expectedAmount memo tx) as [a|] eqn:Hm.
    + right. exists [], tx, rest, a.
      split; [reflexivity|]. split; [constructor|]. split; [exact Hm|].
      destruct (split a); reflexivity.
    + destruct IH as [[Hall Hs]|(before & tx' & after & a & Htxs & Hb & Hm' & Hs)].
      * left. split; [constructor; assumption|exact Hs].
      * right. exists (tx :: before), tx', after, a.
        split; [rewrite Htxs; reflexivity|].
        split; [constructor; assumption|]. split; assumption.
Qed.

Lemma threshold_minutes (withinLastMinutes nowNano : Z) :
  0 <= withinLastMinutes <= 153722867 ->
  toncenter.threshold withinLastMinutes nowNano
  = nowNano / 1000000000 - 60 * withinLastMinutes.
Proof.
  intros Hw. unfold toncenter.threshold. cbv zeta.
  rewrite (int_wrap_small (- withinLastMinutes)) by (unfold max_int; lia).
  rewrite int_wrap_small by (unfold max_int; lia).
  replace (nowNano + - withinLastMinutes * 60000000000)
    with (nowNano + (- (60 * withinLastMinutes)) * 1000000000) by lia.
  rewrite Z.div_add by lia. lia.
Qed.

(** X5.  [CheckDeposit] reports a payment only when one of the listed
    transactions is at most [withinLastMinutes] minutes old, carries
    exactly the memo, has an amount in nanotons that, converted to TON,
    passes the comparison of the program with the expected amount (the
    float64 test [|amount - expected| < 0.000001]) and the fee split of that
    amount succeeded; it reports "not found" exactly when no listed
    transaction qualifies, and then starts no split.  It never starts more
    than one split.  The comparison accepts for 250 TON a payment of
    250.000001 TON and refuses one of 250.000001001 TON. *)
Theorem CheckDeposit_sound (response : toncenter.Response) (split : float -> bool)
    (expectedAmount : float) (memo : string) (withinLastMinutes nowNano : Z) :
  0 <= withinLastMinutes <= 153722867 ->
  let r := toncenter.CheckDeposit response split expectedAmount memo
             withinLastMinutes nowNano in
  let qualifies := fun tx amountNano =>
    nowNano / 1000000000 - 60 * withinLastMinutes <= toncenter.Utime tx /\
    toncenter.Message tx = memo /\
    strconv.ParseInt (toncenter.Value tx) = Some amountNano /\
    float64.near (toncenter.fromNano amountNano) expectedAmount = true in
  (fst r = Some true ->
   exists txs tx amountNano,
     response = toncenter.Answer true txs /\ In tx txs /\
     qualifies tx amountNano /\
     split (toncenter.fromNano amountNano) = true /\
     snd r = [toncenter.fromNano amountNano]) /\
  (fst r = Some false <->
   exists txs,
     response = toncenter.Answer true txs /\
     forall tx amountNano, In tx txs -> ~ qualifies tx amountNano) /\
  (fst r = Some false -> snd r = []) /\
  (List.length (snd r) <= 1)%nat /\
  float64.near (toncenter.fromNano 250000001000) 250 = true /\
  float64.near (toncenter.fromNano 250000001001) 250 = false.
Proof.
  intros Hw. cbv zeta.
  assert (Hnear : float64.near (toncenter.fromNano 250000001000) 250 = true /\
                  float64.near (toncenter.fromNano 250000001001) 250 = false)
    by (split; vm_compute; reflexivity).
  destruct response as [|[|] txs]; cbn [toncenter.CheckDeposit fst snd].
  1, 3: (split; [discriminate|]);
        (split; [|split; [discriminate|split; [cbn; lia|exact Hnear]]]);
        (split; [discriminate|]); intros (txs' & Hr & _); discriminate.
  rewrite (threshold_minutes _ _ Hw).
  set (th := nowNano / 1000000000 - 60 * withinLastMinutes).
  destruct (scan_cases split th expectedAmount memo txs)
    as [[Hall Hs]|(before & tx & after & a & Htxs & Hb & Hm & Hs)]; rewrite Hs;
    cbn [fst snd].
  - split; [discriminate|].
    split; [|split; [reflexivity|split; [cbn; lia|exact Hnear]]].
    split; [|reflexivity]. intros _. exists txs. split; [reflexivity|].
    intros tx n Hin (Hu & Hmemo & Hp & Hq).
    rewrite Forall_forall in Hall. specialize (Hall tx Hin).
    unfold toncenter.matches in Hall.
    apply Z.ltb_ge in Hu. rewrite Hu in Hall.
    apply String.eqb_eq in Hmemo. rewrite Hmemo in Hall. cbn [negb] in Hall.
    rewrite Hp in Hall. cbv zeta in Hall.
    rewrite Hq in Hall. discriminate.
  - destruct (matches_inv _ _ _ _ _ Hm) as (Hu & Hmemo & n & Hp & Ha & Hq).
    assert (Hin : In tx txs) by (rewrite Htxs; apply in_or_app; right; left; reflexivity).
    split; [|split; [|split; [|split]]].
    + intros Hok. exists txs, tx, n. subst a.
      split; [reflexivity|]. split; [exact Hin|].
      split; [repeat split; assumption|].
      destruct (split (toncenter.fromNano n)); [split; reflexivity|discriminate].
    + split.
      * destruct (split a); discriminate.
      * intros (txs' & Hr & Hnone). injection Hr as <-.
        exfalso. apply (Hnone tx n Hin). subst a. repeat split; assumption.
    + destruct (split a); discriminate.
    + cbn. lia.
    + exact Hnear.
Qed.

Lemma CheckDeposit_sound_witness :
  toncenter.CheckDeposit (toncenter.Answer true toncenter.sample_transactions)
    (fun _ => true) 250 "TON10000000021" 30 1700000000000000005
  = (Some true, [toncenter.fromNano 250000001000]) /\
  exists txs tx amountNano,
    toncenter.Answer true toncenter.sample_transactions = toncenter.Answer true txs /\
    In tx txs /\
    (1700000000000000005 / 1000000000 - 60 * 30 <= toncenter.Utime tx /\
     toncenter.Message tx = "TON10000000021" /\
     strconv.ParseInt (toncenter.Value tx) = Some amountNano /\
     float64.near (toncenter.fromNano amountNano) 250 = true) /\
    (fun _ : float => true) (toncenter.fromNano amountNano) = true /\
    snd (toncenter.CheckDeposit (toncenter.Answer true toncenter.sample_transactions)
           (fun _ => true) 250 "TON10000000021" 30 1700000000000000005)
    = [toncenter.fromNano amountNano].
Proof.
  split; [vm_compute; reflexivity|].
  apply (CheckDeposit_sound (toncenter.Answer true toncenter.sample_transactions)
           (fun _ => true) 250 "TON10000000021" 30 1700000000000000005).
  - lia.
  - vm_compute. reflexivity.
Defined.

(** * Referral statistics *)

Lemma lookup_store (m : list (Z * referral.ReferralDetail)) (k k' : Z)
    (v : referral.ReferralDetail) :
  referral.lookup (referral.store m k v) k'
  = if k =? k' then Some v else referral.lookup m k'.
Proof.
  induction m as [|[k0 v0] m IH]; cbn [referral.store referral.lookup].
  - reflexivity.
  - destruct (k0 =? k) eqn:H0; cbn [referral.lookup].
    + apply Z.eqb_eq in H0. subst k0. destruct (k =? k'); reflexivity.
    + destruct (k0 =? k') eqn:H0'.
      * apply Z.eqb_eq in H0'. subst k0. rewrite Z.eqb_sym, H0. reflexivity.
      * exact IH.
Qed.

Lemma lookup_keys (m : list (Z * referral.ReferralDetail)) (k : Z) :
  In k (map fst m) <-> referral.lookup m k <> None.
Proof.
  induction m as [|[k0 v0] m IH]; cbn [map fst In referral.lookup].
  - split; [contradiction|congruence].
  - destruct (k0 =? k) eqn:H0.
    + apply Z.eqb_eq in H0. split; [discriminate|]. intros _. left. exact H0.
    + apply Z.eqb_neq in H0. rewrite <- IH. split; [|tauto].
      intros [H|H]; [contradiction|exact H].
Qed.

Lemma keys_store (m : list (Z * referral.ReferralDetail)) (k : Z)
    (v : referral.ReferralDetail) :
  NoDup (map fst m) ->
  NoDup (map fst (referral.store m k v)) /\
  forall k', In k' (map fst (referral.store m k v)) <-> k' = k \/ In k' (map fst m).
Proof.
  intros Hnd. split.
  - induction m as [|[k0 v0] m IH]; cbn [referral.store map fst].
    + constructor; [intros []|constructor].
    + inversion Hnd as [|? ? Hnot Hnd']; subst.
      destruct (k0 =? k) eqn:H0; cbn [map fst].
      * apply Z.eqb_eq in H0. subst k0. constructor; assumption.
      * constructor; [|apply IH; exact Hnd'].
        rewrite lookup_keys, lookup_store, Z.eqb_sym, H0.
        rewrite <- lookup_keys. exact Hnot.
  - intros k'. rewrite !lookup_keys, lookup_store.
    destruct (k =? k') eqn:H0.
    + apply Z.eqb_eq in H0. split; [intros _; left; congruence|discriminate].
    + apply Z.eqb_neq in H0. split; [tauto|]. intros [H|H]; [congruence|exact H].
Qed.

Lemma lookup_In (m : list (Z * referral.ReferralDetail)) (k : Z)
    (v : referral.ReferralDetail) :
  NoDup (map fst m) -> In (k, v) m -> referral.lookup m k = Some v.
Proof.
  induction m as [|[k0 v0] m IH]; cbn [map fst In referral.lookup]; intros Hnd Hin.
  - contradiction.
  - inversion Hnd as [|? ? Hnot Hnd']; subst.
    destruct Hin as [Heq|Hin].
    + injection Heq as -> ->. rewrite Z.eqb_refl. reflexivity.
    + destruct (k0 =? k) eqn:H0; [|apply IH; assumption].
      apply Z.eqb_eq in H0. subst k0. exfalso. apply Hnot.
      apply (in_map fst) in Hin. exact Hin.
Qed.

Section Listing.
Variables (d : Database) (userID : Z).

Let refOf (id : Z) : referral.Referral :=
  referral.mkReferral id (referral.totalInvested d id)
    (referral.earningsFromUser d userID id).

Lemma store_listed (m : list (Z * referral.ReferralDetail)) (k : Z)
    (v : referral.ReferralDetail) :
  (forall k' v', referral.lookup m k' = Some v' -> referral.listed d userID k' v') ->
  referral.listed d userID k v ->
  forall k' v', referral.lookup (referral.store m k v) k' = Some v' ->
                referral.listed d userID k' v'.
Proof.
  intros Hm Hv k' v'. rewrite lookup_store.
  destruct (k =? k') eqn:H0.
  - apply Z.eqb_eq in H0. subst k'. intros H. injection H as <-. exact Hv.
  - apply Hm.
Qed.

Lemma level_of_1 (id : Z) :
  In id (referral.level1_ids d userID) -> referral.level_of d userID id = 1.
Proof.
  intros Hin. unfold referral.level_of.
  assert (H : existsb (Z.eqb id) (referral.level1_ids d userID) = true)
    by (apply existsb_exists; exists id; split; [exact Hin|apply Z.eqb_refl]).
  rewrite H. reflexivity.
Qed.

Lemma not_in_existsb (id : Z) (l : list Z) :
  ~ In id l -> existsb (Z.eqb id) l = false.
Proof.
  intros Hn. destruct (existsb (Z.eqb id) l) eqn:H; [|reflexivity].
  apply existsb_exists in H. destruct H as (x & Hx & He).
  apply Z.eqb_eq in He. subst x. contradiction.
Qed.

Lemma fold_addLevel1 (ids : list Z) :
  forall m : list (Z * referral.ReferralDetail),
    (forall k, In k ids -> referral.level_of d userID k = 1) ->
    NoDup (map fst m) ->
    (forall k v, referral.lookup m k = Some v -> referral.listed d userID k v) ->
    let m' := fold_left referral.addLevel1 (map refOf ids) m in
    NoDup (map fst m') /\
    (forall k, In k (map fst m') <-> In k (map fst m) \/ In k ids) /\
    (forall k v, referral.lookup m' k = Some v -> referral.listed d userID k v).
Proof.
  induction ids as [|id ids IH]; intros m Hlvl Hnd Hm; cbv zeta; cbn [map fold_left].
  - split; [exact Hnd|]. split; [|exact Hm]. intros k. cbn [In]. tauto.
  - change (referral.addLevel1 m (refOf id))
      with (referral.store m id (referral.detail_at 1 (refOf id))).
    destruct (keys_store m id (referral.detail_at 1 (refOf id)) Hnd) as [Hnd1 Hk1].
    specialize (IH (referral.store m id (referral.detail_at 1 (refOf id)))).
    cbv zeta in IH.
    destruct IH as (Hnd' & Hk' & Hm').
    + intros k Hk. apply Hlvl. right. exact Hk.
    + exact Hnd1.
    + apply store_listed; [exact Hm|].
      unfold referral.listed, referral.detail_at. cbn.
      rewrite (Hlvl id) by (left; reflexivity). repeat split; reflexivity.
    + split; [exact Hnd'|]. split; [|exact Hm'].
      intros k. rewrite Hk', Hk1. cbn [In]. split.
      * intros [[H|H]|H]; [right; left; congruence|left; exact H|right; right; exact H].
      * intros [H|[H|H]]; [left; right; exact H|left; left; congruence|right; exact H].
Qed.

Lemma fold_addLevel (L : Z)
    (add : list (Z * referral.ReferralDetail) -> referral.Referral
           -> list (Z * referral.ReferralDetail)) :
  (forall m ref,
     exists v,
       add m ref = referral.store m (referral.rf_user_id ref) v /\
       match referral.lookup m (referral.rf_user_id ref) with
       | Some detail =>
         referral.rd_user_id v = referral.rd_user_id detail /\
         referral.rd_level v = referral.rd_level detail /\
         referral.rd_total_invested v = referral.rd_total_invested detail /\
         referral.rd_earnings_from_user v = referral.rd_earnings_from_user detail
       | None => v = referral.detail_at L ref
       end) ->
  forall (ids : list Z) (m : list (Z * referral.ReferralDetail)),
    (forall k, In k ids -> referral.lookup m k = None ->
               referral.level_of d userID k = L) ->
    NoDup (map fst m) ->
    (forall k v, referral.lookup m k = Some v -> referral.listed d userID k v) ->
    let m' := fold_left add (map refOf ids) m in
    NoDup (map fst m') /\
    (forall k, In k (map fst m') <-> In k (map fst m) \/ In k ids) /\
    (forall k v, referral.lookup m' k = Some v -> referral.listed d userID k v).
Proof.
  intros Hadd. induction ids as [|id ids IH]; intros m Hlvl Hnd Hm; cbv zeta;
    cbn [map fold_left].
  - split; [exact Hnd|]. split; [|exact Hm]. intros k. cbn [In]. tauto.
  - destruct (Hadd m (refOf id)) as (v & Hv & Hcore). rewrite Hv.
    cbn [refOf referral.rf_user_id] in *.
    assert (Hlisted : referral.listed d userID id v).
    { destruct (referral.lookup m id) as [detail|] eqn:Hl.
      - destruct (Hm id detail Hl) as (H1 & H2 & H3 & H4).
        destruct Hcore as (C1 & C2 & C3 & C4).
        unfold referral.listed. rewrite C1, C2, C3, C4. repeat split; assumption.
      - subst v. unfold referral.listed, referral.detail_at. cbn.
        rewrite (Hlvl id) by (try left; auto). repeat split; reflexivity. }
    destruct (keys_store m id v Hnd) as [Hnd1 Hk1].
    specialize (IH (referral.store m id v)). cbv zeta in IH.
    destruct IH as (Hnd' & Hk' & Hm').
    + intros k Hk. rewrite lookup_store.
      destruct (id =? k); [discriminate|]. apply Hlvl. right. exact Hk.
    + exact Hnd1.
    + apply store_listed; assumption.
    + split; [exact Hnd'|]. split; [|exact Hm'].
      intros k. rewrite Hk', Hk1. cbn [In]. split.
      * intros [[H|H]|H]; [right; left; congruence|left; exact H|right; right; exact H].
      * intros [H|[H|H]]; [left; right; exact H|left; left; congruence|right; exact H].
Qed.

Lemma addLevel2_spec (m : list (Z * referral.ReferralDetail)) (ref : referral.Referral) :
  exists v,
    referral.addLevel2 m ref = referral.store m (referral.rf_user_id ref) v /\
    match referral.lookup m (referral.rf_user_id ref) with
    | Some detail =>
      referral.rd_user_id v = referral.rd_user_id detail /\
      referral.rd_level v = referral.rd_level detail /\
      referral.rd_total_invested v = referral.rd_total_invested detail /\
      referral.rd_earnings_from_user v = referral.rd_earnings_from_user detail
    | None => v = referral.detail_at 2 ref
    end.
Proof.
  unfold referral.addLevel2.
  destruct (referral.lookup m (referral.rf_user_id ref)) as [detail|];
    eexists; (split; [reflexivity|]); cbn; repeat split; reflexivity.
Qed.

Lemma addLevel3_spec (m : list (Z * referral.ReferralDetail)) (ref : referral.Referral) :
  exists v,
    referral.addLevel3 m ref = referral.store m (referral.rf_user_id ref) v /\
    match referral.lookup m (referral.rf_user_id ref) with
    | Some detail =>
      referral.rd_user_id v = referral.rd_user_id detail /\
      referral.rd_level v = referral.rd_level detail /\
      referral.rd_total_invested v = referral.rd_total_invested detail /\
      referral.rd_earnings_from_user v = referral.rd_earnings_from_user detail
    | None => v = referral.detail_at 3 ref
    end.
Proof.
  unfold referral.addLevel3.
  destruct (referral.lookup m (referral.rf_user_id ref)) as [detail|];
    eexists; (split; [reflexivity|]); cbn; repeat split; reflexivity.
Qed.

End Listing.

Lemma listing_ids (d : Database) (userID : Z)
    (m : list (Z * referral.ReferralDetail)) :
  NoDup (map fst m) ->
  (forall k v, referral.lookup m k = Some v -> referral.listed d userID k v) ->
  map referral.rd_user_id (map snd m) = map fst m /\
  (forall detail, In detail (map snd m) ->
                  referral.listed d userID (referral.rd_user_id detail) detail).
Proof.
  intros Hnd Hm.
  assert (Hin : forall k v, In (k, v) m -> referral.listed d userID k v)
    by (intros k v Hkv; apply Hm, lookup_In; assumption).
  clear Hm Hnd. split.
  - induction m as [|[k v] m IH]; cbn [map fst snd]; [reflexivity|].
    rewrite IH by (intros k' v' H; apply Hin; right; exact H).
    destruct (Hin k v (or_introl eq_refl)) as [Hid _]. rewrite Hid. reflexivity.
  - intros detail Hd. apply in_map_iff in Hd. destruct Hd as ([k v] & Hs & Hkv).
    cbn [snd] in Hs. subst v.
    pose proof (Hin k detail Hkv) as Hl.
    destruct Hl as [Hid Hrest]. rewrite Hid. split; [exact Hid|exact Hrest].
Qed.

(** X6.  The referral statistics list every user that one of the three
    level queries selects exactly once, under the first level that selects
    it, with the sum of that user's investments and of the earnings
    recorded from it; [total_referrals] is the number of entries.  For an
    unknown public key the error of the lookup comes back. *)
Theorem GetReferralStats_listing (d : Database) (pubKey : string) :
  (forall stats,
     referral.GetReferralStats d pubKey = inl stats ->
     exists user,
       GetUserByPubKey d pubKey = Ok user /\
       referral.TotalReferrals stats
       = Z.of_nat (List.length (referral.ReferralsByLevel stats)) /\
       NoDup (map referral.rd_user_id (referral.ReferralsByLevel stats)) /\
       (forall id,
          In id (map referral.rd_user_id (referral.ReferralsByLevel stats))
          <-> In id (referral.level1_ids d (ID user)) \/
              In id (referral.level2_ids d (ID user)) \/
              In id (referral.level3_ids d (ID user))) /\
       (forall detail,
          In detail (referral.ReferralsByLevel stats) ->
          referral.listed d (ID user) (referral.rd_user_id detail) detail) /\
       referral.TotalEarnings stats = referral.totalEarnings d (ID user)) /\
  (forall e,
     GetUserByPubKey d pubKey = Err e ->
     referral.GetReferralStats d pubKey = inr (referral.Store e)).
Proof.
  split.
  2: { intros e He. unfold referral.GetReferralStats. rewrite He. reflexivity. }
  intros stats. unfold referral.GetReferralStats.
  destruct (GetUserByPubKey d pubKey) as [user|e]; [|discriminate].
  unfold referral.getLevelReferrals.
  cbn [Z.eqb Pos.eqb]. cbv zeta.
  intros H. injection H as <-.
  exists user. split; [reflexivity|].
  set (S1 := referral.level1_ids d (ID user)).
  set (S2 := referral.level2_ids d (ID user)).
  set (S3 := referral.level3_ids d (ID user)).
  assert (Hl1 : forall k, In k S1 -> referral.level_of d (ID user) k = 1)
    by (intros k Hk; apply level_of_1; exact Hk).
  assert (He : forall k v, referral.lookup [] k = Some v ->
                           referral.listed d (ID user) k v)
    by (intros k v Hl; discriminate).
  destruct (fold_addLevel1 d (ID user) S1 [] Hl1 (NoDup_nil Z) He)
    as (Hnd1 & Hk1 & Hm1).
  set (m1 := fold_left referral.addLevel1 _ []) in *.
  assert (Hl2 : forall k, In k S2 -> referral.lookup m1 k = None ->
                          referral.level_of d (ID user) k = 2).
  { intros k Hk Hnone. unfold referral.level_of. fold S1 S2.
    assert (Hn1 : ~ In k S1).
    { intros Hin. assert (Hkey : In k (map fst m1)) by (apply Hk1; right; exact Hin).
      exact (proj1 (lookup_keys m1 k) Hkey Hnone). }
    rewrite (not_in_existsb k S1 Hn1).
    assert (H2 : existsb (Z.eqb k) S2 = true)
      by (apply existsb_exists; exists k; split; [exact Hk|apply Z.eqb_refl]).
    rewrite H2. reflexivity. }
  destruct (fold_addLevel d (ID user) 2 referral.addLevel2 addLevel2_spec S2 m1
              Hl2 Hnd1 Hm1) as (Hnd2 & Hk2 & Hm2).
  set (m2 := fold_left referral.addLevel2 _ m1) in *.
  assert (Hl3 : forall k, In k S3 -> referral.lookup m2 k = None ->
                          referral.level_of d (ID user) k = 3).
  { intros k Hk Hnone. unfold referral.level_of. fold S1 S2.
    assert (Hn : ~ In k (map fst m2)).
    { intros Hkey. exact (proj1 (lookup_keys m2 k) Hkey Hnone). }
    assert (Hn1 : ~ In k S1).
    { intros Hin. apply Hn, Hk2. left. apply Hk1. right. exact Hin. }
    assert (Hn2 : ~ In k S2).
    { intros Hin. apply Hn, Hk2. right. exact Hin. }
    rewrite (not_in_existsb k S1 Hn1), (not_in_existsb k S2 Hn2). reflexivity. }
  destruct (fold_addLevel d (ID user) 3 referral.addLevel3 addLevel3_spec S3 m2
              Hl3 Hnd2 Hm2) as (Hnd3 & Hk3 & Hm3).
  set (m3 := fold_left referral.addLevel3 _ m2) in *.
  destruct (listing_ids d (ID user) m3 Hnd3 Hm3) as [Hids Hdetails].
  cbn [referral.TotalReferrals referral.ReferralsByLevel referral.TotalEarnings].
  split; [rewrite length_map; reflexivity|].
  split; [rewrite Hids; exact Hnd3|].
  split; [|split; [exact Hdetails|reflexivity]].
  intros id. rewrite Hids, Hk3, Hk2, Hk1. cbn [map In]. tauto.
Qed.

Lemma GetReferralStats_listing_witness :
  NoDup (map referral.rd_user_id (referral.ReferralsByLevel referral.sample_stats)) /\
  referral.GetReferralStats ledger.db_users "erin" = inr (referral.Store ErrNoRows).
Proof.
  destruct (GetReferralStats_listing ledger.db_users "alice") as [Hstats _].
  destruct (GetReferralStats_listing ledger.db_users "erin") as [_ Herr].
  destruct (Hstats referral.sample_stats) as (user & _ & _ & Hnd & _).
  - vm_compute. reflexivity.
  - split; [exact Hnd|]. apply Herr. reflexivity.
Defined.

(** * The history of operations *)

Lemma limit_offset_In {R : Type} (n m : Z) (l : list R) (x : R) :
  In x (sql.limit_offset n m l) -> In x l.
Proof.
  unfold sql.limit_offset. cbv zeta. intros H.
  rewrite <- (firstn_skipn (Z.to_nat m) l). apply in_or_app. right.
  destruct (n <? 0); [exact H|].
  rewrite <- (firstn_skipn (Z.to_nat n) (skipn (Z.to_nat m) l)).
  apply in_or_app. left. exact H.
Qed.

Lemma limit_offset_length {R : Type} (n m : Z) (l : list R) :
  0 <= n -> (List.length (sql.limit_offset n m l) <= Z.to_nat n)%nat.
Proof.
  intros Hn. unfold sql.limit_offset. cbv zeta.
  destruct (n <? 0) eqn:H; [apply Z.ltb_lt in H; lia|].
  apply firstn_le_length.
Qed.

Lemma Atoi_range (s : string) (z : Z) :
  strconv.Atoi s = Some z -> - 2 ^ 63 <= z <= max_int.
Proof.
  unfold strconv.Atoi, strconv.ParseInt. cbv zeta.
  match goal with
  | |- match ?v with _ => _ end = _ -> _ => destruct v as [x|]; [|discriminate]
  end.
  destruct ((- 2 ^ 63 <=? x) && (x <=? max_int)) eqn:H; [|discriminate].
  intros E. injection E as <-.
  apply andb_true_iff in H. destruct H as [H1 H2].
  apply Z.leb_le in H1. apply Z.leb_le in H2. split; assumption.
Qed.

Lemma pageOf_range (pageStr : string) :
  1 <= queries.pageOf pageStr <= max_int /\
  (queries.pageOf pageStr = 1 \/
   strconv.Atoi pageStr = Some (queries.pageOf pageStr)).
Proof.
  unfold queries.pageOf.
  destruct (String.eqb pageStr ""); [unfold max_int; split; [lia|left; reflexivity]|].
  destruct (strconv.Atoi pageStr) as [p|] eqn:Hp;
    [|unfold max_int; split; [lia|left; reflexivity]].
  destruct (0 <? p) eqn:H0; [|unfold max_int; split; [lia|left; reflexivity]].
  apply Z.ltb_lt in H0. apply Atoi_range in Hp.
  split; [lia|right; reflexivity].
Qed.

Lemma pageSizeOf_range (pageSizeStr : string) :
  1 <= queries.pageSizeOf pageSizeStr <= 100 /\
  (queries.pageSizeOf pageSizeStr = 10 \/
   strconv.Atoi pageSizeStr = Some (queries.pageSizeOf pageSizeStr)).
Proof.
  unfold queries.pageSizeOf.
  destruct (String.eqb pageSizeStr ""); [split; [lia|left; reflexivity]|].
  destruct (strconv.Atoi pageSizeStr) as [ps|] eqn:Hp;
    [|split; [lia|left; reflexivity]].
  destruct ((0 <? ps) && (ps <=? 100)) eqn:H0; [|split; [lia|left; reflexivity]].
  apply andb_true_iff in H0. destruct H0 as [H1 H2].
  apply Z.ltb_lt in H1. apply Z.leb_le in H2.
  split; [lia|right; reflexivity].
Qed.

(** X8.  The history request answers 400 without a public key and 404 for
    an unknown one; otherwise the page number is at least 1, the page size
    is between 1 and 100 (10 unless the parameter is such a number), the
    reply holds at most that many operations, all of them of the user, and
    [total] counts all operations of the user. *)
Theorem GetUserOperations_reply (d : Database) (pubKey pageStr pageSizeStr : string) :
  match queries.GetUserOperations d pubKey pageStr pageSizeStr with
  | queries.History history =>
    exists user,
      pubKey <> "" /\
      GetUserByPubKey d pubKey = Ok user /\
      1 <= Page history <= max_int /\
      (Page history = 1 \/ strconv.Atoi pageStr = Some (Page history)) /\
      1 <= PageSize history <= 100 /\
      (PageSize history = 10 \/ strconv.Atoi pageSizeStr = Some (PageSize history)) /\
      (List.length (Operations history) <= Z.to_nat (PageSize history))%nat /\
      Forall (fun o => In o (sql.rows (operations d)) /\ op_user_id o = ID user)
        (Operations history) /\
      Total history
      = Z.of_nat (List.length (filter (fun o => op_user_id o =? ID user)
                                 (sql.rows (operations d))))
  | queries.Failure status e =>
    (status = 400 /\ e = queries.MissingPubKey /\ pubKey = "") \/
    (status = 404 /\ e = queries.UserNotFound /\ pubKey <> "" /\
     exists err, GetUserByPubKey d pubKey = Err err)
  | _ => False
  end.
Proof.
  unfold queries.GetUserOperations.
  destruct (String.eqb pubKey "") eqn:Hk.
  - apply String.eqb_eq in Hk. left. repeat split; assumption.
  - apply String.eqb_neq in Hk.
    destruct (GetUserByPubKey d pubKey) as [user|err] eqn:Hu.
    + exists user.
      destruct (pageOf_range pageStr) as [Hp1 Hp2].
      destruct (pageSizeOf_range pageSizeStr) as [Hs1 Hs2].
      unfold GetUserOperations. cbv zeta. cbn [Page PageSize Operations Total].
      split; [exact Hk|]. split; [reflexivity|]. split; [exact Hp1|].
      split; [exact Hp2|]. split; [exact Hs1|]. split; [exact Hs2|].
      split; [apply limit_offset_length; lia|]. split; [|reflexivity].
      apply Forall_forall. intros o Ho. apply limit_offset_In in Ho.
      apply (Permutation_in o (order_by_desc_perm op_created_at _)) in Ho.
      apply filter_In in Ho. destruct Ho as [Hin He].
      apply Z.eqb_eq in He. split; assumption.
    + right. repeat split; try assumption; try reflexivity. exists err. reflexivity.
Qed.

Lemma order_by_desc_newest {R : Type} (key : R -> Z) (l : list R) (x : R) :
  (forall y, In y l -> key y < key x) ->
  sql.order_by_desc key (l ++ [x]) = x :: sql.order_by_desc key l.
Proof.
  induction l as [|a l IH]; intros Hlt; cbn [app sql.order_by_desc sql.insert_desc].
  - reflexivity.
  - rewrite IH by (intros y Hy; apply Hlt; right; exact Hy).
    cbn [sql.insert_desc].
    assert (Ha : key a < key x) by (apply Hlt; left; reflexivity).
    destruct (key x <=? key a) eqn:H; [apply Z.leb_le in H; lia|reflexivity].
Qed.

(** X9.  An operation that is recorded later than all operations of its
    user comes first on page 1 of that user's history, which counts one
    operation more; the row carries a fresh id and the time of the
    recording, whatever id and time the caller put into the operation.  The
    histories of the other users do not change. *)
Theorem AddOperation_newest_first (d : Database) (op : Operation)
    (now pageSize : Z) :
  (forall o, In o (sql.rows (operations d)) -> op_user_id o = op_user_id op ->
             op_created_at o < now) ->
  1 <= pageSize ->
  let d' := AddOperation d op now in
  let row := mkOperation (sql.next_id op_id (operations d)) (op_user_id op)
               (op_type op) (op_amount op) (op_description op) now (op_extra op) in
  let before := GetUserOperations d (op_user_id op) 1 pageSize in
  let after := GetUserOperations d' (op_user_id op) 1 pageSize in
  Total after = Total before + 1 /\
  Operations after
  = firstn (Z.to_nat pageSize) (row :: ledger.operations_desc d (op_user_id op)) /\
  hd_error (Operations after) = Some row /\
  (forall o, In o (sql.rows (operations d)) -> op_id o < op_id row) /\
  (forall userID page size,
     userID <> op_user_id op ->
     Operations (GetUserOperations d' userID page size)
     = Operations (GetUserOperations d userID page size) /\
     Total (GetUserOperations d' userID page size)
     = Total (GetUserOperations d userID page size)).
Proof.
  intros Hnew Hps. cbv zeta.
  set (row := mkOperation (sql.next_id op_id (operations d)) (op_user_id op)
                (op_type op) (op_amount op) (op_description op) now (op_extra op)).
  assert (Hrows : sql.rows (operations (AddOperation d op now))
                  = sql.rows (operations d) ++ [row]) by reflexivity.
  unfold GetUserOperations. cbv zeta. cbn [Total Operations]. rewrite Hrows.
  assert (Hmine : filter (fun o => op_user_id o =? op_user_id op)
                    (sql.rows (operations d) ++ [row])
                  = filter (fun o => op_user_id o =? op_user_id op)
                      (sql.rows (operations d)) ++ [row]).
  { rewrite filter_app. cbn [filter op_user_id row]. rewrite Z.eqb_refl. reflexivity. }
  assert (Hsorted : sql.order_by_desc op_created_at
                      (filter (fun o => op_user_id o =? op_user_id op)
                         (sql.rows (operations d)) ++ [row])
                    = row :: ledger.operations_desc d (op_user_id op)).
  { apply order_by_desc_newest. intros y Hy. apply filter_In in Hy.
    destruct Hy as [Hin He]. apply Z.eqb_eq in He. cbn [row op_created_at].
    apply Hnew; assumption. }
  split; [|split; [|split; [|split]]].
  - rewrite Hmine, length_app. cbn [List.length]. lia.
  - rewrite Hmine, Hsorted. rewrite Z.sub_diag. cbn [Z.mul].
    change (int_wrap 0) with 0. cbn [Z.mul]. change (int_wrap 0) with 0.
    rewrite limit_offset_slice by lia. reflexivity.
  - rewrite Hmine, Hsorted. rewrite Z.sub_diag. cbn [Z.mul].
    change (int_wrap 0) with 0. cbn [Z.mul]. change (int_wrap 0) with 0.
    rewrite limit_offset_slice by lia. cbn [Z.to_nat skipn].
    destruct (Z.to_nat pageSize) eqn:Hn; [lia|]. reflexivity.
  - intros o Ho. cbn [row op_id]. apply next_id_fresh. exact Ho.
  - intros userID page size Hne.
    assert (Hother : filter (fun o => op_user_id o =? userID)
                       (sql.rows (operations d) ++ [row])
                     = filter (fun o => op_user_id o =? userID)
                         (sql.rows (operations d))).
    { rewrite filter_app. cbn [filter op_user_id row].
      rewrite (eqb_neq_false (op_user_id op) userID) by congruence.
      apply app_nil_r. }
    rewrite Hother. split; reflexivity.
Qed.

Lemma AddOperation_newest_first_witness :
  hd_error (Operations
              (GetUserOperations
                 (AddOperation ledger.db_ops25
                    (mkOperation 0 7 "deposit" 5 (DescWithdrawal 5) 0 (ExtraTxHash "h"))
                    200)
                 7 1 10))
  = Some (mkOperation 26 7 "deposit" 5 (DescWithdrawal 5) 200 (ExtraTxHash "h")).
Proof.
  apply (AddOperation_newest_first ledger.db_ops25
           (mkOperation 0 7 "deposit" 5 (DescWithdrawal 5) 0 (ExtraTxHash "h"))
           200 10).
  - intros o Ho _. cbn in Ho.
    repeat (destruct Ho as [<-|Ho]; [cbn; lia|]). contradiction.
  - lia.
Defined.

(** * Deposits and withdrawals *)

Lemma next_id_positive {R : Type} (id_of : R -> Z) (t : sql.Table R) :
  1 <= sql.next_id id_of t.
Proof.
  unfold sql.next_id. pose proof (max_id_nonneg id_of (sql.rows t)). lia.
Qed.

(** X11.  The life of a deposit request: a well-formed request of a known
    user records a pending request with a fresh id, the memo "TON<user
    id><unix time>" and the amount asked, and is answered 500 "failed to
    create deposit request", because the row cannot be read back; the
    owner's confirmation of it is answered 404 "deposit request not found",
    whatever the chain client reports, and from then on every well-formed
    withdrawal request of the user is answered 404 "user not found
    error". *)
Theorem CreateDeposit_lifecycle (h : Handler) (d : Database) (pubKey : string)
    (amount : Q) (now : Z) (user : User) :
  pubKey <> "" ->
  (1 <= amount)%Q ->
  GetUserByPubKey d pubKey = Ok user ->
  ton.GetDepositAddress (client h) <> "" ->
  let id := sql.next_id d_id (deposit_requests d) in
  let memo := memo_of (ID user) now in
  let d1 := snd (CreateDeposit h d pubKey amount now) in
  CreateDeposit h d pubKey amount now = (Failure 500 FailedToCreateDeposit, d1) /\
  sql.rows (deposit_requests d1)
  = sql.rows (deposit_requests d)
    ++ [mkDepositRequest id (ID user) amount "pending" memo now] /\
  (forall deposit, In deposit (sql.rows (deposit_requests d)) -> d_id deposit < id) /\
  GetUserByPubKey d1 pubKey = Ok user /\
  (forall h', ConfirmDeposit h' d1 pubKey id = (Failure 404 DepositNotFound, d1)) /\
  (forall h' amount' now',
     (0 < amount')%Q ->
     WithdrawFunds h' d1 pubKey amount' now' = (Failure 404 UserNotFoundError, d1)).
Proof.
  intros Hk Ha Hu Hw. cbv zeta.
  set (id := sql.next_id d_id (deposit_requests d)).
  set (memo := memo_of (ID user) now).
  set (new := mkDepositRequest id (ID user) amount "pending" memo now).
  assert (Hbody : String.eqb pubKey "" || Qltb amount 1 = false).
  { pose proof Hk as Hk'. apply String.eqb_neq in Hk'. rewrite Hk'. cbn [orb].
    apply Qltb_ge. exact Ha. }
  apply String.eqb_neq in Hw.
  assert (Hcreate : CreateDeposit h d pubKey amount now
                    = (Failure 500 FailedToCreateDeposit,
                       with_deposit_requests d
                         (sql.insert d_id
                            (fun id => mkDepositRequest id (ID user) amount
                                         StatusPending memo now)
                            (deposit_requests d)))).
  { unfold CreateDeposit. rewrite Hbody, Hu, Hw. cbv zeta.
    unfold CreateDepositRequest. cbv zeta. rewrite GetDepositRequest_error.
    reflexivity. }
  rewrite Hcreate. cbn [snd].
  set (d1 := with_deposit_requests d _) in *.
  assert (Hu1 : GetUserByPubKey d1 pubKey = Ok user) by exact Hu.
  assert (Hrows : sql.rows (deposit_requests d1)
                  = sql.rows (deposit_requests d) ++ [new]) by reflexivity.
  split; [reflexivity|]. split; [exact Hrows|].
  split; [intros deposit Hin; apply next_id_fresh; exact Hin|].
  split; [exact Hu1|]. split.
  - intro h'. unfold ConfirmDeposit.
    pose proof Hk as Hk'. apply String.eqb_neq in Hk'. rewrite Hk'.
    pose proof (next_id_positive d_id (deposit_requests d)) as Hpos. fold id in Hpos.
    rewrite (eqb_neq_false id 0) by lia. cbn [orb].
    rewrite Hu1, GetDepositRequest_error. reflexivity.
  - intros h' amount' now' Ha'.
    apply WithdrawFunds_deposit_rows with (user := user); try assumption.
    unfold ledger.deposits_of. rewrite Hrows, filter_app.
    cbn [filter new d_user_id]. rewrite Z.eqb_refl.
    intro H. apply app_eq_nil in H. destruct H as [_ H]. discriminate.
Qed.

Lemma CreateDeposit_lifecycle_witness :
  let d1 := snd (CreateDeposit ledger.h_yes ledger.db_users "bob" 250 5) in
  CreateDeposit ledger.h_yes ledger.db_users "bob" 250 5
  = (Failure 500 FailedToCreateDeposit, d1) /\
  sql.rows (deposit_requests d1)
  = [mkDepositRequest 1 1000000002 250 "pending" "TON10000000025" 5] /\
  ConfirmDeposit ledger.h_yes d1 "bob" 1 = (Failure 404 DepositNotFound, d1) /\
  WithdrawFunds ledger.h_yes d1 "bob" 1 9 = (Failure 404 UserNotFoundError, d1).
Proof.
  cbv zeta.
  destruct (CreateDeposit_lifecycle ledger.h_yes ledger.db_users "bob" 250 5
              (user_of_row ledger.db_users ledger.bob))
    as (Hc & Hr & _ & _ & Hconf & Hwd).
  - discriminate.
  - unfold Qle. cbn. lia.
  - reflexivity.
  - discriminate.
  - split; [exact Hc|]. split; [exact Hr|].
    split; [apply (Hconf ledger.h_yes)|apply (Hwd ledger.h_yes)]. reflexivity.
Defined.

(** * Users *)

Lemma find_none_forall {R : Type} (p : R -> bool) (l : list R) :
  find p l = None -> forall r, In r l -> p r = false.
Proof.
  intros Hf r Hin. apply (find_none p l Hf r Hin).
Qed.

(** X12.  Registration of a public key that is not yet known: with an id
    that is taken the request fails and stores nothing; otherwise exactly
    one row is appended, with balance 0 and the referrer as given (it is not
    looked up), the user can be read back both by key and by id, and no
    other lookup changes.  An id that is not supplied lies between 10^9 and
    10^12. *)
Theorem CreateUser_new (d : Database) (pubKey : string) (refID customID : option Z)
    (rnd : Z) :
  GetUserByPubKey d pubKey = Err ErrNoRows ->
  let id := registry.new_id customID rnd in
  let user := mkUser id pubKey 0 refID (getUserInvestments d id) in
  let d' := snd (CreateUser d pubKey refID customID rnd) in
  (customID = None -> 0 <= rnd < 1000000000000 - 1000000000 ->
   1000000000 <= id < 1000000000000) /\
  (forall r, In r (users d) -> u_id r = id ->
             CreateUser d pubKey refID customID rnd = (Err ErrConstraint, d)) /\
  (GetUser d id = Err ErrNoRows ->
   CreateUser d pubKey refID customID rnd = (Ok user, d') /\
   users d' = users d ++ [mkUserRow id pubKey 0 refID] /\
   GetUserByPubKey d' pubKey = Ok user /\
   GetUser d' id = Ok user /\
   (forall pubKey', pubKey' <> pubKey ->
                    GetUserByPubKey d' pubKey' = GetUserByPubKey d pubKey') /\
   (forall id', id' <> id -> GetUser d' id' = GetUser d id')).
Proof.
  intros Hnew. cbv zeta. unfold CreateUser. rewrite Hnew. cbn [is_no_rows negb].
  fold (registry.new_id customID rnd). set (id := registry.new_id customID rnd).
  assert (Hkey : find (fun r => String.eqb (u_pub_key r) pubKey) (users d) = None).
  { unfold GetUserByPubKey in Hnew.
    destruct (find (fun r => String.eqb (u_pub_key r) pubKey) (users d));
      [discriminate|reflexivity]. }
  split; [|split].
  - intros Hc Hr. subst id. rewrite Hc. cbn [registry.new_id]. lia.
  - intros r Hin Hid.
    assert (Hex : existsb (fun r => u_id r =? id) (users d) = true)
      by (apply existsb_exists; exists r; split; [exact Hin|apply Z.eqb_eq; exact Hid]).
    rewrite Hex. reflexivity.
  - intros Hfree.
    assert (Hid : find (fun r => u_id r =? id) (users d) = None).
    { unfold GetUser in Hfree.
      destruct (find (fun r => u_id r =? id) (users d)); [discriminate|reflexivity]. }
    assert (Hex : existsb (fun r => u_id r =? id) (users d) = false).
    { destruct (existsb _ (users d)) eqn:He; [|reflexivity].
      apply existsb_exists in He. destruct He as (r & Hin & He).
      rewrite (find_none_forall _ _ Hid r Hin) in He. discriminate. }
    rewrite Hex. cbn [snd].
    assert (Hget : GetUser (with_users d (users d ++ [mkUserRow id pubKey 0 refID])) id
                   = Ok (mkUser id pubKey 0 refID (getUserInvestments d id))).
    { unfold GetUser. db_simpl. rewrite find_app, Hid. cbn [find u_id].
      rewrite Z.eqb_refl. reflexivity. }
    rewrite Hget.
    split; [reflexivity|]. split; [reflexivity|].
    split; [|split; [reflexivity|split]].
    + unfold GetUserByPubKey. db_simpl. rewrite find_app, Hkey. cbn [find u_pub_key].
      rewrite String.eqb_refl. reflexivity.
    + intros pubKey' Hne. unfold GetUserByPubKey. db_simpl. rewrite find_app.
      destruct (find (fun r => String.eqb (u_pub_key r) pubKey') (users d)) as [r|];
        [reflexivity|].
      cbn [find u_pub_key].
      destruct (String.eqb pubKey pubKey') eqn:He; [|reflexivity].
      apply String.eqb_eq in He. congruence.
    + intros id' Hne. unfold GetUser. db_simpl. rewrite find_app.
      destruct (find (fun r => u_id r =? id') (users d)) as [r|]; [reflexivity|].
      cbn [find u_id]. rewrite (eqb_neq_false id id') by congruence. reflexivity.
Qed.

Lemma CreateUser_new_witness :
  CreateUser ledger.db_users "erin" (Some 99) None 41
  = (Ok (mkUser 1000000041 "erin" 0 (Some 99) []),
     snd (CreateUser ledger.db_users "erin" (Some 99) None 41)) /\
  CreateUser ledger.db_users "erin" None (Some 1000000002) 41
  = (Err ErrConstraint, ledger.db_users).
Proof.
  split.
  - apply (CreateUser_new ledger.db_users "erin" (Some 99) None 41); reflexivity.
  - apply (CreateUser_new ledger.db_users "erin" None (Some 1000000002) 41)
      with (r := ledger.bob); [reflexivity| |reflexivity].
    right. left. reflexivity.
Defined.

Lemma identities_update_rows (p : UserRow -> bool) (f : UserRow -> UserRow)
    (l : list UserRow) :
  (forall r, registry.identity (f r) = registry.identity r) ->
  map registry.identity (sql.update_rows p f l) = map registry.identity l.
Proof.
  intros Hf. apply map_update_rows. exact Hf.
Qed.

Lemma identities_UpdateUserBalance (d : Database) (userID : Z) (newBalance : Q) :
  registry.identities (UpdateUserBalance d userID newBalance) = registry.identities d.
Proof.
  unfold registry.identities, UpdateUserBalance. db_simpl.
  apply identities_update_rows. reflexivity.
Qed.

Lemma identities_AddReferralEarning (d : Database) (referrerID referredID : Z)
    (amount : Q) (level now : Z) :
  registry.identities (AddReferralEarning d referrerID referredID amount level now)
  = registry.identities d.
Proof.
  unfold registry.identities, AddReferralEarning. db_simpl.
  apply identities_update_rows. reflexivity.
Qed.

Lemma identities_addEarnings (h : Handler) (userID : Z) (P : Q) (now : Z)
    (chain : list Z) :
  forall (d : Database) (level : Z),
    registry.identities (addEarnings h d userID P level chain now)
    = registry.identities d.
Proof.
  induction chain as [|referrerID rest IH]; intros d level; cbn [addEarnings].
  - reflexivity.
  - cbv zeta. rewrite IH. apply identities_AddReferralEarning.
Qed.

Lemma identities_db_CreateInvestment (d d' : Database) (userID : Z)
    (investType : string) (amount : Q) (config : InvestmentTypeConfig) (now : Z) :
  database.CreateInvestment d userID investType amount config now = Ok d' ->
  registry.identities d' = registry.identities d.
Proof.
  unfold database.CreateInvestment.
  destruct (find (fun r => u_id r =? userID) (users d)) as [r|]; [|discriminate].
  cbv zeta. destruct (Qltb (u_balance r) amount); [discriminate|].
  intros H. injection H as <-.
  unfold registry.identities. db_simpl. apply identities_update_rows. reflexivity.
Qed.

Lemma identities_db_DeleteInvestment (d d' : Database) (userID investmentID now : Z) :
  database.DeleteInvestment d userID investmentID now = Ok d' ->
  registry.identities d' = registry.identities d.
Proof.
  unfold database.DeleteInvestment. cbv zeta.
  destruct (find _ (sql.rows (investments d))) as [investment|]; [|discriminate].
  destruct (Z.of_nat _ =? 0); [discriminate|].
  intros H. injection H as <-.
  unfold registry.identities. db_simpl. apply identities_update_rows. reflexivity.
Qed.

Lemma identities_CreateInvestment (h : Handler) (d : Database)
    (pubKey reqType : string) (amount : Q) (now : Z) :
  registry.identities (snd (handler.CreateInvestment h d pubKey reqType amount now))
  = registry.identities d.
Proof.
  unfold handler.CreateInvestment.
  case_if; [reflexivity|]. case_if; [reflexivity|].
  destruct (lookup_type _ reqType) as [investConfig|]; [|reflexivity].
  case_if; [reflexivity|].
  destruct (GetUserByPubKey d pubKey) as [user|]; [|reflexivity].
  destruct (database.CreateInvestment d (ID user) reqType amount investConfig now)
    as [d'|e] eqn:Hc.
  - cbn [snd]. apply (identities_db_CreateInvestment _ _ _ _ _ _ _ Hc).
  - destruct e; reflexivity.
Qed.

Lemma identities_DeleteInvestment (d : Database) (pubKey : string)
    (investmentID : option Z) (now : Z) :
  registry.identities (snd (handler.DeleteInvestment d pubKey investmentID now))
  = registry.identities d.
Proof.
  unfold handler.DeleteInvestment.
  destruct investmentID as [investmentID|]; [|reflexivity].
  destruct (GetUserByPubKey d pubKey) as [user|]; [|reflexivity].
  destruct (database.DeleteInvestment d (ID user) investmentID now) as [d'|e] eqn:Hc.
  - cbn [snd]. apply (identities_db_DeleteInvestment _ _ _ _ _ Hc).
  - reflexivity.
Qed.

Lemma identities_CreateDeposit (h : Handler) (d : Database) (pubKey : string)
    (amount : Q) (now : Z) :
  registry.identities (snd (handler.CreateDeposit h d pubKey amount now))
  = registry.identities d.
Proof.
  unfold handler.CreateDeposit.
  case_if; [reflexivity|].
  destruct (GetUserByPubKey d pubKey) as [user|]; [|reflexivity].
  cbv zeta. case_if; [reflexivity|].
  unfold CreateDepositRequest. cbv zeta.
  destruct (GetDepositRequest _ _); reflexivity.
Qed.

Lemma identities_ConfirmDeposit (h : Handler) (d : Database) (pubKey : string)
    (depositID : Z) :
  registry.identities (snd (handler.ConfirmDeposit h d pubKey depositID))
  = registry.identities d.
Proof.
  unfold handler.ConfirmDeposit.
  case_if; [reflexivity|].
  destruct (GetUserByPubKey d pubKey) as [user|]; [|reflexivity].
  destruct (GetDepositRequest d depositID) as [deposit|]; [|reflexivity].
  case_if; [reflexivity|]. case_if; [reflexivity|].
  cbv zeta. case_if; [reflexivity|].
  destruct (ton.CheckDeposit _ _ _ _ _) as [[|]|]; try reflexivity.
  cbn [snd]. rewrite identities_UpdateUserBalance. reflexivity.
Qed.

Lemma identities_WithdrawFunds (h : Handler) (d : Database) (pubKey : string)
    (amount : Q) (now : Z) :
  registry.identities (snd (handler.WithdrawFunds h d pubKey amount now))
  = registry.identities d.
Proof.
  unfold handler.WithdrawFunds.
  case_if; [reflexivity|].
  destruct (GetUserByPubKey d pubKey) as [user|]; [|reflexivity].
  destruct (GetDepositsOfUser _ _) as [deposits|]; [|reflexivity].
  destruct (sumDeposits _ _) as [MathDeposits|]; [|reflexivity].
  destruct (sumWithdrawals _ _) as [Mathwithdrawal|]; [|reflexivity].
  cbv zeta. case_if; [reflexivity|]. case_if; [reflexivity|].
  destruct (ton.WithdrawUserFunds _ _ _) as [txHash|]; [|reflexivity].
  assert (Hd3 : forall d3, users d3 = users d ->
                  registry.identities
                    (UpdateUserBalance d3 (ID user) (Balance user - amount))
                  = registry.identities d).
  { intros d3 E. rewrite identities_UpdateUserBalance.
    unfold registry.identities. rewrite E. reflexivity. }
  destruct (ton.GenerateWalletAddressFromPubKey _ _); cbn [snd];
    [change (registry.identities (AddOperation ?x ?o ?n))
       with (registry.identities x)|];
    apply Hd3; unfold UpdateWithdrawalTxHash;
    destruct (GetWithdrawalRequestsByUser _ _); reflexivity.
Qed.

Lemma identities_CreateUser (d : Database) (pubKey : string)
    (refID customID : option Z) (rnd : Z) :
  let d' := snd (CreateUser d pubKey refID customID rnd) in
  registry.identities d' = registry.identities d \/
  (registry.identities d'
   = registry.identities d ++ [(registry.new_id customID rnd, pubKey, refID)] /\
   forall r, In r (users d) ->
             u_id r <> registry.new_id customID rnd /\ u_pub_key r <> pubKey).
Proof.
  cbv zeta. unfold CreateUser.
  destruct (GetUserByPubKey d pubKey) as [u|e] eqn:Hu; [left; reflexivity|].
  case_if; [left; reflexivity|].
  fold (registry.new_id customID rnd).
  destruct (existsb _ (users d)) eqn:Hex; [left; reflexivity|].
  right. cbn [snd]. unfold registry.identities. db_simpl.
  split; [rewrite map_app; reflexivity|].
  intros r Hin. split.
  - intros Hid. assert (Ht : existsb (fun r0 => u_id r0 =? registry.new_id customID rnd)
                               (users d) = true)
      by (apply existsb_exists; exists r; split; [exact Hin|apply Z.eqb_eq; exact Hid]).
    congruence.
  - intros Hk. unfold GetUserByPubKey in Hu.
    destruct (find (fun r => String.eqb (u_pub_key r) pubKey) (users d)) eqn:Hf;
      [discriminate|].
    pose proof (find_none_forall _ _ Hf r Hin) as Hr. cbv beta in Hr.
    apply String.eqb_neq in Hr. contradiction.
Qed.

Lemma identities_step (h : Handler) (d : Database) (r : ledger.Request) :
  match r with
  | ledger.ReqCreateUser pubKey refID customID rnd =>
    registry.identities (ledger.step h d r) = registry.identities d \/
    (registry.identities (ledger.step h d r)
     = registry.identities d ++ [(registry.new_id customID rnd, pubKey, refID)] /\
     forall x, In x (users d) ->
               u_id x <> registry.new_id customID rnd /\ u_pub_key x <> pubKey)
  | _ => registry.identities (ledger.step h d r) = registry.identities d
  end.
Proof.
  destruct r; cbn [ledger.step].
  - apply identities_CreateUser.
  - apply identities_CreateInvestment.
  - apply identities_DeleteInvestment.
  - apply identities_CreateDeposit.
  - apply identities_ConfirmDeposit.
  - apply identities_WithdrawFunds.
  - unfold ProcessReferralEarnings.
    destruct (referrerChain d userID 3); [apply identities_addEarnings|reflexivity].
Qed.

Lemma pub_keys_of_identities (d : Database) :
  map u_pub_key (users d) = map (fun i => snd (fst i)) (registry.identities d).
Proof.
  unfold registry.identities. rewrite map_map. reflexivity.
Qed.

Lemma ids_of_identities (d : Database) :
  map u_id (users d) = map (fun i => fst (fst i)) (registry.identities d).
Proof.
  unfold registry.identities. rewrite map_map. reflexivity.
Qed.

Lemma step_unique (h : Handler) (d : Database) (r : ledger.Request) :
  (registry.pub_keys_unique d -> registry.pub_keys_unique (ledger.step h d r)) /\
  (ledger.users_keyed d -> ledger.users_keyed (ledger.step h d r)).
Proof.
  unfold registry.pub_keys_unique, ledger.users_keyed.
  rewrite !pub_keys_of_identities, !ids_of_identities.
  pose proof (identities_step h d r) as Hs.
  assert (Hcase : registry.identities (ledger.step h d r) = registry.identities d \/
                  exists id pubKey refID,
                    registry.identities (ledger.step h d r)
                    = registry.identities d ++ [(id, pubKey, refID)] /\
                    forall x, In x (users d) -> u_id x <> id /\ u_pub_key x <> pubKey).
  { destruct r; try (left; exact Hs).
    destruct Hs as [Hs|Hs]; [left; exact Hs|].
    right. eexists _, _, _. exact Hs. }
  destruct Hcase as [->|(id & pubKey & refID & -> & Hfresh)]; [tauto|].
  rewrite !map_app. cbn [map fst snd].
  split; intros Hnd; (apply NoDup_app; [exact Hnd|constructor; [intros []|constructor]|]);
    intros x Hx [<-|[]]; apply in_map_iff in Hx; destruct Hx as (i & Hi & Hin);
    unfold registry.identities in Hin; apply in_map_iff in Hin;
    destruct Hin as (row & <- & Hrow); cbn in Hi;
    destruct (Hfresh row Hrow) as [H1 H2]; congruence.
Qed.

(** X13.  No request changes the id, the public key or the referrer of a
    user, and only a registration adds a user: it appends one identity whose
    id and public key no user had.  Hence ids and public keys stay unique
    along every history of requests, in particular along every history that
    starts with the empty store. *)
Theorem identities_stable (h : Handler) (d : Database) (r : ledger.Request) :
  match r with
  | ledger.ReqCreateUser pubKey refID customID rnd =>
    registry.identities (ledger.step h d r) = registry.identities d \/
    (registry.identities (ledger.step h d r)
     = registry.identities d ++ [(registry.new_id customID rnd, pubKey, refID)] /\
     forall x, In x (users d) ->
               u_id x <> registry.new_id customID rnd /\ u_pub_key x <> pubKey)
  | _ => registry.identities (ledger.step h d r) = registry.identities d
  end /\
  (registry.pub_keys_unique d -> registry.pub_keys_unique (ledger.step h d r)) /\
  (ledger.users_keyed d -> ledger.users_keyed (ledger.step h d r)) /\
  (forall rs : list (Handler * ledger.Request),
     registry.pub_keys_unique (ledger.steps database.empty rs) /\
     ledger.users_keyed (ledger.steps database.empty rs)).
Proof.
  split; [apply identities_step|].
  split; [apply step_unique|]. split; [apply step_unique|].
  assert (Hsteps : forall (rs : list (Handler * ledger.Request)) d0,
            registry.pub_keys_unique d0 -> ledger.users_keyed d0 ->
            registry.pub_keys_unique (ledger.steps d0 rs) /\
            ledger.users_keyed (ledger.steps d0 rs)).
  { induction rs as [|[h0 r0] rs IH]; intros d0 Hp Hk; cbn [ledger.steps].
    - split; assumption.
    - apply IH; apply step_unique; assumption. }
  intros rs. apply Hsteps; constructor.
Qed.

(** * The admin requests *)

Lemma update_rows_none {R : Type} (p : R -> bool) (f : R -> R) (l : list R) :
  (forall r, In r l -> p r = false) -> sql.update_rows p f l = l.
Proof.
  induction l as [|r l IH]; intros Hp; cbn [sql.update_rows map]; [reflexivity|].
  rewrite (Hp r) by (left; reflexivity).
  f_equal. apply IH. intros x Hx. apply Hp. right. exact Hx.
Qed.

Lemma with_users_same (d : Database) : with_users d (users d) = d.
Proof.
  destruct d. reflexivity.
Qed.

Lemma balance_of_set (d : Database) (userID : Z) (newBalance : Q) (X : Z) :
  ledger.balance_of (UpdateUserBalance d userID newBalance) X
  = if X =? userID
    then option_map (fun _ => newBalance) (ledger.balance_of d X)
    else ledger.balance_of d X.
Proof.
  unfold ledger.balance_of, UpdateUserBalance. db_simpl.
  rewrite balance_of_update_rows by reflexivity.
  destruct (X =? userID); [|reflexivity].
  destruct (find (fun r => u_id r =? X) (users d)); reflexivity.
Qed.

(** X14.  The admin request that sets a balance: without the admin key the
    reply is 401 and nothing changes; a body whose user id is 0 or whose
    balance is 0 is rejected with 400, so a balance cannot be set to zero;
    otherwise the reply is a success, the balance of that user (and of no
    other) becomes the given value, negative or not, and for an id that no
    user has the reply is a success all the same while nothing changes. *)
Theorem admin_UpdateUserBalance (AdminAPIKey apiKey : string) (UserID : Z)
    (Balance : Q) (d : Database) :
  let r := admin.AdminAuth AdminAPIKey apiKey
             (admin.UpdateUserBalance UserID Balance) d in
  (apiKey <> AdminAPIKey -> r = (admin.Failure 401 admin.InvalidAPIKey, d)) /\
  (apiKey = AdminAPIKey -> UserID = 0 \/ (Balance == 0)%Q ->
   r = (admin.Failure 400 admin.InvalidRequestBody, d)) /\
  (apiKey = AdminAPIKey -> UserID <> 0 -> ~ (Balance == 0)%Q ->
   fst r = admin.BalanceUpdated UserID Balance /\
   (forall X,
      ledger.balance_of (snd r) X
      = if X =? UserID
        then option_map (fun _ => Balance) (ledger.balance_of d X)
        else ledger.balance_of d X) /\
   registry.identities (snd r) = registry.identities d /\
   (GetUser d UserID = Err ErrNoRows -> snd r = d)).
Proof.
  cbv zeta. unfold admin.AdminAuth, admin.UpdateUserBalance.
  split; [|split].
  - intros Hne. apply String.eqb_neq in Hne. rewrite Hne. reflexivity.
  - intros -> Hz. rewrite String.eqb_refl. cbn [negb].
    destruct Hz as [->|Hz]; [reflexivity|].
    apply Qeq_bool_iff in Hz. rewrite Hz, orb_true_r. reflexivity.
  - intros -> Hid Hb. rewrite String.eqb_refl. cbn [negb].
    rewrite (eqb_neq_false UserID 0 Hid).
    destruct (Qeq_bool Balance 0) eqn:Hq; [apply Qeq_bool_iff in Hq; contradiction|].
    cbn [orb fst snd].
    split; [reflexivity|]. split; [intros X; apply balance_of_set|].
    split; [apply identities_UpdateUserBalance|].
    intros Hnone. unfold GetUser in Hnone.
    destruct (find (fun r => u_id r =? UserID) (users d)) eqn:Hf; [discriminate|].
    unfold UpdateUserBalance.
    rewrite update_rows_none by (apply find_none_forall; exact Hf).
    apply with_users_same.
Qed.

Lemma admin_UpdateUserBalance_witness :
  admin.AdminAuth "secret" "secret" (admin.UpdateUserBalance 1000000002 0)
    ledger.db_users
  = (admin.Failure 400 admin.InvalidRequestBody, ledger.db_users) /\
  admin.AdminAuth "secret" "guess" (admin.UpdateUserBalance 1000000002 5)
    ledger.db_users
  = (admin.Failure 401 admin.InvalidAPIKey, ledger.db_users).
Proof.
  split.
  - apply (admin_UpdateUserBalance "secret" "secret" 1000000002 0 ledger.db_users).
    + reflexivity.
    + right. reflexivity.
  - apply (admin_UpdateUserBalance "secret" "guess" 1000000002 5 ledger.db_users).
    discriminate.
Defined.

Lemma find_delete_rows_other {R : Type} (q p : R -> bool) (l : list R) :
  (forall r, q r = true -> p r = false) ->
  find q (sql.delete_rows p l) = find q l.
Proof.
  intros Hq. induction l as [|r l IH]; cbn [sql.delete_rows filter find]; [reflexivity|].
  destruct (p r) eqn:Hp; cbn [negb find].
  - destruct (q r) eqn:Hr; [rewrite (Hq r Hr) in Hp; discriminate|exact IH].
  - destruct (q r); [reflexivity|exact IH].
Qed.

Lemma find_delete_rows_same {R : Type} (p : R -> bool) (l : list R) :
  find p (sql.delete_rows p l) = None.
Proof.
  induction l as [|r l IH]; cbn [sql.delete_rows filter find]; [reflexivity|].
  destruct (p r) eqn:Hp; cbn [negb find]; [exact IH|].
  rewrite Hp. exact IH.
Qed.

(** X15.  The admin request that deletes a user: an id that is not a
    decimal integer is answered 400 and changes nothing.  Otherwise the
    reply is a success whether or not the user exists; afterwards no user
    has the id and no investment belongs to it, every other user is read as
    before, and the deposit requests, operations and referral earnings of
    the deleted user are still stored.  A user that the deleted one had
    referred keeps it as referrer, and a distribution of that user's profit
    then fails with "no rows" without crediting anybody. *)
Theorem admin_DeleteUser (idParam : string) (d : Database) :
  let r := admin.DeleteUser idParam d in
  (strconv.Atoi idParam = None ->
   r = (admin.Failure 400 admin.InvalidUserID, d)) /\
  (forall id,
     strconv.Atoi idParam = Some id ->
     fst r = admin.UserDeleted id /\
     GetUser (snd r) id = Err ErrNoRows /\
     getUserInvestments (snd r) id = [] /\
     (forall id', id' <> id ->
        GetUser (snd r) id' = GetUser d id') /\
     deposit_requests (snd r) = deposit_requests d /\
     operations (snd r) = operations d /\
     referral_earnings (snd r) = referral_earnings d /\
     (forall h referred P now,
        ledger.referrer_of d referred = Some (Some id) ->
        referred <> id ->
        ledger.referrer_of (snd r) referred = Some (Some id) /\
        ProcessReferralEarnings h (snd r) referred P now = Err ErrNoRows)).
Proof.
  cbv zeta. unfold admin.DeleteUser. split.
  - intros ->. reflexivity.
  - intros id ->. cbn [fst snd].
    assert (Hfind : forall id', id' <> id ->
              find (fun r => u_id r =? id') (users (DeleteUser d id))
              = find (fun r => u_id r =? id') (users d)).
    { intros id' Hne. unfold DeleteUser. db_simpl.
      apply find_delete_rows_other. intros r Hr. apply Z.eqb_eq in Hr.
      apply eqb_neq_false. congruence. }
    assert (Hgone : find (fun r => u_id r =? id) (users (DeleteUser d id)) = None).
    { unfold DeleteUser. db_simpl. apply find_delete_rows_same. }
    assert (Hinv : forall X,
              getUserInvestments (DeleteUser d id) X
              = if X =? id then [] else getUserInvestments d X).
    { intros X. unfold getUserInvestments, DeleteUser. db_simpl.
      unfold sql.delete_rows.
      induction (sql.rows (investments d)) as [|i l IH]; cbn [filter].
      - destruct (X =? id); reflexivity.
      - destruct (i_user_id i =? id) eqn:Hi; cbn [negb filter].
        + rewrite IH. destruct (X =? id) eqn:HX; [reflexivity|].
          apply Z.eqb_eq in Hi. rewrite Hi, Z.eqb_sym, HX. reflexivity.
        + destruct (i_user_id i =? X) eqn:HiX.
          * apply Z.eqb_eq in HiX. subst X. rewrite Hi. rewrite Hi in IH.
            rewrite IH. reflexivity.
          * exact IH. }
    split; [reflexivity|].
    split; [unfold GetUser; rewrite Hgone; reflexivity|].
    split; [rewrite Hinv, Z.eqb_refl; reflexivity|].
    split.
    { intros id' Hne. unfold GetUser. rewrite (Hfind id' Hne).
      destruct (find (fun r => u_id r =? id') (users d)) as [row|] eqn:Hf;
        [|reflexivity].
      unfold user_of_row. rewrite Hinv.
      apply find_some in Hf. destruct Hf as [_ Hf]. apply Z.eqb_eq in Hf.
      rewrite Hf, (eqb_neq_false id' id Hne). reflexivity. }
    split; [reflexivity|]. split; [reflexivity|]. split; [reflexivity|].
    intros h referred P now Href Hne.
    assert (Href' : ledger.referrer_of (DeleteUser d id) referred = Some (Some id))
      by (unfold ledger.referrer_of in *; rewrite (Hfind referred Hne); exact Href).
    split; [exact Href'|].
    unfold ProcessReferralEarnings.
    rewrite (referrerChain_step _ _ _ _ Href').
    cbn [referrerChain]. rewrite Hgone. reflexivity.
Qed.

Lemma admin_DeleteUser_witness :
  fst (admin.DeleteUser "1000000003" ledger.db_users) = admin.UserDeleted 1000000003 /\
  ProcessReferralEarnings ledger.h_yes
    (snd (admin.DeleteUser "1000000003" ledger.db_users)) 1000000004 1000 50
  = Err ErrNoRows /\
  admin.DeleteUser "12a" ledger.db_users
  = (admin.Failure 400 admin.InvalidUserID, ledger.db_users).
Proof.
  destruct (admin_DeleteUser "1000000003" ledger.db_users) as [_ Hok].
  destruct (Hok 1000000003 eq_refl) as (Hr & _ & _ & _ & _ & _ & _ & Hp).
  split; [exact Hr|]. split.
  - apply (Hp ledger.h_yes 1000000004 1000%Q 50); [reflexivity|discriminate].
  - apply (admin_DeleteUser "12a" ledger.db_users). reflexivity.
Defined.

(** * Investments *)






(** X17.  Closing is by owner only: the request succeeds exactly when an
    investment with that id belongs to the user of the public key; in every
    other case, be the id unknown or the investment another user's, the
    reply is the same 400 "investment not found" and nothing changes. *)
Theorem DeleteInvestment_owner_only (d : Database) (pubKey : string)
    (investmentID now : Z) (user : User) :
  GetUserByPubKey d pubKey = Ok user ->
  let r := handler.DeleteInvestment d pubKey (Some investmentID) now in
  (succeeded (fst r) = true <->
   exists i, In i (sql.rows (investments d)) /\
             i_id i = investmentID /\ i_user_id i = ID user) /\
  (succeeded (fst r) = false ->
   r = (Failure 400 (DatabaseError ErrInvestmentNotFound), d)).
Proof.
  intros Hu. cbv zeta. unfold handler.DeleteInvestment. rewrite Hu.
  unfold database.DeleteInvestment. cbv zeta.
  set (matches := fun i => (i_id i =? investmentID) && (i_user_id i =? ID user)).
  destruct (find matches (sql.rows (investments d))) as [investment|] eqn:Hf.
  - apply find_some in Hf. destruct Hf as [Hin Hm].
    assert (Hlen : (Z.of_nat (List.length (filter matches (sql.rows (investments d))))
                    =? 0) = false).
    { apply Z.eqb_neq.
      assert (Hi : In investment (filter matches (sql.rows (investments d))))
        by (apply filter_In; split; assumption).
      destruct (filter matches (sql.rows (investments d))); [contradiction|].
      cbn [List.length]. lia. }
    rewrite Hlen. cbn [fst succeeded]. split; [|discriminate].
    split; [|reflexivity]. intros _. exists investment.
    unfold matches in Hm. apply andb_true_iff in Hm. destruct Hm as [H1 H2].
    apply Z.eqb_eq in H1. apply Z.eqb_eq in H2. repeat split; assumption.
  - cbn [fst succeeded]. split; [|reflexivity].
    split; [discriminate|]. intros (i & Hin & H1 & H2).
    pose proof (find_none_forall _ _ Hf i Hin) as Hn. unfold matches in Hn.
    rewrite H1, H2, !Z.eqb_refl in Hn. discriminate.
Qed.

Lemma DeleteInvestment_owner_only_witness :
  handler.DeleteInvestment ledger.db_invested "alice" (Some 1) 9
  = (Failure 400 (DatabaseError ErrInvestmentNotFound), ledger.db_invested).
Proof.
  apply (DeleteInvestment_owner_only ledger.db_invested "alice" 1 9
           (user_of_row ledger.db_invested ledger.alice)); reflexivity.
Defined.

(** * The recording of a withdrawal *)

Lemma sumWithdrawals_completed (l : list WithdrawalStorage) :
  forall acc s, sumWithdrawals acc l = Some s ->
                Forall (fun w => w_status w = "completed") l.
Proof.
  induction l as [|w l IH]; intros acc s Hs; [constructor|].
  cbn [sumWithdrawals] in Hs.
  destruct (String.eqb (w_status w) "completed") eqn:Hw; [|discriminate].
  apply String.eqb_eq in Hw. constructor; [exact Hw|]. exact (IH _ _ Hs).
Qed.

Lemma completed_after_hash (l : list WithdrawalStorage) (p : WithdrawalStorage -> bool)
    (txHash : string) (X : Z) :
  (forall w, In w l -> p w = true -> w_status w = "completed") ->
  map w_amount
    (filter (fun w => String.eqb (w_status w) "completed")
       (filter (fun w => w_user_id w =? X)
          (sql.update_rows p
             (fun w => mkWithdrawalStorage (w_id w) (w_user_id w) (w_amount w)
                         StatusCompleted (Some txHash) (w_created_at w))
             l)))
  = map w_amount
      (filter (fun w => String.eqb (w_status w) "completed")
         (filter (fun w => w_user_id w =? X) l)).
Proof.
  intros Hp. induction l as [|w l IH]; [reflexivity|].
  cbn [sql.update_rows map filter].
  assert (IH' := IH (fun x Hx => Hp x (or_intror Hx))). clear IH.
  unfold sql.update_rows in IH'.
  destruct (p w) eqn:Hw.
  - cbn [w_user_id]. pose proof (Hp w (or_introl eq_refl) Hw) as Hst.
    destruct (w_user_id w =? X); [|exact IH'].
    cbn [filter w_status]. rewrite Hst.
    change (String.eqb StatusCompleted "completed") with true.
    change (String.eqb "completed" "completed") with true.
    cbn [map w_amount]. f_equal. exact IH'.
  - destruct (w_user_id w =? X); [|exact IH'].
    cbn [filter]. destruct (String.eqb (w_status w) "completed"); [|exact IH'].
    cbn [map]. f_equal. exact IH'.
Qed.

Lemma withdrawal_recorded (d : Database) (userID : Z) (amount : Q) (now : Z)
    (txHash : string) (s : Q) :
  sumWithdrawals 0 (GetWithdrawalRequestsByUser d userID) = Some s ->
  let d2 := ConfirmWithdrawalRequest (CreateWithdrawalRequest d userID amount now)
              userID in
  let d3 := match UpdateWithdrawalTxHash d2 userID txHash with
            | Ok d' => d'
            | Err _ => d2
            end in
  users d3 = users d /\
  investments d3 = investments d /\
  referral_earnings d3 = referral_earnings d /\
  deposit_requests d3 = deposit_requests d /\
  operations d3 = operations d /\
  forall X, (ledger.completed_withdrawals d3 X == ledger.completed_withdrawals d X)%Q.
Proof.
  intros Hs. cbv zeta. unfold UpdateWithdrawalTxHash.
  change (GetWithdrawalRequestsByUser
            (ConfirmWithdrawalRequest (CreateWithdrawalRequest d userID amount now)
               userID) userID)
    with (GetWithdrawalRequestsByUser d userID).
  destruct (GetWithdrawalRequestsByUser d userID) as [|latest rest] eqn:Hl.
  - repeat split; reflexivity.
  - db_simpl. repeat split; try reflexivity.
    intros X. unfold ledger.completed_withdrawals, ledger.withdrawals_of. db_simpl.
    rewrite completed_after_hash; [reflexivity|].
    intros w Hin Hp. apply andb_true_iff in Hp. destruct Hp as [Hp _].
    pose proof (sumWithdrawals_completed _ _ _ Hs) as Hall.
    rewrite Forall_forall in Hall. apply Hall.
    rewrite <- Hl. unfold GetWithdrawalRequestsByUser.
    apply (Permutation_in w (Permutation_sym (order_by_desc_perm w_created_at _))).
    apply filter_In. split; assumption.
Qed.

(** * Edge cases of the referral distribution *)


Lemma addEarnings_rows (h : Handler) (userID : Z) (P : Q) (now : Z) (chain : list Z) :
  forall (d : Database) (level : Z),
    let d' := addEarnings h d userID P level chain now in
    sql.rows (referral_earnings d')
    = sql.rows (referral_earnings d)
      ++ payout.earning_rows h userID P now
           (sql.next_id re_id (referral_earnings d)) level chain /\
    investments d' = investments d /\
    deposit_requests d' = deposit_requests d /\
    withdrawal_requests d' = withdrawal_requests d /\
    operations d' = operations d /\
    withdrawals d' = withdrawals d /\
    (forall X, ~ In X chain -> ledger.balance_of d' X = ledger.balance_of d X).
Proof.
  induction chain as [|referrerID rest IH]; intros d level; cbv zeta;
    cbn [addEarnings payout.earning_rows].
  - rewrite app_nil_r. repeat split; reflexivity.
  - cbv zeta.
    set (earnings := (P * (levelPercent h (level + 1) / 100))%Q).
    specialize (IH (AddReferralEarning d referrerID userID earnings (level + 1) now)
                  (level + 1)).
    cbv zeta in IH. destruct IH as (Hr & Hi & Hd & Hwr & Ho & Hw & Hb).
    destruct (referral_earnings_AddReferralEarning d referrerID userID earnings
                (level + 1) now) as [Hrows Hnext].
    cbv zeta in Hrows, Hnext.
    rewrite Hr, Hi, Hd, Hwr, Ho, Hw, Hrows, Hnext, <- app_assoc.
    split; [reflexivity|]. repeat (split; [reflexivity|]).
    intros X HX. rewrite Hb by (intros Hin; apply HX; right; exact Hin).
    rewrite balance_of_AddReferralEarning.
    rewrite (eqb_neq_false X referrerID); [reflexivity|].
    intros ->. apply HX. left. reflexivity.
Qed.






(** * Withdrawals through the wallet *)

(** X21.  With the wallet client as it is written, a withdrawal request is
    never answered "failed to generate wallet address": the transfer derives
    the address of the user before it sends anything, so a transfer that
    succeeded implies that the address can be derived.  Hence a balance is
    lowered only by a request that succeeds, and a request succeeds only if
    the main wallet holds at least the amount. *)
Theorem WithdrawFunds_wallet (cfg : Config) (depositAddress : string)
    (CheckDeposit : string -> Q -> string -> Z -> option bool)
    (GenerateWalletAddressFromPubKey : string -> option string)
    (getMainWallet : bool) (GetWalletBalance : option Q)
    (send : string -> Q -> option string)
    (d : Database) (pubKey : string) (amount : Q) (now : Z) :
  let h := mkHandler cfg
             (toncenter.client depositAddress CheckDeposit
                GenerateWalletAddressFromPubKey getMainWallet GetWalletBalance send) in
  let r := WithdrawFunds h d pubKey amount now in
  (forall status, fst r <> Failure status FailedToGenerateAddress) /\
  (succeeded (fst r) = false ->
   users (snd r) = users d /\ operations (snd r) = operations d) /\
  (succeeded (fst r) = true ->
   exists mainBalance userAddress txHash,
     getMainWallet = true /\
     GetWalletBalance = Some mainBalance /\ (amount <= mainBalance)%Q /\
     GenerateWalletAddressFromPubKey pubKey = Some userAddress /\
     send userAddress amount = Some txHash /\
     fst r = Success 200 (Withdrawn amount userAddress txHash)).
Proof.
  cbv zeta. unfold WithdrawFunds.
  destruct (String.eqb pubKey "" || negb (Qltb 0 amount));
    [split; [discriminate|split; [intros _; split; reflexivity|discriminate]]|].
  destruct (GetUserByPubKey d pubKey) as [user|];
    [|split; [discriminate|split; [intros _; split; reflexivity|discriminate]]].
  destruct (GetDepositsOfUser d (ID user)) as [deposits|];
    [|split; [discriminate|split; [intros _; split; reflexivity|discriminate]]].
  destruct (sumDeposits 0 deposits) as [MathDeposits|];
    [|split; [discriminate|split; [intros _; split; reflexivity|discriminate]]].
  destruct (sumWithdrawals 0 (GetWithdrawalRequestsByUser d (ID user)))
    as [Mathwithdrawal|];
    [|split; [discriminate|split; [intros _; split; reflexivity|discriminate]]].
  cbv zeta.
  destruct (Qltb (availableBalance MathDeposits Mathwithdrawal) amount);
    [split; [discriminate|split; [intros _; split; reflexivity|discriminate]]|].
  destruct (Qltb (Balance user) amount);
    [split; [discriminate|split; [intros _; split; reflexivity|discriminate]]|].
  cbn [client toncenter.client ton.WithdrawUserFunds
       ton.GenerateWalletAddressFromPubKey].
  unfold toncenter.WithdrawUserFunds.
  destruct (GenerateWalletAddressFromPubKey pubKey) as [userAddress|];
    [|split; [discriminate|split; [intros _; split; reflexivity|discriminate]]].
  destruct getMainWallet; cbn [negb];
    [|split; [discriminate|split; [intros _; split; reflexivity|discriminate]]].
  destruct GetWalletBalance as [mainBalance|];
    [|split; [discriminate|split; [intros _; split; reflexivity|discriminate]]].
  destruct (Qltb mainBalance amount) eqn:Hm;
    [split; [discriminate|split; [intros _; split; reflexivity|discriminate]]|].
  apply Qltb_ge in Hm.
  destruct (send userAddress amount) as [txHash|] eqn:Hs;
    [|split; [discriminate|split; [intros _; split; reflexivity|discriminate]]].
  cbn [fst snd succeeded].
  split; [discriminate|]. split; [discriminate|]. intros _.
  exists mainBalance, userAddress, txHash. repeat split; try reflexivity; assumption.
Qed.

(** * The routes *)

(** X22.  The route that closes an investment binds the path segments to
    the names "pub_key" and "investment_id", while the handler reads
    "pubkey" and "id": whatever the path, the handler sees two empty
    strings, answers 400 "invalid investment id" and changes nothing.  The
    routes of the history and of the deletion of a user pass their segment
    on. *)
Theorem DeleteInvestment_route (pub_key investment_id : string) (d : Database)
    (now : Z) :
  router.DeleteInvestment pub_key investment_id d now
  = (Failure 400 InvalidInvestmentID, d) /\
  (forall pageStr pageSizeStr,
     router.GetUserOperations pub_key pageStr pageSizeStr d
     = queries.GetUserOperations d pub_key pageStr pageSizeStr) /\
  (forall AdminAPIKey apiKey id,
     router.DeleteUser AdminAPIKey apiKey id d
     = admin.AdminAuth AdminAPIKey apiKey (admin.DeleteUser id) d).
Proof.
  split; [reflexivity|]. split.
  - intros pageStr pageSizeStr. reflexivity.
  - intros AdminAPIKey apiKey id. reflexivity.
Qed.

(** * The table of recorded withdrawals *)

Lemma entries_UpdateWithdrawalTxHash (d : Database) (userID : Z) (txHash : string) :
  records.entries
    match UpdateWithdrawalTxHash d userID txHash with
    | Ok d' => d'
    | Err _ => d
    end
  = records.entries d.
Proof.
  unfold UpdateWithdrawalTxHash.
  destruct (GetWithdrawalRequestsByUser d userID) as [|latest rest]; [reflexivity|].
  unfold records.entries. db_simpl. apply map_update_rows. reflexivity.
Qed.

Lemma entries_WithdrawFunds (h : Handler) (d : Database) (pubKey : string)
    (amount : Q) (now : Z) :
  records.entries (snd (handler.WithdrawFunds h d pubKey amount now))
  = records.entries d.
Proof.
  unfold handler.WithdrawFunds.
  case_if; [reflexivity|].
  destruct (GetUserByPubKey d pubKey) as [user|]; [|reflexivity].
  destruct (GetDepositsOfUser _ _) as [deposits|]; [|reflexivity].
  destruct (sumDeposits _ _) as [MathDeposits|]; [|reflexivity].
  destruct (sumWithdrawals _ _) as [Mathwithdrawal|]; [|reflexivity].
  cbv zeta. case_if; [reflexivity|]. case_if; [reflexivity|].
  destruct (ton.WithdrawUserFunds _ _ _) as [txHash|]; [|reflexivity].
  pose proof (entries_UpdateWithdrawalTxHash
                (ConfirmWithdrawalRequest
                   (CreateWithdrawalRequest d (ID user) amount now) (ID user))
                (ID user) txHash) as He.
  destruct (ton.GenerateWalletAddressFromPubKey _ _); cbn [snd]; exact He.
Qed.

Lemma entries_step (h : Handler) (d : Database) (r : ledger.Request) :
  records.entries (ledger.step h d r) = records.entries d.
Proof.
  destruct r; cbn [ledger.step].
  - unfold CreateUser.
    destruct (GetUserByPubKey d pubKey); [reflexivity|].
    case_if; [reflexivity|]. cbv zeta.
    destruct (existsb _ (users d)); reflexivity.
  - unfold handler.CreateInvestment.
    case_if; [reflexivity|]. case_if; [reflexivity|].
    destruct (lookup_type _ reqType) as [investConfig|]; [|reflexivity].
    case_if; [reflexivity|].
    destruct (GetUserByPubKey d pubKey) as [user|]; [|reflexivity].
    destruct (database.CreateInvestment d (ID user) reqType amount investConfig now)
      as [d'|e] eqn:Hc; [|destruct e; reflexivity].
    destruct (db_CreateInvestment_ok _ _ _ _ _ _ _ Hc)
      as (b & _ & _ & _ & _ & _ & _ & _ & _ & _ & Hw).
    cbn [snd]. unfold records.entries. rewrite Hw. reflexivity.
  - unfold handler.DeleteInvestment.
    destruct investmentID as [investmentID|]; [|reflexivity].
    destruct (GetUserByPubKey d pubKey) as [user|]; [|reflexivity].
    destruct (database.DeleteInvestment d (ID user) investmentID now)
      as [d'|e] eqn:Hc; [|reflexivity].
    destruct (db_DeleteInvestment_ok _ _ _ _ _ Hc)
      as (i & _ & _ & _ & _ & _ & _ & _ & _ & Hw).
    cbn [snd]. unfold records.entries. rewrite Hw. reflexivity.
  - unfold handler.CreateDeposit.
    case_if; [reflexivity|].
    destruct (GetUserByPubKey d pubKey) as [user|]; [|reflexivity].
    cbv zeta. case_if; [reflexivity|].
    unfold CreateDepositRequest. cbv zeta.
    destruct (GetDepositRequest _ _); reflexivity.
  - unfold handler.ConfirmDeposit.
    case_if; [reflexivity|].
    destruct (GetUserByPubKey d pubKey) as [user|]; [|reflexivity].
    destruct (GetDepositRequest d depositID) as [deposit|]; [|reflexivity].
    case_if; [reflexivity|]. case_if; [reflexivity|].
    cbv zeta. case_if; [reflexivity|].
    destruct (ton.CheckDeposit _ _ _ _ _) as [[|]|]; reflexivity.
  - apply entries_WithdrawFunds.
  - unfold ProcessReferralEarnings.
    destruct (referrerChain d userID 3) as [chain|]; [|reflexivity].
    pose proof (addEarnings_rows h userID profitAmount now chain d 0) as Hr.
    cbv zeta in Hr. destruct Hr as (_ & _ & _ & _ & _ & Hw & _).
    unfold records.entries. rewrite Hw. reflexivity.
Qed.

(** X23.  No request, and neither admin request, adds or removes a row of
    the table [withdrawals] or changes the user, the amount or the time of
    one; only status and hash of existing rows can change.  A store that
    started empty therefore never has a recorded withdrawal: the ceiling of
    every user stays at 0.8 times the completed deposits, however much has
    been withdrawn. *)
Theorem withdrawals_never_recorded (h : Handler) (d : Database) (r : ledger.Request) :
  records.entries (ledger.step h d r) = records.entries d /\
  (forall userID newBalance,
     records.entries (UpdateUserBalance d userID newBalance) = records.entries d) /\
  (forall id, records.entries (DeleteUser d id) = records.entries d) /\
  (forall (rs : list (Handler * ledger.Request)) (userID : Z),
     withdrawals (ledger.steps database.empty rs) = [] /\
     (ledger.withdrawal_ceiling (ledger.steps database.empty rs) userID
      == 0.8 * ledger.completed_deposits (ledger.steps database.empty rs) userID)%Q).
Proof.
  split; [apply entries_step|]. split; [reflexivity|]. split; [reflexivity|].
  assert (Hsteps : forall (rs : list (Handler * ledger.Request)) d0,
            records.entries d0 = [] -> records.entries (ledger.steps d0 rs) = []).
  { induction rs as [|[h0 r0] rs IH]; intros d0 H0; cbn [ledger.steps].
    - exact H0.
    - apply IH. rewrite entries_step. exact H0. }
  intros rs userID.
  assert (Hw : withdrawals (ledger.steps database.empty rs) = []).
  { specialize (Hsteps rs database.empty eq_refl). unfold records.entries in Hsteps.
    destruct (withdrawals (ledger.steps database.empty rs)); [reflexivity|discriminate]. }
  split; [exact Hw|].
  unfold ledger.withdrawal_ceiling, ledger.completed_withdrawals, ledger.withdrawals_of.
  rewrite Hw. cbn [filter map ledger.sumQ]. ring.
Qed.

(** * Requests of one user and the accounts of the others *)

Lemma filter_delete_other (l : list Investment) (userID investmentID X : Z) :
  X <> userID ->
  filter (fun i => i_user_id i =? X)
    (sql.delete_rows (fun i => (i_id i =? investmentID) && (i_user_id i =? userID)) l)
  = filter (fun i => i_user_id i =? X) l.
Proof.
  intros Hne. unfold sql.delete_rows.
  induction l as [|i l IH]; cbn [filter]; [reflexivity|].
  destruct ((i_id i =? investmentID) && (i_user_id i =? userID)) eqn:Hm; cbn [negb filter].
  - apply andb_true_iff in Hm. destruct Hm as [_ Hm]. apply Z.eqb_eq in Hm.
    rewrite Hm, (eqb_neq_false userID X) by congruence. exact IH.
  - rewrite IH. reflexivity.
Qed.

Lemma others_CreateInvestment (h : Handler) (d : Database) (pubKey reqType : string)
    (amount : Q) (now : Z) (user : User) (X : Z) :
  GetUserByPubKey d pubKey = Ok user -> X <> ID user ->
  let d' := snd (handler.CreateInvestment h d pubKey reqType amount now) in
  ledger.balance_of d' X = ledger.balance_of d X /\
  getUserInvestments d' X = getUserInvestments d X.
Proof.
  intros Hu Hne. cbv zeta. unfold handler.CreateInvestment.
  case_if; [split; reflexivity|]. case_if; [split; reflexivity|].
  destruct (lookup_type _ reqType) as [investConfig|]; [|split; reflexivity].
  case_if; [split; reflexivity|]. rewrite Hu.
  destruct (database.CreateInvestment d (ID user) reqType amount investConfig now)
    as [d'|e] eqn:Hc; [|destruct e; split; reflexivity].
  destruct (db_CreateInvestment_ok _ _ _ _ _ _ _ Hc)
    as (b & _ & _ & _ & Hb & _ & Hi & _).
  cbn [snd]. split; [apply Hb; exact Hne|].
  unfold getUserInvestments. rewrite Hi, filter_app. cbn [filter i_user_id].
  rewrite (eqb_neq_false (ID user) X) by congruence. apply app_nil_r.
Qed.

Lemma others_DeleteInvestment (d : Database) (pubKey : string)
    (investmentID : option Z) (now : Z) (user : User) (X : Z) :
  GetUserByPubKey d pubKey = Ok user -> X <> ID user ->
  let d' := snd (handler.DeleteInvestment d pubKey investmentID now) in
  ledger.balance_of d' X = ledger.balance_of d X /\
  getUserInvestments d' X = getUserInvestments d X.
Proof.
  intros Hu Hne. cbv zeta. unfold handler.DeleteInvestment.
  destruct investmentID as [investmentID|]; [|split; reflexivity].
  rewrite Hu.
  destruct (database.DeleteInvestment d (ID user) investmentID now) as [d'|e] eqn:Hc;
    [|split; reflexivity].
  destruct (db_DeleteInvestment_ok _ _ _ _ _ Hc) as (i & _ & _ & Hb & _ & Hi & _).
  cbn [snd]. split; [apply Hb; exact Hne|].
  unfold getUserInvestments. rewrite Hi. apply filter_delete_other. exact Hne.
Qed.

Lemma others_ConfirmDeposit (h : Handler) (d : Database) (pubKey : string)
    (depositID : Z) (user : User) (X : Z) :
  GetUserByPubKey d pubKey = Ok user -> X <> ID user ->
  let d' := snd (handler.ConfirmDeposit h d pubKey depositID) in
  ledger.balance_of d' X = ledger.balance_of d X /\
  getUserInvestments d' X = getUserInvestments d X.
Proof.
  intros Hu Hne. cbv zeta. unfold handler.ConfirmDeposit.
  case_if; [split; reflexivity|]. rewrite Hu.
  destruct (GetDepositRequest d depositID) as [deposit|]; [|split; reflexivity].
  case_if; [split; reflexivity|]. case_if; [split; reflexivity|].
  cbv zeta. case_if; [split; reflexivity|].
  destruct (ton.CheckDeposit _ _ _ _ _) as [[|]|]; try (split; reflexivity).
  cbn [snd]. split; [|reflexivity].
  rewrite balance_of_set, (eqb_neq_false X (ID user) Hne). reflexivity.
Qed.

Lemma others_WithdrawFunds (h : Handler) (d : Database) (pubKey : string)
    (amount : Q) (now : Z) (user : User) (X : Z) :
  GetUserByPubKey d pubKey = Ok user -> X <> ID user ->
  let d' := snd (handler.WithdrawFunds h d pubKey amount now) in
  ledger.balance_of d' X = ledger.balance_of d X /\
  getUserInvestments d' X = getUserInvestments d X.
Proof.
  intros Hu Hne. cbv zeta. unfold handler.WithdrawFunds.
  case_if; [split; reflexivity|]. rewrite Hu.
  destruct (GetDepositsOfUser _ _) as [deposits|]; [|split; reflexivity].
  destruct (sumDeposits _ _) as [MathDeposits|]; [|split; reflexivity].
  destruct (sumWithdrawals 0 (GetWithdrawalRequestsByUser d (ID user)))
    as [Mathwithdrawal|] eqn:Hsw; [|split; reflexivity].
  cbv zeta. case_if; [split; reflexivity|]. case_if; [split; reflexivity|].
  destruct (ton.WithdrawUserFunds _ _ _) as [txHash|]; [|split; reflexivity].
  pose proof (withdrawal_recorded d (ID user) amount now txHash Mathwithdrawal Hsw)
    as Hrec. cbv zeta in Hrec.
  set (d3 := match UpdateWithdrawalTxHash _ _ _ with Ok d' => d' | Err _ => _ end) in *.
  destruct Hrec as (Hus & Hinv & _).
  assert (Hb : ledger.balance_of
                 (UpdateUserBalance d3 (ID user) (Balance user - amount)) X
               = ledger.balance_of d X).
  { rewrite balance_of_set, (eqb_neq_false X (ID user) Hne).
    unfold ledger.balance_of. rewrite Hus. reflexivity. }
  assert (Hi : getUserInvestments
                 (UpdateUserBalance d3 (ID user) (Balance user - amount)) X
               = getUserInvestments d X).
  { unfold getUserInvestments, UpdateUserBalance. db_simpl. rewrite Hinv. reflexivity. }
  destruct (ton.GenerateWalletAddressFromPubKey _ _); cbn [snd]; split; assumption.
Qed.

(** X24.  A request made with the public key of a user changes neither the
    balance nor the investments of any other user: this holds for opening
    and closing an investment, for creating and confirming a deposit and
    for a withdrawal, whether the request succeeds or fails. *)
Theorem requests_leave_others (h : Handler) (d : Database) (pubKey : string)
    (user : User) (X : Z) :
  GetUserByPubKey d pubKey = Ok user ->
  X <> ID user ->
  forall d',
    (exists reqType amount now,
       d' = snd (handler.CreateInvestment h d pubKey reqType amount now)) \/
    (exists investmentID now,
       d' = snd (handler.DeleteInvestment d pubKey investmentID now)) \/
    (exists amount now, d' = snd (handler.CreateDeposit h d pubKey amount now)) \/
    (exists depositID, d' = snd (handler.ConfirmDeposit h d pubKey depositID)) \/
    (exists amount now, d' = snd (handler.WithdrawFunds h d pubKey amount now)) ->
    ledger.balance_of d' X = ledger.balance_of d X /\
    getUserInvestments d' X = getUserInvestments d X.
Proof.
  intros Hu Hne d'
    [(reqType & amount & now & ->)|[(investmentID & now & ->)|[(amount & now & ->)|
     [(depositID & ->)|(amount & now & ->)]]]].
  - apply (others_CreateInvestment h d pubKey reqType amount now user X Hu Hne).
  - apply (others_DeleteInvestment d pubKey investmentID now user X Hu Hne).
  - unfold handler.CreateDeposit.
    case_if; [split; reflexivity|]. rewrite Hu. cbv zeta.
    case_if; [split; reflexivity|].
    unfold CreateDepositRequest. cbv zeta.
    destruct (GetDepositRequest _ _); split; reflexivity.
  - apply (others_ConfirmDeposit h d pubKey depositID user X Hu Hne).
  - apply (others_WithdrawFunds h d pubKey amount now user X Hu Hne).
Qed.

Lemma requests_leave_others_witness :
  ledger.balance_of
    (snd (handler.WithdrawFunds ledger.h_yes ledger.db_ceiling "alice" 100 7)) 1000000002
  = ledger.balance_of ledger.db_ceiling 1000000002.
Proof.
  apply (requests_leave_others ledger.h_yes ledger.db_ceiling "alice"
           (user_of_row ledger.db_ceiling ledger.alice) 1000000002).
  - reflexivity.
  - discriminate.
  - right. right. right. right. exists 100%Q, 7. reflexivity.
Defined.

(** * The history only grows *)

Lemma extends_tables (d d' : Database) :
  operations d' = operations d ->
  referral_earnings d' = referral_earnings d ->
  deposit_requests d' = deposit_requests d ->
  records.extends d d'.
Proof.
  intros Ho Hr Hd. unfold records.extends. rewrite Ho, Hr, Hd.
  split; [exists []; symmetry; apply app_nil_r|].
  split; [exists []; symmetry; apply app_nil_r|].
  split; [exists []; symmetry; apply app_nil_r|].
  intros deposit Hin _. exact Hin.
Qed.

Lemma extends_refl (d : Database) : records.extends d d.
Proof.
  apply extends_tables; reflexivity.
Qed.

Lemma extends_trans (d1 d2 d3 : Database) :
  records.extends d1 d2 -> records.extends d2 d3 -> records.extends d1 d3.
Proof.
  intros ((o1 & Ho1) & (r1 & Hr1) & (q1 & Hq1) & Hc1)
         ((o2 & Ho2) & (r2 & Hr2) & (q2 & Hq2) & Hc2).
  split; [exists (o1 ++ o2); rewrite Ho2, Ho1, app_assoc; reflexivity|].
  split; [exists (r1 ++ r2); rewrite Hr2, Hr1, app_assoc; reflexivity|].
  split; [exists (q1 ++ q2); rewrite Hq2, Hq1, app_assoc; reflexivity|].
  intros deposit Hin Hst. apply Hc2; [apply Hc1; assumption|exact Hst].
Qed.

Lemma extends_operation (d : Database) (userID : Z) (type : string) (amount : Q)
    (description : Description) (created_at : Z) (extra : Extra) :
  records.extends d (insert_operation d userID type amount description created_at extra).
Proof.
  unfold records.extends. db_simpl.
  split; [eexists; reflexivity|].
  split; [exists []; symmetry; apply app_nil_r|].
  split; [exists []; symmetry; apply app_nil_r|].
  intros deposit Hin _. exact Hin.
Qed.

Lemma extends_completed (d : Database) (id : Z) :
  records.extends d (UpdateDepositStatus d id "completed").
Proof.
  unfold records.extends, UpdateDepositStatus. db_simpl.
  split; [exists []; symmetry; apply app_nil_r|].
  split; [exists []; symmetry; apply app_nil_r|].
  split.
  - exists []. rewrite app_nil_r. apply map_update_rows. reflexivity.
  - intros deposit Hin Hst. unfold sql.update_rows. apply in_map_iff.
    exists deposit. split; [|exact Hin].
    destruct (d_id deposit =? id); [|reflexivity].
    destruct deposit. cbn in *. rewrite Hst. reflexivity.
Qed.

Lemma extends_db_CreateInvestment (d d' : Database) (userID : Z) (investType : string)
    (amount : Q) (config : InvestmentTypeConfig) (now : Z) :
  database.CreateInvestment d userID investType amount config now = Ok d' ->
  records.extends d d'.
Proof.
  unfold database.CreateInvestment.
  destruct (find (fun r => u_id r =? userID) (users d)) as [r|]; [|discriminate].
  cbv zeta. destruct (Qltb (u_balance r) amount); [discriminate|].
  intros H. injection H as <-.
  eapply extends_trans; [|apply extends_operation].
  apply extends_tables; reflexivity.
Qed.

Lemma extends_db_DeleteInvestment (d d' : Database) (userID investmentID now : Z) :
  database.DeleteInvestment d userID investmentID now = Ok d' ->
  records.extends d d'.
Proof.
  unfold database.DeleteInvestment. cbv zeta.
  destruct (find _ (sql.rows (investments d))) as [investment|]; [|discriminate].
  destruct (Z.of_nat _ =? 0); [discriminate|].
  intros H. injection H as <-.
  eapply extends_trans; [|apply extends_operation].
  apply extends_tables; reflexivity.
Qed.

Lemma extends_AddReferralEarning (d : Database) (referrerID referredID : Z)
    (amount : Q) (level now : Z) :
  records.extends d (AddReferralEarning d referrerID referredID amount level now).
Proof.
  unfold records.extends, AddReferralEarning. db_simpl.
  split; [exists []; symmetry; apply app_nil_r|].
  split; [eexists; reflexivity|].
  split; [exists []; symmetry; apply app_nil_r|].
  intros deposit Hin _. exact Hin.
Qed.

Lemma extends_addEarnings (h : Handler) (userID : Z) (P : Q) (now : Z)
    (chain : list Z) :
  forall (d : Database) (level : Z),
    records.extends d (addEarnings h d userID P level chain now).
Proof.
  induction chain as [|referrerID rest IH]; intros d level; cbn [addEarnings].
  - apply extends_refl.
  - cbv zeta. eapply extends_trans; [apply extends_AddReferralEarning|apply IH].
Qed.

Lemma extends_step (h : Handler) (d : Database) (r : ledger.Request) :
  records.extends d (ledger.step h d r).
Proof.
  destruct r; cbn [ledger.step].
  - unfold CreateUser.
    destruct (GetUserByPubKey d pubKey); [apply extends_refl|].
    case_if; [apply extends_refl|]. cbv zeta.
    destruct (existsb _ (users d)); [apply extends_refl|].
    apply extends_tables; reflexivity.
  - unfold handler.CreateInvestment.
    case_if; [apply extends_refl|]. case_if; [apply extends_refl|].
    destruct (lookup_type _ reqType) as [investConfig|]; [|apply extends_refl].
    case_if; [apply extends_refl|].
    destruct (GetUserByPubKey d pubKey) as [user|]; [|apply extends_refl].
    destruct (database.CreateInvestment d (ID user) reqType amount investConfig now)
      as [d'|e] eqn:Hc; [|destruct e; apply extends_refl].
    apply (extends_db_CreateInvestment _ _ _ _ _ _ _ Hc).
  - unfold handler.DeleteInvestment.
    destruct investmentID as [investmentID|]; [|apply extends_refl].
    destruct (GetUserByPubKey d pubKey) as [user|]; [|apply extends_refl].
    destruct (database.DeleteInvestment d (ID user) investmentID now)
      as [d'|e] eqn:Hc; [|apply extends_refl].
    apply (extends_db_DeleteInvestment _ _ _ _ _ Hc).
  - unfold handler.CreateDeposit.
    case_if; [apply extends_refl|].
    destruct (GetUserByPubKey d pubKey) as [user|]; [|apply extends_refl].
    cbv zeta. case_if; [apply extends_refl|].
    unfold CreateDepositRequest. cbv zeta.
    assert (He : records.extends d
                   (with_deposit_requests d
                      (sql.insert d_id
                         (fun id => mkDepositRequest id (ID user) amount StatusPending
                                      (memo_of (ID user) now) now)
                         (deposit_requests d)))).
    { unfold records.extends. db_simpl.
      split; [exists []; symmetry; apply app_nil_r|].
      split; [exists []; symmetry; apply app_nil_r|].
      split; [rewrite map_app; eexists; reflexivity|].
      intros deposit Hin _. apply in_or_app. left. exact Hin. }
    destruct (GetDepositRequest _ _); exact He.
  - unfold handler.ConfirmDeposit.
    case_if; [apply extends_refl|].
    destruct (GetUserByPubKey d pubKey) as [user|]; [|apply extends_refl].
    destruct (GetDepositRequest d depositID) as [deposit|]; [|apply extends_refl].
    case_if; [apply extends_refl|]. case_if; [apply extends_refl|].
    cbv zeta. case_if; [apply extends_refl|].
    destruct (ton.CheckDeposit _ _ _ _ _) as [[|]|]; try apply extends_refl.
    cbn [snd]. eapply extends_trans; [apply extends_completed|].
    apply extends_tables; reflexivity.
  - unfold handler.WithdrawFunds.
    case_if; [apply extends_refl|].
    destruct (GetUserByPubKey d pubKey) as [user|]; [|apply extends_refl].
    destruct (GetDepositsOfUser _ _) as [deposits|]; [|apply extends_refl].
    destruct (sumDeposits _ _) as [MathDeposits|]; [|apply extends_refl].
    destruct (sumWithdrawals 0 (GetWithdrawalRequestsByUser d (ID user)))
      as [Mathwithdrawal|] eqn:Hsw; [|apply extends_refl].
    cbv zeta. case_if; [apply extends_refl|]. case_if; [apply extends_refl|].
    destruct (ton.WithdrawUserFunds _ _ _) as [txHash|];
      [|apply extends_tables; reflexivity].
    pose proof (withdrawal_recorded d (ID user) amount now txHash Mathwithdrawal Hsw)
      as Hrec. cbv zeta in Hrec.
    set (d3 := match UpdateWithdrawalTxHash _ _ _ with Ok d' => d' | Err _ => _ end) in *.
    destruct Hrec as (_ & _ & Hre & Hdep & Hops & _).
    assert (H4 : records.extends d
                   (UpdateUserBalance d3 (ID user) (Balance user - amount)))
      by (apply extends_tables; assumption).
    destruct (ton.GenerateWalletAddressFromPubKey _ _); cbn [snd]; [|exact H4].
    eapply extends_trans; [exact H4|]. apply extends_operation.
  - unfold ProcessReferralEarnings.
    destruct (referrerChain d userID 3); [apply extends_addEarnings|apply extends_refl].
Qed.

(** X25.  The history only grows: along every sequence of requests, and
    under both admin requests, the operations and the referral earnings
    recorded so far stay first and unchanged, no deposit request disappears
    or changes its user, amount, memo or time, and a completed deposit
    request never changes again. *)
Theorem history_only_grows (d : Database) (rs : list (Handler * ledger.Request)) :
  records.extends d (ledger.steps d rs) /\
  (forall userID newBalance, records.extends d (UpdateUserBalance d userID newBalance)) /\
  (forall id, records.extends d (DeleteUser d id)).
Proof.
  split; [|split].
  - revert d. induction rs as [|[h r] rs IH]; intros d; cbn [ledger.steps].
    + apply extends_refl.
    + eapply extends_trans; [apply extends_step|apply IH].
  - intros userID newBalance. apply extends_tables; reflexivity.
  - intros id. apply extends_tables; reflexivity.
Qed.

(** * Nothing settles *)

Lemma unsettled_tables (d d' : Database) :
  deposit_requests d' = deposit_requests d ->
  withdrawal_requests d' = withdrawal_requests d ->
  withdrawals d' = withdrawals d ->
  records.unsettled d -> records.unsettled d'.
Proof.
  intros Hd Hwr Hw. unfold records.unsettled. rewrite Hd, Hwr, Hw. tauto.
Qed.

Lemma unsettled_step (h : Handler) (d : Database) (r : ledger.Request) :
  records.unsettled d -> records.unsettled (ledger.step h d r).
Proof.
  intros Hun. destruct r; cbn [ledger.step].
  - unfold CreateUser.
    destruct (GetUserByPubKey d pubKey); [exact Hun|].
    case_if; [exact Hun|]. cbv zeta.
    destruct (existsb _ (users d)); [exact Hun|].
    apply (unsettled_tables d); [reflexivity..|exact Hun].
  - unfold handler.CreateInvestment.
    case_if; [exact Hun|]. case_if; [exact Hun|].
    destruct (lookup_type _ reqType) as [investConfig|]; [|exact Hun].
    case_if; [exact Hun|].
    destruct (GetUserByPubKey d pubKey) as [user|]; [|exact Hun].
    destruct (database.CreateInvestment d (ID user) reqType amount investConfig now)
      as [d'|e] eqn:Hc; [|destruct e; exact Hun].
    destruct (db_CreateInvestment_ok _ _ _ _ _ _ _ Hc)
      as (b & _ & _ & _ & _ & _ & _ & _ & Hd & Hwr & Hw).
    apply (unsettled_tables d); assumption.
  - unfold handler.DeleteInvestment.
    destruct investmentID as [investmentID|]; [|exact Hun].
    destruct (GetUserByPubKey d pubKey) as [user|]; [|exact Hun].
    destruct (database.DeleteInvestment d (ID user) investmentID now)
      as [d'|e] eqn:Hc; [|exact Hun].
    destruct (db_DeleteInvestment_ok _ _ _ _ _ Hc)
      as (investment & _ & _ & _ & _ & _ & _ & Hd & Hwr & Hw).
    apply (unsettled_tables d); assumption.
  - unfold handler.CreateDeposit.
    case_if; [exact Hun|].
    destruct (GetUserByPubKey d pubKey) as [user|]; [|exact Hun].
    cbv zeta. case_if; [exact Hun|].
    unfold CreateDepositRequest. cbv zeta.
    assert (He : records.unsettled
                   (with_deposit_requests d
                      (sql.insert d_id
                         (fun id => mkDepositRequest id (ID user) amount StatusPending
                                      (memo_of (ID user) now) now)
                         (deposit_requests d)))).
    { destruct Hun as (Hw & Hwr & Hp). unfold records.unsettled. db_simpl.
      split; [exact Hw|]. split; [exact Hwr|].
      apply Forall_app. split; [exact Hp|]. constructor; [reflexivity|constructor]. }
    destruct (GetDepositRequest _ _); exact He.
  - destruct (ConfirmDeposit_refused h d pubKey depositID) as [_ Hd].
    rewrite Hd. exact Hun.
  - destruct (WithdrawFunds_stops h d pubKey amount now) as (_ & _ & _ & Hd).
    + destruct Hun as (Hw & _). rewrite Hw. constructor.
    + rewrite Hd. exact Hun.
  - unfold ProcessReferralEarnings.
    destruct (referrerChain d userID 3) as [chain|]; [|exact Hun].
    pose proof (addEarnings_rows h userID profitAmount now chain d 0) as Hr.
    cbv zeta in Hr. destruct Hr as (_ & _ & Hd & Hwr & _ & Hw & _).
    apply (unsettled_tables d); assumption.
Qed.

(** X26.  Nothing settles.  On every store that the requests build from the
    empty one, every deposit request is still pending and neither a
    withdrawal request nor a withdrawal is recorded; every withdrawal
    request fails and changes nothing, and so does every confirmation of a
    deposit.  The admin requests keep it so. *)
Theorem nothing_settles (rs : list (Handler * ledger.Request)) :
  records.unsettled (ledger.steps database.empty rs) /\
  (forall h pubKey amount now,
     succeeded (fst (WithdrawFunds h (ledger.steps database.empty rs) pubKey amount now))
     = false /\
     snd (WithdrawFunds h (ledger.steps database.empty rs) pubKey amount now)
     = ledger.steps database.empty rs) /\
  (forall h pubKey depositID,
     succeeded (fst (ConfirmDeposit h (ledger.steps database.empty rs) pubKey depositID))
     = false /\
     snd (ConfirmDeposit h (ledger.steps database.empty rs) pubKey depositID)
     = ledger.steps database.empty rs) /\
  (forall userID newBalance,
     records.unsettled
       (UpdateUserBalance (ledger.steps database.empty rs) userID newBalance)) /\
  (forall id, records.unsettled (DeleteUser (ledger.steps database.empty rs) id)).
Proof.
  assert (Hsteps : forall (l : list (Handler * ledger.Request)) d0,
            records.unsettled d0 -> records.unsettled (ledger.steps d0 l)).
  { induction l as [|[h0 r0] l IH]; intros d0 H0; cbn [ledger.steps].
    - exact H0.
    - apply IH, unsettled_step, H0. }
  assert (Hun : records.unsettled (ledger.steps database.empty rs)).
  { apply Hsteps. repeat split; constructor. }
  split; [exact Hun|]. split; [|split; [|split]].
  - intros h pubKey amount now.
    destruct (WithdrawFunds_stops h (ledger.steps database.empty rs) pubKey amount now)
      as (Hs & _ & _ & Hd).
    + destruct Hun as (Hw & _). rewrite Hw. constructor.
    + split; assumption.
  - intros h pubKey depositID. apply ConfirmDeposit_refused.
  - intros userID newBalance.
    apply (unsettled_tables (ledger.steps database.empty rs)); [reflexivity..|exact Hun].
  - intros id.
    apply (unsettled_tables (ledger.steps database.empty rs)); [reflexivity..|exact Hun].
Qed.
